(** * gridd/main/message_handler.c: reply contexts, request contexts and the
      handler registry of the gridd server, as a shallow embedding.

    The C code manipulates heap blocks through pointers.  The embedding keeps
    that shape: a pointer is a number ([NULL] is 0), the heap is a finite map
    from live pointers to typed blocks, and every function of the source is a
    computation in a state monad over the heap that stops ([None]) where the
    C program would have undefined behaviour (reading through a dangling
    pointer, releasing a block that is not live).  A trace records each
    allocation, each release and each socket write, in order. *)

From Stdlib Require Import ZArith.
From stdpp Require Import base option gmap strings list fin_maps.

Set Default Proof Using "Type".

Open Scope Z_scope.

(** ** Pointers, bytes, errors *)

Abbreviation ptr := N (only parsing).
Definition NULL : ptr := 0%N.

Abbreviation bytes := (list Byte.byte) (only parsing).

(** [GError]: an error code and a message (the domain quark is left out). *)
Record GError := mkGError { error_code : Z; error_message : string }.

(** [g_prefix_error(err, prefix)] of GLib: nothing happens when no error is
    set; otherwise the message of the error gets the prefix in front. *)
Definition g_prefix_error (err : option GError) (prefix : string) : option GError :=
  match err with
  | None => None
  | Some e => Some (mkGError (error_code e) (prefix +:+ error_message e))
  end.

(** [struct timeval]. *)
Record timeval := mkTimeval { tv_sec : Z; tv_usec : Z }.

(** [gint] values. *)
Definition is_gint (z : Z) : Prop := - 2 ^ 31 <= z < 2 ^ 31.

(** [(guint) z]: conversion to the unsigned type of 32 bits, of a [gint]
    or of a wider [gsize]. *)
Definition to_guint (z : Z) : Z := z mod 2 ^ 32.

(** The events the functions of this file leave behind. *)
Inductive event :=
| EvAlloc (p : ptr)
| EvFree (p : ptr)
| EvWrite (fd : Z) (timeout : Z) (data : bytes).

(** How many times the trace releases [p]. *)
Definition is_free_of (p : ptr) (e : event) : bool :=
  match e with EvFree q => N.eqb p q | _ => false end.

Definition frees (p : ptr) (t : list event) : nat :=
  length (List.filter (is_free_of p) t).

(** The socket writes of a trace, in order. *)
Fixpoint writes (t : list event) : list (Z * Z * bytes) :=
  match t with
  | [] => []
  | EvWrite fd timeout data :: t' => (fd, timeout, data) :: writes t'
  | _ :: t' => writes t'
  end.

Lemma gset_union_twice (X Y D : gset N) : X ∪ (Y ∪ (X ∪ (Y ∪ D))) = X ∪ (Y ∪ D).
Proof. apply set_eq. intros x. rewrite !elem_of_union. tauto. Qed.

Section Gridd.

(** ** What the file takes from the rest of the code base

    Types and functions declared in headers that are not part of this file:
    the message objects of metautils with their constructors, the marshaller,
    the transport, the address records and the socket calls. *)

Context {MESSAGE : Type}.
Context {addr_info_t : Type} (addr_info_zero : addr_info_t).
Context {sockaddr_storage : Type} (sockaddr_zero : sockaddr_storage).
Context (sizeof_sockaddr_storage : Z).

(** [metaXServer_reply_simple(request, code, message)]. *)
Context (metaXServer_reply_simple : option MESSAGE -> Z -> string -> MESSAGE).
(** [metautils_message_add_field(m, name, value, valuelen)]: the message
    after the call. *)
Context (metautils_message_add_field : MESSAGE -> string -> bytes -> MESSAGE).
(** [metautils_message_set_BODY(m, body, bodylen)]: the message after the
    call. *)
Context (metautils_message_set_BODY : MESSAGE -> bytes -> MESSAGE).
(** [message_marshall_gba_and_clean(m)]: the encoded bytes, or [None] for a
    NULL result. *)
Context (message_marshall_gba_and_clean : MESSAGE -> option bytes).
(** [sock_to_write(fd, ms, buf, bufSize, err)]: the returned count and the
    error it leaves in [*err], if any. *)
Context (sock_to_write : Z -> Z -> bytes -> Z * option GError).
(** The global [default_to_operation] of the server. *)
Context (default_to_operation : Z).

(** [gettimeofday(&tv, NULL)]: the time read. *)
Context (gettimeofday : timeval).
(** [getpeername(fd, &ss, &len)] and [getsockname(fd, &ss, &len)]: the
    contents of [ss] and [len] after the call, from those before it (a call
    that fails leaves them as they were). *)
Context (getpeername getsockname :
  Z -> sockaddr_storage -> Z -> sockaddr_storage * Z).
(** [addrinfo_from_sockaddr(a, sa, saSize)]: the contents of [*a] after the
    call, from those before it. *)
Context (addrinfo_from_sockaddr :
  addr_info_t -> sockaddr_storage -> Z -> addr_info_t).

(** [REPLYCTX_DESTROY_ON_CLEAN] and [REPLYCTX_COPY], the bits of the
    [flags] of [reply_context_set_body]. *)
Context (REPLYCTX_DESTROY_ON_CLEAN REPLYCTX_COPY : Z).

(** Handlers: the two function-pointer types, the tags with their deep
    copy, the length of the name field, and what [GSETERROR(err, msg)]
    leaves in [*err], from what was there before. *)
Context {message_handler_f message_handler_v2_f service_tag_s : Type}.
Context (service_tag_dup : service_tag_s -> service_tag_s).
Context (SIZE_MSGHANDLERNAME : nat).
Context (GSETERROR : option GError -> string -> option GError).

(** ** The heap *)

(** [struct request_context_s]; it is declared in message_handler.h, and
    these are the fields the functions of this file read and write. *)
Record request_context_s := mkRequestContext {
  request : option MESSAGE;
  fd : Z;
  tv_start : timeval;
  remote_addr : ptr;
  local_addr : ptr;
}.

(** [memset(request_info, 0, sizeof(struct request_context_s))]. *)
Definition request_context_zero : request_context_s :=
  mkRequestContext None 0 (mkTimeval 0 0) NULL NULL.

(** The blocks a pointer of this file can point to. *)
Inductive obj :=
| OStr (s : string)                      (* a NUL-terminated [gchar*] *)
| ORaw (b : bytes)                       (* a raw buffer *)
| OGba (b : bytes)                       (* a [GByteArray] *)
| OErr (e : GError)                      (* a [GError] *)
| OHash (t : gmap string (list Byte.byte))  (* a [GHashTable] from strings to byte arrays *)
| OAddr (a : addr_info_t)                (* an [addr_info_t] *)
| OReqCtx (r : request_context_s).       (* a [struct request_context_s] *)

Record world := mkWorld {
  heap : gmap N obj;
  trace : list event;
}.

(** ** The monad: state over [world], stopping on undefined behaviour *)

Definition M (A : Type) : Type := world -> option (A * world).

Definition ret {A} (a : A) : M A := fun w => Some (a, w).

Definition bind {A B} (m : M A) (k : A -> M B) : M B :=
  fun w => match m w with
           | Some (a, w') => k a w'
           | None => None
           end.

Definition undefined {A} : M A := fun _ => None.

(** stdpp's monad notations: [x ← m; k] and [m;; k]. *)
#[local] Instance M_ret : MRet M := @ret.
#[local] Instance M_bind : MBind M := fun A B k m => bind m k.

(** [when c m]: [if (c) m;]. *)
Definition when (c : bool) (m : M unit) : M unit :=
  if c then m else ret tt.

(** A pointer tested as a condition: [if (p)]. *)
Definition nonnull (p : ptr) : bool := negb (N.eqb p NULL).

(** The block behind [p]: none behind [NULL] or a pointer that is not
    live. *)
Definition load (p : ptr) : M obj :=
  fun w => if nonnull p
           then match heap w !! p with
                | Some o => Some (o, w)
                | None => None
                end
           else None.

Definition store (p : ptr) (o : obj) : M unit :=
  fun w => if nonnull p
           then match heap w !! p with
                | Some _ => Some (tt, mkWorld (<[p := o]> (heap w)) (trace w))
                | None => None
                end
           else None.

(** Allocation: a pointer that is neither [NULL] nor live.  GLib's
    allocators abort the process rather than return [NULL]. *)
Definition fresh_ptr (h : gmap N obj) : ptr := fresh (dom h ∪ {[NULL]}).

Definition alloc (o : obj) : M ptr :=
  fun w => let p := fresh_ptr (heap w) in
           Some (p, mkWorld (<[p := o]> (heap w)) (trace w ++ [EvAlloc p])).

(** Release of the live block behind [p]. *)
Definition release (p : ptr) : M unit :=
  fun w => if nonnull p
           then match heap w !! p with
                | Some _ => Some (tt, mkWorld (delete p (heap w)) (trace w ++ [EvFree p]))
                | None => None
                end
           else None.

(** [g_free(p)]: nothing on [NULL]. *)
Definition g_free (p : ptr) : M unit :=
  if nonnull p then release p else ret tt.

(** [g_error_free(e)], [g_hash_table_destroy(t)], [g_byte_array_unref(a)]:
    each wants a block of its own kind.  The table owns its keys and values
    (it was created with [g_free] and [metautils_gba_clean] as destructors),
    so they go with it; a byte array of this file has one reference. *)
Definition g_error_free (p : ptr) : M unit :=
  o ← load p; match o with OErr _ => release p | _ => undefined end.

Definition g_hash_table_destroy (p : ptr) : M unit :=
  o ← load p; match o with OHash _ => release p | _ => undefined end.

Definition g_byte_array_unref (p : ptr) : M unit :=
  o ← load p; match o with OGba _ => release p | _ => undefined end.

Definition emit (e : event) : M unit :=
  fun w => Some (tt, mkWorld (heap w) (trace w ++ [e])).

(** ** Request contexts *)

(** [request_context_clear] *)
Definition request_context_clear (request_info : ptr) : M unit :=
  if negb (nonnull request_info) then ret tt else
  o ← load request_info;
  match o with
  | OReqCtx r =>
      when (nonnull (local_addr r)) (g_free (local_addr r)) ;;
      when (nonnull (remote_addr r)) (g_free (remote_addr r)) ;;
      store request_info (OReqCtx request_context_zero)
  | _ => undefined
  end.

(** [request_context_free] *)
Definition request_context_free (request_info : ptr) : M unit :=
  if negb (nonnull request_info) then ret tt else
  request_context_clear request_info ;;
  g_free request_info.

(** [request_context_gclean] *)
Definition request_context_gclean (p1 p2 : ptr) : M unit :=
  when (nonnull p1) (request_context_free p1).

(** Assignment to a field of the request context behind [ctx]. *)
Definition update_request_context (ctx : ptr)
    (f : request_context_s -> request_context_s) : M unit :=
  o ← load ctx;
  match o with
  | OReqCtx r => store ctx (OReqCtx (f r))
  | _ => undefined
  end.

(** Assignment to the address record behind [a]. *)
Definition update_addr (a : ptr) (f : addr_info_t -> addr_info_t) : M unit :=
  o ← load a;
  match o with
  | OAddr x => store a (OAddr (f x))
  | _ => undefined
  end.

(** [request_context_create]; [fd_peer] is the record behind the pointer
    given, [None] for [NULL]. *)
Definition request_context_create (fd_ : Z) (fd_peer : option addr_info_t) : M ptr :=
  ctx ← alloc (OReqCtx request_context_zero);
  update_request_context ctx
    (fun r => mkRequestContext (request r) fd_ (tv_start r) (remote_addr r) (local_addr r)) ;;
  update_request_context ctx
    (fun r => mkRequestContext (request r) (fd r) gettimeofday (remote_addr r) (local_addr r)) ;;
  ra ← alloc (OAddr addr_info_zero);
  update_request_context ctx
    (fun r => mkRequestContext (request r) (fd r) (tv_start r) ra (local_addr r)) ;;
  let '(ss_dst, ss_dst_len) := getpeername fd_ sockaddr_zero sizeof_sockaddr_storage in
  update_addr ra (fun a => addrinfo_from_sockaddr a ss_dst ss_dst_len) ;;
  la ← alloc (OAddr addr_info_zero);
  update_request_context ctx
    (fun r => mkRequestContext (request r) (fd r) (tv_start r) (remote_addr r) la) ;;
  match fd_peer with
  | Some peer => update_addr la (fun _ => peer)
  | None =>
      let '(ss_src, ss_src_len) := getsockname fd_ sockaddr_zero sizeof_sockaddr_storage in
      update_addr la (fun a => addrinfo_from_sockaddr a ss_src ss_src_len)
  end ;;
  ret ctx.

(** What [request_context_create] leaves in the remote and in the local
    address record. *)
Definition resolved_remote (fd_ : Z) : addr_info_t :=
  let '(ss_dst, ss_dst_len) := getpeername fd_ sockaddr_zero sizeof_sockaddr_storage in
  addrinfo_from_sockaddr addr_info_zero ss_dst ss_dst_len.

Definition resolved_local (fd_ : Z) (fd_peer : option addr_info_t) : addr_info_t :=
  match fd_peer with
  | Some peer => peer
  | None =>
      let '(ss_src, ss_src_len) := getsockname fd_ sockaddr_zero sizeof_sockaddr_storage in
      addrinfo_from_sockaddr addr_info_zero ss_src ss_src_len
  end.

(** A call of [addrinfo_from_sockaddr] on [ss] fails: it leaves the record
    it was to fill as it found it. *)
Definition resolution_fails (ss : sockaddr_storage * Z) : Prop :=
  forall a, addrinfo_from_sockaddr a ss.1 ss.2 = a.

(** The world after the release, in order, of the pointers of [ps] that are
    not NULL. *)
Definition released (ps : list ptr) (w : world) : world :=
  foldl (fun w p => if nonnull p
                    then mkWorld (delete p (heap w)) (trace w ++ [EvFree p])
                    else w) w ps.

(** ** Reply contexts *)

(** [struct reply_context_s], with its two anonymous structs; it is
    declared in message_handler.h, and these are the fields the functions
    of this file read and write. *)
Record reply_header := mkHeader { code : Z; msg : ptr }.
Record reply_body := mkBody { buffer : ptr; size : Z; copy : Z }.
Record reply_context_s := mkReplyContext {
  req_ctx : ptr;
  warning : ptr;
  header : reply_header;
  body : reply_body;
  extra_headers : ptr;
}.

Definition set_warning (c : reply_context_s) (p : ptr) : reply_context_s :=
  mkReplyContext (req_ctx c) p (header c) (body c) (extra_headers c).
Definition set_header (c : reply_context_s) (h : reply_header) : reply_context_s :=
  mkReplyContext (req_ctx c) (warning c) h (body c) (extra_headers c).
Definition set_body (c : reply_context_s) (b : reply_body) : reply_context_s :=
  mkReplyContext (req_ctx c) (warning c) (header c) b (extra_headers c).
Definition set_extra_headers (c : reply_context_s) (p : ptr) : reply_context_s :=
  mkReplyContext (req_ctx c) (warning c) (header c) (body c) p.

(** [memset(&(ctx->header), 0x00, sizeof(ctx->header))] and the same for
    the body. *)
Definition header_zero : reply_header := mkHeader 0 NULL.
Definition body_zero : reply_body := mkBody NULL 0 0.

(** [#define MS_REPLY_TIMEOUT 1000] *)
Definition MS_REPLY_TIMEOUT : Z := 1000.

(** [REPLYCTX_CLEANHEADER(ctx)] *)
Definition REPLYCTX_CLEANHEADER (ctx : reply_context_s) : M reply_context_s :=
  when (nonnull (msg (header ctx))) (g_free (msg (header ctx)));;
  ret (set_header ctx header_zero).

(** [REPLYCTX_CLEANBODY(ctx)] *)
Definition REPLYCTX_CLEANBODY (ctx : reply_context_s) : M reply_context_s :=
  when (nonnull (buffer (body ctx)))
    (when (negb (copy (body ctx) =? 0)) (g_free (buffer (body ctx))));;
  ret (set_body ctx body_zero).

(** The functions below take [struct reply_context_s *ctx]: [None] is the
    NULL pointer, [Some c] a pointer to a structure that holds [c]; the
    result is what the structure holds after the call. *)

(** [reply_context_clear] *)
Definition reply_context_clear (ctx : option reply_context_s) (all : bool)
    : M (option reply_context_s) :=
  match ctx with
  | None => ret None
  | Some c =>
      c ← (if all then
             when (nonnull (warning c)) (g_error_free (warning c));;
             let c := set_warning c NULL in
             if nonnull (extra_headers c) then
               g_hash_table_destroy (extra_headers c);;
               ret (set_extra_headers c NULL)
             else ret c
           else ret c);
      c ← REPLYCTX_CLEANHEADER c;
      c ← REPLYCTX_CLEANBODY c;
      ret (Some c)
  end.

(** [g_strdup(s)] for a string that is not NULL. *)
Definition g_strdup (s : string) : M ptr := alloc (OStr s).

(** The [n] bytes behind [p], a raw buffer of at least that many. *)
Definition read_raw (p : ptr) (n : Z) : M (list Byte.byte) :=
  o ← load p;
  match o with
  | ORaw b => if n <=? Z.of_nat (length b) then ret (take (Z.to_nat n) b)
              else undefined
  | _ => undefined
  end.

(** [g_memdup(p, n)] of GLib.  Its second parameter is a [guint]: a
    [gsize] given for it is converted.  It copies that many bytes into a new
    block, and returns NULL when there is nothing to copy. *)
Definition g_memdup (p : ptr) (n : Z) : M ptr :=
  let byte_size := to_guint n in
  if nonnull p && negb (byte_size =? 0)
  then b ← read_raw p byte_size; alloc (ORaw b)
  else ret NULL.

(** [reply_context_set_message]; [msg] is [None] for NULL. *)
Definition reply_context_set_message (ctx : option reply_context_s)
    (code_ : Z) (msg_ : option string) : M (option reply_context_s) :=
  match ctx with
  | None => ret None
  | Some c =>
      c ← REPLYCTX_CLEANHEADER c;
      let c := set_header c (mkHeader code_ (msg (header c))) in
      m ← match msg_ with Some s => g_strdup s | None => ret NULL end;
      ret (Some (set_header c (mkHeader (code (header c)) m)))
  end.

(** [reply_context_set_body] *)
Definition reply_context_set_body (ctx : option reply_context_s)
    (body_ : ptr) (bodySize : Z) (flags : Z) : M (option reply_context_s) :=
  match ctx with
  | None => ret None
  | Some c =>
      c ← REPLYCTX_CLEANBODY c;
      if nonnull body_ && (0 <? bodySize) then
        let copy_ := Z.lor (Z.land flags REPLYCTX_DESTROY_ON_CLEAN)
                           (Z.land flags REPLYCTX_COPY) in
        b ← (if negb (Z.land flags REPLYCTX_COPY =? 0)
             then g_memdup body_ bodySize else ret body_);
        ret (Some (set_body c (mkBody b bodySize copy_)))
      else ret (Some c)
  end.

(** [g_hash_table_new_full(g_str_hash, g_str_equal, g_free,
    metautils_gba_clean)] *)
Definition g_hash_table_new_full : M ptr := alloc (OHash ∅).

(** [g_hash_table_insert(t, k, v)]: the table owns the key and the value
    it is given; a value already under an equal key is replaced (and
    destroyed). *)
Definition g_hash_table_insert (t : ptr) (k : string) (v : list Byte.byte) : M unit :=
  o ← load t;
  match o with
  | OHash m => store t (OHash (<[k := v]> m))
  | _ => undefined
  end.

(** [reply_context_add_bufheader_in_reply]; [k] and [v] are [None] for
    NULL, [v] holds the bytes behind the pointer.  The copies made by
    [g_strdup] and [g_byte_array_append] go into the table.  [vlen] is a
    [gsize] and the guard tests it as such; the length parameter of
    [g_byte_array_append] is a [guint], so the array gets the first
    [(guint) vlen] bytes. *)
Definition reply_context_add_bufheader_in_reply (ctx : option reply_context_s)
    (k : option string) (v : option (list Byte.byte)) (vlen : Z)
    : M (option reply_context_s) :=
  match ctx, k, v with
  | Some c, Some k, Some v =>
      if vlen =? 0 then ret ctx else
      c ← (if negb (nonnull (extra_headers c))
           then t ← g_hash_table_new_full; ret (set_extra_headers c t)
           else ret c);
      let len := to_guint vlen in
      if len <=? Z.of_nat (length v) then
        g_hash_table_insert (extra_headers c) k (take (Z.to_nat len) v);;
        ret (Some c)
      else undefined
  | _, _, _ => ret ctx
  end.

(** [strlen(v)] and the bytes of a C string. *)
Definition strlen (v : string) : Z := Z.of_nat (String.length v).

(** [reply_context_add_strheader_in_reply] *)
Definition reply_context_add_strheader_in_reply (ctx : option reply_context_s)
    (k : option string) (v : option string) : M (option reply_context_s) :=
  match ctx, k, v with
  | Some _, Some _, Some s =>
      reply_context_add_bufheader_in_reply ctx k
        (Some (String.list_byte_of_string s)) (strlen s)
  | _, _, _ => ret ctx
  end.

(** [GByteArray]: the two public fields. *)
Record GByteArray := mkGByteArray { gba_data : option (list Byte.byte); gba_len : Z }.

(** [reply_context_add_header_in_reply] *)
Definition reply_context_add_header_in_reply (ctx : option reply_context_s)
    (k : option string) (v : option GByteArray) : M (option reply_context_s) :=
  match ctx, k, v with
  | Some _, Some _, Some g =>
      reply_context_add_bufheader_in_reply ctx k (gba_data g) (gba_len g)
  | _, _, _ => ret ctx
  end.

(** [reply_ctx_header_adder], on an entry of the table: the key, the value
    and the user pointer are not NULL there. *)
Definition reply_ctx_header_adder (k : string) (v : list Byte.byte) (u : MESSAGE) : MESSAGE :=
  if Z.of_nat (length v) <=? 0 then u
  else metautils_message_add_field u k v.

(** [g_hash_table_foreach(t, f, u)]: [f] on every entry, in the order of
    the table. *)
Definition g_hash_table_foreach (t : gmap string (list Byte.byte))
    (f : string -> list Byte.byte -> MESSAGE -> MESSAGE) (u : MESSAGE) : MESSAGE :=
  foldl (fun a kv => f kv.1 kv.2 a) u (map_to_list t).

(** The first half of [reply_context_reply]: the message handed to the
    marshaller. *)
Definition reply_context_answer (ctx : reply_context_s) : M MESSAGE :=
  o ← load (req_ctx ctx);
  match o with
  | OReqCtx rc =>
      ptr_msg ← (if nonnull (msg (header ctx))
                 then o ← load (msg (header ctx));
                      match o with OStr s => ret s | _ => undefined end
                 else ret "NOMSG"%string);
      let answer := metaXServer_reply_simple (request rc) (code (header ctx)) ptr_msg in
      answer ← (if nonnull (extra_headers ctx)
                then o ← load (extra_headers ctx);
                     match o with
                     | OHash t => ret (g_hash_table_foreach t reply_ctx_header_adder answer)
                     | _ => undefined
                     end
                else ret answer);
      if nonnull (buffer (body ctx)) && (0 <? size (body ctx))
      then b ← read_raw (buffer (body ctx)) (size (body ctx));
           ret (metautils_message_set_BODY answer b)
      else ret answer
  | _ => undefined
  end.

(** The deadline of the write, [MAX(MS_REPLY_TIMEOUT, MIN(60000,
    default_to_operation))], as a function of the value configured. *)
Definition reply_timeout (to_operation : Z) : Z :=
  Z.max MS_REPLY_TIMEOUT (Z.min 60000 to_operation).

(** [reply_context_reply]: the value returned and what is in [*err] after
    the call ([*err] holds no error before it). *)
Definition reply_context_reply (ctx : reply_context_s) : M (Z * option GError) :=
  answer ← reply_context_answer ctx;
  match message_marshall_gba_and_clean answer with
  | Some data =>
      encoded ← alloc (OGba data);
      o ← load (req_ctx ctx);
      match o with
      | OReqCtx rc =>
          let _to := reply_timeout default_to_operation in
          let '(sent, err) := sock_to_write (fd rc) _to data in
          emit (EvWrite (fd rc) _to data);;
          let done := (0 <? sent) && (Z.of_nat (length data) =? to_guint sent) in
          g_byte_array_unref encoded;;
          if negb done then ret (0, g_prefix_error err "Failed to reply: ")
          else ret (1, err)
      | _ => undefined
      end
  | None => ret (1, None)
  end.

(** The body buffer when [REPLYCTX_CLEANBODY] is to release it, NULL
    otherwise. *)
Definition owned_body (c : reply_context_s) : ptr :=
  if nonnull (buffer (body c)) && negb (copy (body c) =? 0)
  then buffer (body c) else NULL.

(** The pointers of a reply context point to blocks of their kinds: the
    message to a string, the warning to an error, the extra headers to a
    table, a body that the context owns to a raw buffer. *)
Definition null_or (h : gmap N obj) (p : ptr) (P : obj -> Prop) : Prop :=
  p = NULL \/ exists o, h !! p = Some o /\ P o.

Definition is_OStr (o : obj) : Prop := match o with OStr _ => True | _ => False end.
Definition is_ORaw (o : obj) : Prop := match o with ORaw _ => True | _ => False end.
Definition is_OErr (o : obj) : Prop := match o with OErr _ => True | _ => False end.
Definition is_OHash (o : obj) : Prop := match o with OHash _ => True | _ => False end.

Record reply_context_ok (h : gmap N obj) (c : reply_context_s) : Prop := {
  msg_ok : null_or h (msg (header c)) is_OStr;
  warning_ok : null_or h (warning c) is_OErr;
  extra_headers_ok : null_or h (extra_headers c) is_OHash;
  body_ok : null_or h (owned_body c) is_ORaw;
}.

(** The extra headers of a context: the contents of its table, nothing
    while the field is NULL. *)
Definition headers_of (w : world) (c : reply_context_s) : gmap string (list Byte.byte) :=
  if nonnull (extra_headers c)
  then match heap w !! extra_headers c with
       | Some (OHash t) => t
       | _ => ∅
       end
  else ∅.

(** The entries of a table under the key [k]. *)
Definition entries_for (k : string) (t : gmap string (list Byte.byte))
    : list (string * list Byte.byte) :=
  filter (fun kv => kv.1 = k) (map_to_list t).

(** What [reply_context_reply] reads through the pointers of a context,
    in a heap where they point to blocks of their kinds: the message (or the
    placeholder), the body to attach if any, and with [headers_of] the
    entries of the table. *)
Definition message_of (w : world) (c : reply_context_s) : string :=
  if nonnull (msg (header c))
  then match heap w !! msg (header c) with
       | Some (OStr s) => s
       | _ => ""
       end
  else "NOMSG".

Definition body_of (w : world) (c : reply_context_s) : option (list Byte.byte) :=
  if nonnull (buffer (body c)) && (0 <? size (body c))
  then match heap w !! buffer (body c) with
       | Some (ORaw b) => Some (take (Z.to_nat (size (body c))) b)
       | _ => None
       end
  else None.

Definition answer_of (w : world) (c : reply_context_s) (rc : request_context_s) : MESSAGE :=
  let answer := metaXServer_reply_simple (request rc) (code (header c)) (message_of w c) in
  let answer := g_hash_table_foreach (headers_of w c) reply_ctx_header_adder answer in
  match body_of w c with
  | Some b => metautils_message_set_BODY answer b
  | None => answer
  end.

(** The pointers [reply_context_reply] reads through are valid: the request
    context, the message if there is one, the table if there is one, and a
    body of [size] bytes if there is one. *)
Record reply_context_readable (h : gmap N obj) (c : reply_context_s)
    (rc : request_context_s) : Prop := {
  req_ctx_nonnull : req_ctx c ≠ NULL;
  req_ctx_live : h !! req_ctx c = Some (OReqCtx rc);
  msg_readable : null_or h (msg (header c)) is_OStr;
  extra_headers_readable : null_or h (extra_headers c) is_OHash;
  body_readable :
    buffer (body c) = NULL \/ size (body c) <= 0 \/
    exists b, h !! buffer (body c) = Some (ORaw b) /\
              size (body c) <= Z.of_nat (length b);
}.

(** ** The handler registry *)

(** [message_matcher_f]: a predicate on the request. *)
Definition message_matcher_f : Type := MESSAGE -> bool.

(** [struct message_handler_s]; the [next] field is the tail of the list
    the structure is in. *)
Record message_handler_s := mkHandler {
  name : string;
  matcher : option message_matcher_f;
  handler : option message_handler_f;
  handler_v2 : option message_handler_v2_f;
}.

(** The two globals: the list behind [BEACON_MSGHANDLER.next], and
    [serv_tags] ([None] while it is NULL). *)
Record registry := mkRegistry {
  BEACON_MSGHANDLER : list message_handler_s;
  serv_tags : option (list service_tag_s);
}.

(** [strncpy(mh->name, name, SIZE_MSGHANDLERNAME-1)] into a zeroed field. *)
Definition strncpy_name (name_ : string) : string :=
  String.substring 0 (SIZE_MSGHANDLERNAME - 1) name_.

(** [message_handler_add]: the value returned, what is in [*err] after the
    call, and the globals after the call. *)
Definition message_handler_add (name_ : option string)
    (m : option message_matcher_f) (h : option message_handler_f)
    (reg : registry) : Z * option GError * registry :=
  match name_, m, h with
  | Some n, Some _, Some _ =>
      let mh := mkHandler (strncpy_name n) m h None in
      (1, None, mkRegistry (mh :: BEACON_MSGHANDLER reg) (serv_tags reg))
  | _, _, _ => (0, GSETERROR None "Invalid parameter", reg)
  end.

(** [message_handler_add_v2]; [tags] is [None] for NULL. *)
Definition message_handler_add_v2 (name_ : option string)
    (m : option message_matcher_f) (h : option message_handler_v2_f)
    (tags : option (list service_tag_s))
    (reg : registry) : Z * option GError * registry :=
  match name_, m, h with
  | Some n, Some _, Some _ =>
      let mh := mkHandler (strncpy_name n) m None h in
      let handlers := mh :: BEACON_MSGHANDLER reg in
      let st := match serv_tags reg with Some st => st | None => [] end in
      let st := match tags with
                | Some ts => st ++ map service_tag_dup ts
                | None => st
                end in
      (1, None, mkRegistry handlers (Some st))
  | _, _, _ => (0, GSETERROR None "Invalid parameters", reg)
  end.

(** Modelled from the spec: the dispatch loop is not in this file.  "When
    dispatching an inbound request, the registry is scanned front-to-back;
    the first entry whose matcher returns true is selected." *)
Definition dispatch (reg : registry) (req : MESSAGE) : option message_handler_s :=
  List.find (fun mh => match matcher mh with Some m => m req | None => false end)
            (BEACON_MSGHANDLER reg).

(** A registration call, of either function, and a sequence of calls. *)
Inductive registration :=
| RegSimple (name_ : option string) (m : option message_matcher_f)
            (h : option message_handler_f)
| RegTagged (name_ : option string) (m : option message_matcher_f)
            (h : option message_handler_v2_f) (tags : option (list service_tag_s)).

Definition register (r : registration) (reg : registry)
    : Z * option GError * registry :=
  match r with
  | RegSimple n m h => message_handler_add n m h reg
  | RegTagged n m h tags => message_handler_add_v2 n m h tags reg
  end.

Definition register_all (rs : list registration) (reg : registry) : registry :=
  foldl (fun reg r => (register r reg).2) reg rs.

(** The entry a call makes when none of its three arguments is NULL. *)
Definition entry_of (r : registration) : option message_handler_s :=
  match r with
  | RegSimple (Some n) (Some m) (Some h) =>
      Some (mkHandler (strncpy_name n) (Some m) (Some h) None)
  | RegTagged (Some n) (Some m) (Some h) _ =>
      Some (mkHandler (strncpy_name n) (Some m) None (Some h))
  | _ => None
  end.

(** What a call does to the list of handlers. *)
Definition pushed (l : list message_handler_s) (r : registration)
    : list message_handler_s :=
  match entry_of r with Some e => e :: l | None => l end.

(** The matcher of an entry says yes to a request. *)
Definition matches (req : MESSAGE) (mh : message_handler_s) : bool :=
  match matcher mh with Some m => m req | None => false end.

(** ** The namespace accessor *)

(** [namespace_info_t] and its [name] field, [None] for NULL; the type is
    declared outside this file. *)
Context {namespace_info_t : Type}.
Context (ns_info_name : namespace_info_t -> option string).

(** [gridd_get_ns_name]; [ns_info] is the global, [None] while it is
    NULL. *)
Definition gridd_get_ns_name (ns_info : option namespace_info_t) : M ptr :=
  match ns_info with
  | None => ret NULL
  | Some ns =>
      match ns_info_name ns with
      | None => ret NULL
      | Some s => g_strdup s
      end
  end.

(** ** Predicates for the statements about the code above *)

Definition is_OAddr (o : obj) : Prop := match o with OAddr _ => True | _ => False end.
Definition is_OReqCtx (o : obj) : Prop := match o with OReqCtx _ => True | _ => False end.

(** No header of the table has an empty value. *)
Definition headers_nonempty (t : gmap string (list Byte.byte)) : Prop :=
  forall k v, t !! k = Some v -> v ≠ [].

(** An entry of the registry has a matcher, one of the two kinds of handler
    and not the other, and a name that fits the field with its NUL. *)
Definition handler_entry_ok (mh : message_handler_s) : Prop :=
  is_Some (matcher mh) /\
  (is_Some (handler mh) /\ handler_v2 mh = None \/
   handler mh = None /\ is_Some (handler_v2 mh)) /\
  (String.length (name mh) <= SIZE_MSGHANDLERNAME - 1)%nat.

(** The tags a call adds to [serv_tags], and whether the call is one of
    [message_handler_add_v2] that goes through. *)
Definition registered_tags (r : registration) : list service_tag_s :=
  match r with
  | RegTagged (Some _) (Some _) (Some _) (Some ts) => map service_tag_dup ts
  | _ => []
  end.

Definition is_tagged (r : registration) : bool :=
  match r with
  | RegTagged (Some _) (Some _) (Some _) _ => true
  | _ => false
  end.

(** ** Reasoning about the monad and the heap *)

Lemma bind_Some {A B} (m : M A) (k : A -> M B) w a w' :
  m w = Some (a, w') -> (x ← m; k x) w = k a w'.
Proof. intros E. unfold mbind, M_bind, bind. by rewrite E. Qed.

Lemma nonnull_true p : p ≠ NULL -> nonnull p = true.
Proof. intros H. unfold nonnull. by rewrite (proj2 (N.eqb_neq p NULL) H). Qed.

Lemma nonnull_spec p : nonnull p = true <-> p ≠ NULL.
Proof.
  unfold nonnull. rewrite negb_true_iff. apply N.eqb_neq.
Qed.

Lemma fresh_ptr_nonnull h : fresh_ptr h ≠ NULL.
Proof.
  unfold fresh_ptr. intros E.
  apply (is_fresh (dom h ∪ {[NULL]})). rewrite E.
  by apply elem_of_union_r, elem_of_singleton.
Qed.

Lemma fresh_ptr_fresh h : h !! fresh_ptr h = None.
Proof.
  unfold fresh_ptr. apply not_elem_of_dom. intros Hin.
  apply (is_fresh (dom h ∪ {[NULL]})). by apply elem_of_union_l.
Qed.

Lemma fresh_ptr_ne h p o : h !! p = Some o -> fresh_ptr h ≠ p.
Proof. intros H E. rewrite <- E, fresh_ptr_fresh in H. discriminate. Qed.

Lemma load_Some p o w :
  p ≠ NULL -> heap w !! p = Some o -> load p w = Some (o, w).
Proof. intros Hp H. unfold load. by rewrite nonnull_true, H. Qed.

Lemma store_Some p o o' w :
  p ≠ NULL -> heap w !! p = Some o ->
  store p o' w = Some (tt, mkWorld (<[p := o']> (heap w)) (trace w)).
Proof. intros Hp H. unfold store. by rewrite nonnull_true, H. Qed.

Lemma release_Some p o w :
  p ≠ NULL -> heap w !! p = Some o ->
  release p w = Some (tt, mkWorld (delete p (heap w)) (trace w ++ [EvFree p])).
Proof. intros Hp H. unfold release. by rewrite nonnull_true, H. Qed.

Lemma g_free_Some p o w :
  p ≠ NULL -> heap w !! p = Some o ->
  g_free p w = Some (tt, mkWorld (delete p (heap w)) (trace w ++ [EvFree p])).
Proof. intros Hp H. unfold g_free. rewrite nonnull_true by done. by eapply release_Some. Qed.

Lemma update_request_context_Some ctx f r w :
  ctx ≠ NULL -> heap w !! ctx = Some (OReqCtx r) ->
  update_request_context ctx f w
  = Some (tt, mkWorld (<[ctx := OReqCtx (f r)]> (heap w)) (trace w)).
Proof.
  intros Hp H. unfold update_request_context.
  rewrite (bind_Some _ _ _ _ _ (load_Some _ _ _ Hp H)).
  by eapply store_Some.
Qed.

Lemma update_addr_Some a f x w :
  a ≠ NULL -> heap w !! a = Some (OAddr x) ->
  update_addr a f w
  = Some (tt, mkWorld (<[a := OAddr (f x)]> (heap w)) (trace w)).
Proof.
  intros Hp H. unfold update_addr.
  rewrite (bind_Some _ _ _ _ _ (load_Some _ _ _ Hp H)).
  by eapply store_Some.
Qed.

(** A lookup through a stack of updates at pointers known to differ. *)
Ltac heap_lookup :=
  cbn [heap];
  repeat first [ apply lookup_insert_eq
               | rewrite lookup_insert_ne by done
               | rewrite lookup_delete_ne by done ];
  try done.

(** Two stacks of updates that agree at every pointer. *)
Ltac heap_ext :=
  apply map_eq; intros ?;
  repeat first [ rewrite lookup_insert | rewrite lookup_delete ];
  repeat case_decide; simplify_eq; try done.

Lemma request_context_create_Some fd_ fd_peer w :
  let ctx := fresh_ptr (heap w) in
  let h1 := <[ctx := OReqCtx request_context_zero]> (heap w) in
  let ra := fresh_ptr h1 in
  let h2 := <[ra := OAddr addr_info_zero]> h1 in
  let la := fresh_ptr h2 in
  request_context_create fd_ fd_peer w
  = Some (ctx,
          mkWorld (<[la := OAddr (resolved_local fd_ fd_peer)]>
                   (<[ra := OAddr (resolved_remote fd_)]>
                    (<[ctx := OReqCtx (mkRequestContext None fd_ gettimeofday ra la)]>
                     (heap w))))
                  (trace w ++ [EvAlloc ctx; EvAlloc ra; EvAlloc la])).
Proof.
  intros ctx h1 ra h2 la.
  assert (Hc : ctx ≠ NULL) by apply fresh_ptr_nonnull.
  assert (Hr : ra ≠ NULL) by apply fresh_ptr_nonnull.
  assert (Hl : la ≠ NULL) by apply fresh_ptr_nonnull.
  assert (Hrc : ra ≠ ctx).
  { apply (fresh_ptr_ne h1 _ (OReqCtx request_context_zero)).
    subst h1. apply lookup_insert_eq. }
  assert (Hlr : la ≠ ra).
  { apply (fresh_ptr_ne h2 _ (OAddr addr_info_zero)).
    subst h2. apply lookup_insert_eq. }
  assert (Hlc : la ≠ ctx).
  { apply (fresh_ptr_ne h2 _ (OReqCtx request_context_zero)).
    subst h2 h1. rewrite lookup_insert_ne by done. apply lookup_insert_eq. }
  unfold request_context_create, resolved_remote, resolved_local.
  destruct (getpeername fd_ sockaddr_zero sizeof_sockaddr_storage) as [ss_dst ss_dst_len].
  unfold mbind at 1, M_bind at 1, bind at 1, alloc at 1. fold ctx. cbn [heap trace].
  do 2 (erewrite bind_Some;
        [|apply update_request_context_Some; [done | heap_lookup]]; cbn [heap trace]).
  cbn [request fd tv_start remote_addr local_addr request_context_zero].
  rewrite !insert_insert_eq.
  unfold mbind at 1, M_bind at 1, bind at 1, alloc at 1. cbn [heap trace].
  replace (fresh_ptr (<[ctx:=OReqCtx (mkRequestContext None fd_ gettimeofday NULL NULL)]> (heap w)))
    with ra by (subst ra h1; unfold fresh_ptr; by rewrite !dom_insert_L).
  erewrite bind_Some;
    [|apply update_request_context_Some; [done | heap_lookup]].
  cbn [heap trace request fd tv_start remote_addr local_addr].
  erewrite bind_Some; [|apply update_addr_Some; [done | heap_lookup]].
  cbn [heap trace].
  unfold mbind at 1, M_bind at 1, bind at 1, alloc at 1. cbn [heap trace].
  match goal with |- context [fresh_ptr ?h] =>
    replace (fresh_ptr h) with la
      by (subst la h2 h1; unfold fresh_ptr; rewrite !dom_insert_L;
          by rewrite gset_union_twice)
  end.
  erewrite bind_Some;
    [|apply update_request_context_Some; [done | heap_lookup]].
  cbn [heap trace request fd tv_start remote_addr local_addr].
  assert (Hfin : forall f,
    (update_addr la f;; ret ctx)
      (mkWorld
         (<[ctx:=OReqCtx (mkRequestContext None fd_ gettimeofday ra la)]>
            (<[la:=OAddr addr_info_zero]>
               (<[ra:=OAddr (addrinfo_from_sockaddr addr_info_zero ss_dst ss_dst_len)]>
                  (<[ctx:=OReqCtx (mkRequestContext None fd_ gettimeofday ra NULL)]>
                     (<[ra:=OAddr addr_info_zero]>
                        (<[ctx:=OReqCtx (mkRequestContext None fd_ gettimeofday NULL NULL)]>
                           (heap w)))))))
         (((trace w ++ [EvAlloc ctx]) ++ [EvAlloc ra]) ++ [EvAlloc la]))
    = Some (ctx,
        mkWorld (<[la := OAddr (f addr_info_zero)]>
                   (<[ra := OAddr (addrinfo_from_sockaddr addr_info_zero ss_dst ss_dst_len)]>
                    (<[ctx := OReqCtx (mkRequestContext None fd_ gettimeofday ra la)]>
                     (heap w))))
                (trace w ++ [EvAlloc ctx; EvAlloc ra; EvAlloc la]))).
  { intros f.
    erewrite bind_Some;
      [|apply update_addr_Some with (x := addr_info_zero); [done | heap_lookup]].
    cbn [heap trace]. unfold ret. do 3 f_equal.
    - heap_ext.
    - by rewrite <- !app_assoc. }
  destruct fd_peer as [peer|].
  - apply (Hfin (fun _ => peer)).
  - destruct (getsockname fd_ sockaddr_zero sizeof_sockaddr_storage) as [ss_src ss_src_len].
    apply (Hfin (fun a => addrinfo_from_sockaddr a ss_src ss_src_len)).
Qed.

(** *** Releases *)

Lemma released_cons p ps w :
  released (p :: ps) w = released ps (released [p] w).
Proof. reflexivity. Qed.

Lemma released_NULL w : released [NULL] w = w.
Proof. reflexivity. Qed.

Lemma released_one p w :
  p ≠ NULL ->
  released [p] w = mkWorld (delete p (heap w)) (trace w ++ [EvFree p]).
Proof. intros H. unfold released. cbn. by rewrite nonnull_true. Qed.

Lemma released_one_lookup_ne p q w :
  q ≠ p -> heap (released [p] w) !! q = heap w !! q.
Proof.
  intros H. destruct (decide (p = NULL)) as [->|Hp]; [done|].
  rewrite released_one by done. cbn. by rewrite lookup_delete_ne.
Qed.

Lemma released_one_lookup_eq p w :
  p ≠ NULL -> heap (released [p] w) !! p = None.
Proof. intros H. rewrite released_one by done. cbn. apply lookup_delete_eq. Qed.

Lemma frees_app p t1 t2 : frees p (t1 ++ t2) = (frees p t1 + frees p t2)%nat.
Proof. unfold frees. by rewrite List.filter_app, length_app. Qed.

Lemma frees_released_one_ne p q w :
  q ≠ p -> frees q (trace (released [p] w)) = frees q (trace w).
Proof.
  intros H. destruct (decide (p = NULL)) as [->|Hp]; [done|].
  rewrite released_one by done. cbn [trace]. rewrite frees_app.
  unfold frees at 2. cbn. rewrite (proj2 (N.eqb_neq q p) H). cbn. lia.
Qed.

Lemma frees_released_one_eq p w :
  p ≠ NULL -> frees p (trace (released [p] w)) = S (frees p (trace w)).
Proof.
  intros H. rewrite released_one by done. cbn [trace]. rewrite frees_app.
  unfold frees at 2. cbn. rewrite N.eqb_refl. cbn. lia.
Qed.

Lemma null_or_inv h p P :
  null_or h p P -> p ≠ NULL -> exists o, h !! p = Some o /\ P o.
Proof. by intros [->|H] Hp. Qed.

Lemma g_free_released p P w :
  null_or (heap w) p P -> g_free p w = Some (tt, released [p] w).
Proof.
  intros [->|(o & H & _)]; [done|].
  destruct (decide (p = NULL)) as [->|Hp]; [done|].
  rewrite released_one by done. by eapply g_free_Some.
Qed.

Lemma when_g_free_released p P w :
  null_or (heap w) p P ->
  when (nonnull p) (g_free p) w = Some (tt, released [p] w).
Proof.
  intros H. destruct (decide (p = NULL)) as [->|Hp]; [done|].
  rewrite nonnull_true by done. by eapply g_free_released.
Qed.

Lemma when_g_error_free_released p w :
  null_or (heap w) p is_OErr ->
  when (nonnull p) (g_error_free p) w = Some (tt, released [p] w).
Proof.
  intros H. destruct (decide (p = NULL)) as [->|Hp]; [done|].
  destruct (null_or_inv _ _ _ H Hp) as (o & Ho & Po).
  rewrite nonnull_true by done. cbn [when]. unfold g_error_free.
  erewrite bind_Some; [|by apply load_Some].
  destruct o; try done. rewrite released_one by done. by eapply release_Some.
Qed.

Lemma g_hash_table_destroy_released p w :
  p ≠ NULL -> null_or (heap w) p is_OHash ->
  g_hash_table_destroy p w = Some (tt, released [p] w).
Proof.
  intros Hp H. destruct (null_or_inv _ _ _ H Hp) as (o & Ho & Po).
  unfold g_hash_table_destroy.
  erewrite bind_Some; [|by apply load_Some].
  destruct o; try done. rewrite released_one by done. by eapply release_Some.
Qed.

(** Blocks of different kinds are behind different pointers. *)
Lemma null_or_released_ne h p q P Q w :
  h = heap w ->
  null_or h p P -> null_or h q Q ->
  (forall o, P o -> Q o -> False) ->
  null_or (heap (released [p] w)) q Q.
Proof.
  intros -> Hp [->|(o & Ho & Qo)] HPQ; [by left|].
  right. exists o. split; [|done].
  destruct (decide (p = NULL)) as [->|Hn]; [done|].
  rewrite released_one_lookup_ne; [done|].
  intros ->. destruct (null_or_inv _ _ _ Hp Hn) as (o' & Ho' & Po').
  rewrite Ho in Ho'. injection Ho' as <-. eauto.
Qed.

Lemma REPLYCTX_CLEANHEADER_released c w :
  null_or (heap w) (msg (header c)) is_OStr ->
  REPLYCTX_CLEANHEADER c w
  = Some (set_header c header_zero, released [msg (header c)] w).
Proof.
  intros H. unfold REPLYCTX_CLEANHEADER.
  erewrite bind_Some; [|by eapply when_g_free_released]. reflexivity.
Qed.

Lemma REPLYCTX_CLEANBODY_released c w :
  null_or (heap w) (owned_body c) is_ORaw ->
  REPLYCTX_CLEANBODY c w
  = Some (set_body c body_zero, released [owned_body c] w).
Proof.
  intros H. unfold REPLYCTX_CLEANBODY, owned_body in *.
  destruct (nonnull (buffer (body c))) eqn:Eb; cbn [when andb] in *; [|done].
  destruct (copy (body c) =? 0) eqn:Ec; cbn [when negb] in *; [done|].
  erewrite bind_Some; [|by eapply g_free_released]. reflexivity.
Qed.

(** *** Extra headers *)

Lemma entries_for_absent k (l : list (string * list Byte.byte)) :
  (forall v, (k, v) ∉ l) -> filter (fun kv => kv.1 = k) l = [].
Proof.
  induction l as [|[k' v'] l IH]; intros H; [done|].
  rewrite filter_cons_False.
  - apply IH. intros v Hin. apply (H v). by right.
  - cbn. intros ->. apply (H v'). by left.
Qed.

Lemma entries_for_lookup k v (t : gmap string (list Byte.byte)) :
  t !! k = Some v -> entries_for k t = [(k, v)].
Proof.
  intros H. unfold entries_for.
  assert (E : t = <[k := v]> (delete k t)).
  { by rewrite insert_delete_eq, insert_id. }
  assert (P : map_to_list t ≡ₚ (k, v) :: map_to_list (delete k t)).
  { rewrite E at 1. apply map_to_list_insert, lookup_delete_eq. }
  apply Permutation_singleton_r. rewrite P.
  rewrite filter_cons_True by done.
  apply Permutation_cons; [done|].
  rewrite entries_for_absent; [done|].
  intros v' Hin. apply elem_of_map_to_list in Hin. by rewrite lookup_delete_eq in Hin.
Qed.

Lemma headers_of_table w c t :
  extra_headers c ≠ NULL -> heap w !! extra_headers c = Some (OHash t) ->
  headers_of w c = t.
Proof. intros Hn H. unfold headers_of. by rewrite nonnull_true, H. Qed.

Lemma headers_of_NULL w c : extra_headers c = NULL -> headers_of w c = ∅.
Proof. intros H. unfold headers_of. by rewrite H. Qed.

Lemma g_hash_table_insert_Some p t k v w :
  p ≠ NULL -> heap w !! p = Some (OHash t) ->
  g_hash_table_insert p k v w
  = Some (tt, mkWorld (<[p := OHash (<[k := v]> t)]> (heap w)) (trace w)).
Proof.
  intros Hp H. unfold g_hash_table_insert.
  erewrite bind_Some; [|by apply load_Some]. by eapply store_Some.
Qed.

Lemma to_guint_small z : 0 <= z < 2 ^ 32 -> to_guint z = z.
Proof. intros H. unfold to_guint. by apply Z.mod_small. Qed.

Lemma to_guint_range z : 0 <= to_guint z < 2 ^ 32.
Proof. unfold to_guint. apply Z.mod_pos_bound. lia. Qed.

Lemma to_guint_wrap : to_guint (2 ^ 32) = 0.
Proof. reflexivity. Qed.

(** A header with a key, a value and a length that is not zero goes into
    the table, which is made first if the context has none; the value stored
    has the length converted to [guint]. *)
Lemma reply_context_add_bufheader_in_reply_Some c k v vlen w :
  null_or (heap w) (extra_headers c) is_OHash ->
  vlen ≠ 0 -> to_guint vlen <= Z.of_nat (length v) ->
  exists tp w',
    reply_context_add_bufheader_in_reply (Some c) (Some k) (Some v) vlen w
    = Some (Some (set_extra_headers c tp), w') /\
    tp ≠ NULL /\
    heap w' !! tp
    = Some (OHash (<[k := take (Z.to_nat (to_guint vlen)) v]> (headers_of w c))) /\
    (extra_headers c ≠ NULL -> tp = extra_headers c /\ trace w' = trace w) /\
    (extra_headers c = NULL -> heap w !! tp = None /\ trace w' = trace w ++ [EvAlloc tp]) /\
    (forall q, q ≠ tp -> heap w' !! q = heap w !! q).
Proof.
  intros He Hz Hv. unfold reply_context_add_bufheader_in_reply.
  replace (vlen =? 0) with false by (symmetry; by apply Z.eqb_neq).
  cbv zeta.
  replace (to_guint vlen <=? Z.of_nat (length v)) with true
    by (symmetry; by apply Z.leb_le).
  destruct (decide (extra_headers c = NULL)) as [E|E].
  - rewrite E. cbn [nonnull N.eqb NULL negb].
    unfold g_hash_table_new_full.
    set (tp := fresh_ptr (heap w)).
    assert (Htp : tp ≠ NULL) by apply fresh_ptr_nonnull.
    exists tp. eexists. split; [|split; [done|]].
    + unfold mbind at 1, M_bind at 1, bind at 1.
      unfold mbind at 1, M_bind at 1, bind at 1, alloc at 1. fold tp.
      cbn [ret set_extra_headers extra_headers].
      erewrite bind_Some; [|apply g_hash_table_insert_Some; [done|heap_lookup]].
      reflexivity.
    + cbn [heap trace]. rewrite insert_insert_eq, lookup_insert_eq.
      rewrite headers_of_NULL by done.
      repeat split; try done.
      * apply fresh_ptr_fresh.
      * intros q Hq. by rewrite lookup_insert_ne.
  - destruct (null_or_inv _ _ _ He E) as (o & Ho & Po).
    destruct o as [| | | |t| |]; try done.
    rewrite nonnull_true by done. cbn [negb].
    exists (extra_headers c). eexists. split; [|split; [done|]].
    + erewrite bind_Some; [|reflexivity].
      erewrite bind_Some; [|by apply g_hash_table_insert_Some].
      unfold ret. do 3 f_equal. by destruct c.
    + cbn [heap trace]. rewrite lookup_insert_eq.
      rewrite (headers_of_table w c t) by done.
      repeat split; try done.
      intros q Hq. by rewrite lookup_insert_ne.
Qed.

Lemma length_list_byte_of_string s :
  length (String.list_byte_of_string s) = String.length s.
Proof.
  unfold String.list_byte_of_string. rewrite length_map.
  induction s as [|a s IH]; [done|]. cbn. by rewrite IH.
Qed.

Lemma strlen_pos s : s ≠ ""%string -> 0 < strlen s.
Proof. unfold strlen. destruct s; [done|]. cbn [String.length]. lia. Qed.

Lemma take_whole (b : list Byte.byte) : take (Z.to_nat (Z.of_nat (length b))) b = b.
Proof. rewrite Nat2Z.id. by apply take_ge. Qed.

(** Two headers under one key, one after the other. *)
Lemma reply_context_add_bufheader_in_reply_twice c k v1 n1 v2 n2 w :
  null_or (heap w) (extra_headers c) is_OHash ->
  n1 ≠ 0 -> to_guint n1 <= Z.of_nat (length v1) ->
  n2 ≠ 0 -> to_guint n2 <= Z.of_nat (length v2) ->
  exists c1 w1 c2 w2,
    reply_context_add_bufheader_in_reply (Some c) (Some k) (Some v1) n1 w
    = Some (Some c1, w1) /\
    reply_context_add_bufheader_in_reply (Some c1) (Some k) (Some v2) n2 w1
    = Some (Some c2, w2) /\
    headers_of w2 c2
    = <[k := take (Z.to_nat (to_guint n2)) v2]>
        (<[k := take (Z.to_nat (to_guint n1)) v1]> (headers_of w c)).
Proof.
  intros He Z1 H1 Z2 H2.
  destruct (reply_context_add_bufheader_in_reply_Some c k v1 n1 w He Z1 H1)
    as (tp & w1 & E1 & Htp & Ht1 & _).
  assert (He1 : null_or (heap w1) (extra_headers (set_extra_headers c tp)) is_OHash).
  { right. eexists. split; [exact Ht1|done]. }
  destruct (reply_context_add_bufheader_in_reply_Some _ k v2 n2 w1 He1 Z2 H2)
    as (tp2 & w2 & E2 & Htp2 & Ht2 & Hsame & _).
  cbn [set_extra_headers extra_headers] in Hsame.
  destruct (Hsame Htp) as [E _]. subst tp2.
  exists (set_extra_headers c tp), w1,
         (set_extra_headers (set_extra_headers c tp) tp), w2.
  split; [exact E1|]. split; [exact E2|].
  rewrite (headers_of_table w2 (set_extra_headers (set_extra_headers c tp) tp) _ Htp Ht2).
  by rewrite (headers_of_table w1 (set_extra_headers c tp) _ Htp Ht1).
Qed.

Lemma to_guint_le z : 0 <= z -> to_guint z <= z.
Proof. intros H. unfold to_guint. apply Z.mod_le; lia. Qed.

Lemma strlen_ne_0 s : s ≠ ""%string -> strlen s ≠ 0.
Proof. intros H. pose proof (strlen_pos s H). lia. Qed.

Lemma to_guint_strlen_le s :
  to_guint (strlen s) <= Z.of_nat (length (String.list_byte_of_string s)).
Proof.
  rewrite length_list_byte_of_string. apply to_guint_le. unfold strlen. lia.
Qed.

(** The bytes [g_byte_array_append] takes from a string given with its
    [strlen]: all of them below 4 GiB, none at 4 GiB. *)
Lemma take_strlen_small s :
  strlen s < 2 ^ 32 ->
  take (Z.to_nat (to_guint (strlen s))) (String.list_byte_of_string s)
  = String.list_byte_of_string s.
Proof.
  intros H. rewrite to_guint_small by (unfold strlen in *; lia).
  unfold strlen. rewrite <- length_list_byte_of_string. apply take_whole.
Qed.

Lemma take_strlen_wrap s :
  strlen s = 2 ^ 32 ->
  take (Z.to_nat (to_guint (strlen s))) (String.list_byte_of_string s) = [].
Proof. intros ->. by rewrite to_guint_wrap. Qed.

(** C7, on the code.  Two headers added under one key leave one entry under
    that key in the extra headers.  Through
    [reply_context_add_header_in_reply] it holds the bytes of the second
    array.  Through [reply_context_add_strheader_in_reply] it holds the first
    [(guint) strlen(v)] bytes of the second string: the whole string when that
    is shorter than 2^32 bytes, and nothing at all when it has 2^32 bytes, so
    that a value of length zero is then stored.  A call with a NULL key, a
    NULL value or a value of length zero leaves the context and the heap, and
    so the extra headers, as they were. *)
Theorem extra_headers_last_write_wins (c : reply_context_s) (w : world) (k : string) :
  null_or (heap w) (extra_headers c) is_OHash ->
  (forall v1 v2 : string, v1 ≠ ""%string -> v2 ≠ ""%string ->
     exists c1 w1 c2 w2,
       reply_context_add_strheader_in_reply (Some c) (Some k) (Some v1) w
       = Some (Some c1, w1) /\
       reply_context_add_strheader_in_reply (Some c1) (Some k) (Some v2) w1
       = Some (Some c2, w2) /\
       headers_of w2 c2 !! k
       = Some (take (Z.to_nat (to_guint (strlen v2))) (String.list_byte_of_string v2)) /\
       entries_for k (headers_of w2 c2)
       = [(k, take (Z.to_nat (to_guint (strlen v2))) (String.list_byte_of_string v2))] /\
       (strlen v2 < 2 ^ 32 ->
        headers_of w2 c2 !! k = Some (String.list_byte_of_string v2) /\
        entries_for k (headers_of w2 c2) = [(k, String.list_byte_of_string v2)]) /\
       (strlen v2 = 2 ^ 32 ->
        headers_of w2 c2 !! k = Some [] /\
        entries_for k (headers_of w2 c2) = [(k, [])])) /\
  (forall b1 b2 : list Byte.byte, b1 ≠ [] -> b2 ≠ [] ->
     Z.of_nat (length b1) < 2 ^ 32 -> Z.of_nat (length b2) < 2 ^ 32 ->
     exists c1 w1 c2 w2,
       reply_context_add_header_in_reply (Some c) (Some k)
         (Some (mkGByteArray (Some b1) (Z.of_nat (length b1)))) w
       = Some (Some c1, w1) /\
       reply_context_add_header_in_reply (Some c1) (Some k)
         (Some (mkGByteArray (Some b2) (Z.of_nat (length b2)))) w1
       = Some (Some c2, w2) /\
       headers_of w2 c2 !! k = Some b2 /\
       entries_for k (headers_of w2 c2) = [(k, b2)]) /\
  (forall ctx k' v,
     k' = None \/ v = None \/ v = Some ""%string ->
     reply_context_add_strheader_in_reply ctx k' v w = Some (ctx, w)) /\
  (forall ctx k' v,
     k' = None \/ v = None \/
     (exists g, v = Some g /\ (gba_data g = None \/ gba_len g = 0)) ->
     reply_context_add_header_in_reply ctx k' v w = Some (ctx, w)).
Proof.
  intros He. split; [|split; [|split]].
  - intros v1 v2 H1 H2.
    destruct (reply_context_add_bufheader_in_reply_twice c k
                (String.list_byte_of_string v1) (strlen v1)
                (String.list_byte_of_string v2) (strlen v2) w He)
      as (c1 & w1 & c2 & w2 & E1 & E2 & Eh);
      [by apply strlen_ne_0|apply to_guint_strlen_le
      |by apply strlen_ne_0|apply to_guint_strlen_le|].
    exists c1, w1, c2, w2. split; [exact E1|]. split; [exact E2|].
    assert (L : headers_of w2 c2 !! k
                = Some (take (Z.to_nat (to_guint (strlen v2)))
                             (String.list_byte_of_string v2))).
    { by rewrite Eh, lookup_insert_eq. }
    split; [exact L|]. split; [by apply entries_for_lookup|]. split.
    + intros Hs. rewrite take_strlen_small in L by done.
      split; [exact L|by apply entries_for_lookup].
    + intros Hs. rewrite take_strlen_wrap in L by done.
      split; [exact L|by apply entries_for_lookup].
  - intros b1 b2 H1 H2 L1 L2. unfold reply_context_add_header_in_reply.
    cbn [gba_data gba_len].
    destruct (reply_context_add_bufheader_in_reply_twice c k
                b1 (Z.of_nat (length b1)) b2 (Z.of_nat (length b2)) w He)
      as (c1 & w1 & c2 & w2 & E1 & E2 & Eh).
    { destruct b1; [done|]. cbn [length]. lia. }
    { apply to_guint_le. lia. }
    { destruct b2; [done|]. cbn [length]. lia. }
    { apply to_guint_le. lia. }
    exists c1, w1, c2, w2. split; [exact E1|]. split; [exact E2|].
    assert (L : headers_of w2 c2 !! k = Some b2).
    { rewrite Eh, lookup_insert_eq, to_guint_small by lia. by rewrite take_whole. }
    split; [exact L|]. by apply entries_for_lookup.
  - intros ctx k' v H. unfold reply_context_add_strheader_in_reply.
    destruct ctx as [c0|]; [|done]. destruct k' as [k0|]; [|done].
    destruct v as [s|]; [|done].
    destruct H as [H|[H|H]]; try done. injection H as ->. reflexivity.
  - intros ctx k' v H. unfold reply_context_add_header_in_reply.
    destruct ctx as [c0|]; [|done]. destruct k' as [k0|]; [|done].
    destruct v as [g|]; [|done].
    destruct H as [H|[H|(g' & H & Hg)]]; try done. injection H as <-.
    unfold reply_context_add_bufheader_in_reply.
    destruct Hg as [->| ->]; [done|]. by destruct (gba_data g).
Qed.

(** *** [reply_context_clear] *)

Lemma kinds_OStr_ORaw o : is_OStr o -> is_ORaw o -> False.
Proof. by destruct o. Qed.
Lemma kinds_OErr_OHash o : is_OErr o -> is_OHash o -> False.
Proof. by destruct o. Qed.
Lemma kinds_OErr_OStr o : is_OErr o -> is_OStr o -> False.
Proof. by destruct o. Qed.
Lemma kinds_OErr_ORaw o : is_OErr o -> is_ORaw o -> False.
Proof. by destruct o. Qed.
Lemma kinds_OHash_OStr o : is_OHash o -> is_OStr o -> False.
Proof. by destruct o. Qed.
Lemma kinds_OHash_ORaw o : is_OHash o -> is_ORaw o -> False.
Proof. by destruct o. Qed.

Lemma reply_context_clear_partial c w :
  null_or (heap w) (msg (header c)) is_OStr ->
  null_or (heap w) (owned_body c) is_ORaw ->
  reply_context_clear (Some c) false w
  = Some (Some (mkReplyContext (req_ctx c) (warning c) header_zero body_zero
                               (extra_headers c)),
          released [msg (header c); owned_body c] w).
Proof.
  intros Hm Hb. unfold reply_context_clear.
  erewrite bind_Some; [|reflexivity].
  erewrite bind_Some; [|by apply REPLYCTX_CLEANHEADER_released].
  erewrite bind_Some; [|apply REPLYCTX_CLEANBODY_released].
  - reflexivity.
  - eapply null_or_released_ne; [reflexivity|exact Hm|exact Hb|apply kinds_OStr_ORaw].
Qed.

Lemma reply_context_clear_full c w :
  reply_context_ok (heap w) c ->
  reply_context_clear (Some c) true w
  = Some (Some (mkReplyContext (req_ctx c) NULL header_zero body_zero NULL),
          released [warning c; extra_headers c; msg (header c); owned_body c] w).
Proof.
  intros [Hm Hw He Hb].
  assert (He1 : null_or (heap (released [warning c] w)) (extra_headers c) is_OHash).
  { eapply null_or_released_ne; [reflexivity|exact Hw|exact He|apply kinds_OErr_OHash]. }
  assert (Hm1 : null_or (heap (released [warning c] w)) (msg (header c)) is_OStr).
  { eapply null_or_released_ne; [reflexivity|exact Hw|exact Hm|apply kinds_OErr_OStr]. }
  assert (Hb1 : null_or (heap (released [warning c] w)) (owned_body c) is_ORaw).
  { eapply null_or_released_ne; [reflexivity|exact Hw|exact Hb|apply kinds_OErr_ORaw]. }
  assert (Hm2 : null_or (heap (released [warning c; extra_headers c] w))
                        (msg (header c)) is_OStr).
  { rewrite released_cons.
    eapply null_or_released_ne; [reflexivity|exact He1|exact Hm1|apply kinds_OHash_OStr]. }
  assert (Hb2 : null_or (heap (released [warning c; extra_headers c] w))
                        (owned_body c) is_ORaw).
  { rewrite released_cons.
    eapply null_or_released_ne; [reflexivity|exact He1|exact Hb1|apply kinds_OHash_ORaw]. }
  unfold reply_context_clear.
  erewrite bind_Some with
    (a := mkReplyContext (req_ctx c) NULL (header c) (body c) NULL)
    (w' := released [warning c; extra_headers c] w).
  2:{ erewrite bind_Some; [|by apply when_g_error_free_released].
      cbn [set_warning extra_headers].
      destruct (decide (extra_headers c = NULL)) as [E|E].
      - rewrite E. cbn. destruct c; cbn in *; by subst.
      - rewrite nonnull_true by done.
        erewrite bind_Some; [|by apply g_hash_table_destroy_released].
        reflexivity. }
  erewrite bind_Some; [|by apply REPLYCTX_CLEANHEADER_released].
  erewrite bind_Some; [|apply REPLYCTX_CLEANBODY_released].
  - cbn [header msg set_header]. reflexivity.
  - cbn [header msg set_header].
    change (released [warning c; extra_headers c; msg (header c)] w)
      with (released [msg (header c)] (released [warning c; extra_headers c] w)).
    eapply null_or_released_ne; [reflexivity|exact Hm2|exact Hb2|apply kinds_OStr_ORaw].
Qed.

(** C8. On a reply context that has a warning and a table of extra headers,
    [reply_context_clear] without [all] zeroes the header and the body,
    releasing the message and a body the context owns, and leaves the warning
    and the table as they were, in the structure and in the heap; with [all]
    it also releases the warning and the table and sets both fields to NULL,
    the state from which the next header added makes a new table. *)
Theorem reply_context_clear_partial_and_full (c : reply_context_s) (w : world)
    (e : GError) (t : gmap string (list Byte.byte)) :
  reply_context_ok (heap w) c ->
  warning c ≠ NULL -> heap w !! warning c = Some (OErr e) ->
  extra_headers c ≠ NULL -> heap w !! extra_headers c = Some (OHash t) ->
  (exists w1,
     reply_context_clear (Some c) false w
     = Some (Some (mkReplyContext (req_ctx c) (warning c) header_zero body_zero
                                  (extra_headers c)), w1) /\
     w1 = released [msg (header c); owned_body c] w /\
     heap w1 !! warning c = Some (OErr e) /\
     heap w1 !! extra_headers c = Some (OHash t) /\
     frees (warning c) (trace w1) = frees (warning c) (trace w) /\
     frees (extra_headers c) (trace w1) = frees (extra_headers c) (trace w)) /\
  (exists w2,
     reply_context_clear (Some c) true w
     = Some (Some (mkReplyContext (req_ctx c) NULL header_zero body_zero NULL), w2) /\
     w2 = released [warning c; extra_headers c; msg (header c); owned_body c] w /\
     heap w2 !! warning c = None /\
     heap w2 !! extra_headers c = None /\
     frees (warning c) (trace w2) = S (frees (warning c) (trace w)) /\
     frees (extra_headers c) (trace w2) = S (frees (extra_headers c) (trace w)) /\
     forall (k v : string), v ≠ ""%string ->
       exists tp w3,
         reply_context_add_strheader_in_reply
           (Some (mkReplyContext (req_ctx c) NULL header_zero body_zero NULL))
           (Some k) (Some v) w2
         = Some (Some (mkReplyContext (req_ctx c) NULL header_zero body_zero tp), w3) /\
         tp ≠ NULL /\ heap w2 !! tp = None /\
         heap w3 !! tp
         = Some (OHash {[ k := take (Z.to_nat (to_guint (strlen v)))
                                    (String.list_byte_of_string v) ]}) /\
         (strlen v < 2 ^ 32 ->
          heap w3 !! tp = Some (OHash {[ k := String.list_byte_of_string v ]}))).
Proof.
  intros Hok Hwn Hw Hen He. destruct Hok as [Hm _ _ Hb].
  assert (Dwm : warning c ≠ msg (header c)).
  { intros E. rewrite E in Hw, Hwn.
    destruct (null_or_inv _ _ _ Hm Hwn) as (o & Ho & Po).
    rewrite Hw in Ho. by injection Ho as <-. }
  assert (Dwb : warning c ≠ owned_body c).
  { intros E. rewrite E in Hw, Hwn.
    destruct (null_or_inv _ _ _ Hb Hwn) as (o & Ho & Po).
    rewrite Hw in Ho. by injection Ho as <-. }
  assert (Dem : extra_headers c ≠ msg (header c)).
  { intros E. rewrite E in He, Hen.
    destruct (null_or_inv _ _ _ Hm Hen) as (o & Ho & Po).
    rewrite He in Ho. by injection Ho as <-. }
  assert (Deb : extra_headers c ≠ owned_body c).
  { intros E. rewrite E in He, Hen.
    destruct (null_or_inv _ _ _ Hb Hen) as (o & Ho & Po).
    rewrite He in Ho. by injection Ho as <-. }
  assert (Dwe : warning c ≠ extra_headers c).
  { intros E. rewrite E in Hw. rewrite Hw in He. discriminate. }
  split.
  - eexists. split; [by apply reply_context_clear_partial|].
    split; [reflexivity|].
    rewrite released_cons.
    rewrite !released_one_lookup_ne by done.
    rewrite !frees_released_one_ne by done. done.
  - eexists. split.
    { apply reply_context_clear_full. split; try done.
      - right. eexists. split; [exact Hw|done].
      - right. eexists. split; [exact He|done]. }
    split; [reflexivity|].
    change (released [warning c; extra_headers c; msg (header c); owned_body c] w)
      with (released [owned_body c] (released [msg (header c)]
             (released [extra_headers c] (released [warning c] w)))).
    repeat split.
    + rewrite !released_one_lookup_ne by done.
      by apply released_one_lookup_eq.
    + rewrite !released_one_lookup_ne by done.
      by apply released_one_lookup_eq.
    + rewrite !frees_released_one_ne by done.
      by apply frees_released_one_eq.
    + rewrite !frees_released_one_ne by done.
      rewrite frees_released_one_eq by done.
      by rewrite frees_released_one_ne.
    + intros k v Hv.
      set (c2 := mkReplyContext (req_ctx c) NULL header_zero body_zero NULL).
      set (w2 := released [owned_body c] (released [msg (header c)]
                   (released [extra_headers c] (released [warning c] w)))).
      destruct (reply_context_add_bufheader_in_reply_Some c2 k
                  (String.list_byte_of_string v) (strlen v) w2)
        as (tp & w3 & E & Htp & Ht & _ & Hnew & _).
      { by left. }
      { by apply strlen_ne_0. }
      { apply to_guint_strlen_le. }
      rewrite (headers_of_NULL w2 c2), insert_empty in Ht by done.
      exists tp, w3. split; [|split; [done|split; [|split]]].
      * unfold reply_context_add_strheader_in_reply. exact E.
      * by destruct (Hnew eq_refl).
      * exact Ht.
      * intros Hs. by rewrite take_strlen_small in Ht.
Qed.

(** *** [reply_context_reply] *)

Lemma read_raw_Some p n b w :
  p ≠ NULL -> heap w !! p = Some (ORaw b) -> n <= Z.of_nat (length b) ->
  read_raw p n w = Some (take (Z.to_nat n) b, w).
Proof.
  intros Hp H Hn. unfold read_raw.
  erewrite bind_Some; [|by apply load_Some].
  cbv beta iota. by rewrite (proj2 (Z.leb_le _ _) Hn).
Qed.

Lemma g_hash_table_foreach_empty f (u : MESSAGE) :
  g_hash_table_foreach ∅ f u = u.
Proof. unfold g_hash_table_foreach. by rewrite map_to_list_empty. Qed.

Lemma reply_context_answer_Some c w rc :
  reply_context_readable (heap w) c rc ->
  reply_context_answer c w = Some (answer_of w c rc, w).
Proof.
  intros [Hn Hl Hm He Hb]. unfold reply_context_answer, answer_of.
  erewrite bind_Some; [|by apply load_Some]. cbv beta iota.
  erewrite bind_Some with (a := message_of w c) (w' := w).
  2:{ unfold message_of. destruct (decide (msg (header c) = NULL)) as [E|E].
      - by rewrite E.
      - destruct (null_or_inv _ _ _ Hm E) as (o & Ho & Po).
        rewrite nonnull_true by done.
        erewrite bind_Some; [|by apply load_Some].
        rewrite Ho. by destruct o. }
  erewrite bind_Some with
    (a := g_hash_table_foreach (headers_of w c) reply_ctx_header_adder
            (metaXServer_reply_simple (request rc) (code (header c)) (message_of w c)))
    (w' := w).
  2:{ unfold headers_of. destruct (decide (extra_headers c = NULL)) as [E|E].
      - rewrite E. cbn [nonnull N.eqb NULL negb].
        by rewrite g_hash_table_foreach_empty.
      - destruct (null_or_inv _ _ _ He E) as (o & Ho & Po).
        rewrite nonnull_true by done.
        erewrite bind_Some; [|by apply load_Some].
        rewrite Ho. by destruct o. }
  unfold body_of.
  destruct (nonnull (buffer (body c)) && (0 <? size (body c))) eqn:Eb; [|done].
  apply andb_true_iff in Eb as [Eb1 Eb2].
  apply nonnull_spec in Eb1. apply Z.ltb_lt in Eb2.
  destruct Hb as [Hb|[Hb|(b & Hb & Hs)]]; [done|lia|].
  erewrite bind_Some; [|by apply read_raw_Some]. by rewrite Hb.
Qed.

(** The marshaller gives bytes: they go into a new byte array, are written
    once with the deadline of [reply_timeout], and the array is released. *)
Lemma reply_context_reply_written c w rc data sent err :
  reply_context_readable (heap w) c rc ->
  message_marshall_gba_and_clean (answer_of w c rc) = Some data ->
  sock_to_write (fd rc) (reply_timeout default_to_operation) data = (sent, err) ->
  let encoded := fresh_ptr (heap w) in
  reply_context_reply c w
  = Some (if (0 <? sent) && (Z.of_nat (length data) =? to_guint sent)
          then (1, err)
          else (0, g_prefix_error err "Failed to reply: "),
          mkWorld (heap w)
                  (trace w ++ [EvAlloc encoded;
                               EvWrite (fd rc) (reply_timeout default_to_operation) data;
                               EvFree encoded])).
Proof.
  intros Hr Hm Hs encoded. pose proof Hr as [Hn Hl _ _ _].
  assert (Hp : encoded ≠ NULL) by apply fresh_ptr_nonnull.
  assert (Hf : heap w !! encoded = None) by apply fresh_ptr_fresh.
  assert (Hne : req_ctx c ≠ encoded).
  { intros E. rewrite E in Hl. rewrite Hf in Hl. discriminate. }
  unfold reply_context_reply.
  erewrite bind_Some; [|by apply reply_context_answer_Some].
  rewrite Hm.
  unfold mbind at 1, M_bind at 1, bind at 1, alloc at 1. fold encoded.
  erewrite bind_Some; [|apply load_Some; [done|heap_lookup]].
  cbv beta iota. rewrite Hs.
  unfold mbind at 1, M_bind at 1, bind at 1, emit at 1. cbn [heap trace].
  unfold g_byte_array_unref.
  erewrite bind_Some; last first.
  { erewrite bind_Some; [|apply load_Some; [done|heap_lookup]].
    eapply release_Some; [done|heap_lookup]. }
  cbn [heap trace].
  rewrite delete_insert_eq, delete_id by done.
  rewrite <- !app_assoc. cbn [app].
  by destruct ((0 <? sent) && (Z.of_nat (length data) =? to_guint sent)).
Qed.

Lemma writes_app t1 t2 : writes (t1 ++ t2) = writes t1 ++ writes t2.
Proof.
  induction t1 as [|e t1 IH]; [done|]. destruct e; cbn; by rewrite ?IH.
Qed.

(** C1, as the code has it.  When the marshaller has given bytes,
    [reply_context_reply] returns 1 if and only if [sock_to_write] reports a
    count that is positive and equal to the number of bytes, and 0 otherwise.
    On 0 the error is what [g_prefix_error] makes of the error of the write:
    that error with ["Failed to reply: "] in front when the write left one,
    and no error when the write left none.  Either way the byte array made
    for the bytes is released once, after the write, and the heap is what it
    was before the call.  When the marshaller has given nothing, the call
    returns 1 without a write. *)
Theorem reply_context_reply_success_iff (c : reply_context_s) (w : world)
    (rc : request_context_s) :
  reply_context_readable (heap w) c rc ->
  (forall (data : list Byte.byte) (sent : Z) (err : option GError),
     message_marshall_gba_and_clean (answer_of w c rc) = Some data ->
     sock_to_write (fd rc) (reply_timeout default_to_operation) data = (sent, err) ->
     is_gint sent ->
     exists r e w' encoded,
       reply_context_reply c w = Some ((r, e), w') /\
       (r = 1 \/ r = 0) /\
       (r = 1 <-> 0 < sent /\ sent = Z.of_nat (length data)) /\
       (r = 1 -> e = err) /\
       (r = 0 -> e = g_prefix_error err "Failed to reply: ") /\
       (r = 0 -> forall x, err = Some x ->
          e = Some (mkGError (error_code x) ("Failed to reply: " +:+ error_message x))) /\
       (r = 0 -> err = None -> e = None) /\
       encoded ≠ NULL /\ heap w !! encoded = None /\
       trace w' = trace w ++ [EvAlloc encoded;
                              EvWrite (fd rc) (reply_timeout default_to_operation) data;
                              EvFree encoded] /\
       frees encoded (trace w') = S (frees encoded (trace w)) /\
       heap w' = heap w) /\
  (message_marshall_gba_and_clean (answer_of w c rc) = None ->
   reply_context_reply c w = Some ((1, None), w)).
Proof.
  intros Hr. split.
  - intros data sent err Hm Hs Hg.
    pose proof (reply_context_reply_written c w rc data sent err Hr Hm Hs) as E.
    cbv zeta in E. set (encoded := fresh_ptr (heap w)) in *.
    assert (D : (0 <? sent) && (Z.of_nat (length data) =? to_guint sent) = true
                <-> 0 < sent /\ sent = Z.of_nat (length data)).
    { rewrite andb_true_iff, Z.ltb_lt, Z.eqb_eq. unfold to_guint, is_gint in *.
      split.
      - intros [Hp He]. split; [done|]. rewrite Z.mod_small in He by lia. lia.
      - intros [Hp He]. split; [done|]. rewrite Z.mod_small by lia. lia. }
    assert (F : frees encoded
                  (trace w ++ [EvAlloc encoded;
                               EvWrite (fd rc) (reply_timeout default_to_operation) data;
                               EvFree encoded])
                = S (frees encoded (trace w))).
    { rewrite frees_app. unfold frees at 2. cbn. rewrite N.eqb_refl. cbn. lia. }
    destruct ((0 <? sent) && (Z.of_nat (length data) =? to_guint sent)) eqn:Ed.
    + eexists 1, err, _, encoded. split; [exact E|]. cbn [heap trace].
      split; [by left|].
      split; [split; [intros _; by apply D|done]|].
      split; [done|]. split; [done|]. split; [done|]. split; [done|].
      split; [apply fresh_ptr_nonnull|]. split; [apply fresh_ptr_fresh|].
      split; [done|]. split; [exact F|done].
    + eexists 0, (g_prefix_error err "Failed to reply: "), _, encoded.
      split; [exact E|]. cbn [heap trace].
      split; [by right|].
      split; [split; [done|intros H; by apply D in H]|].
      split; [done|]. split; [done|]. split; [by intros _ x ->|].
      split; [by intros _ ->|].
      split; [apply fresh_ptr_nonnull|]. split; [apply fresh_ptr_fresh|].
      split; [done|]. split; [exact F|done].
  - intros Hm. unfold reply_context_reply.
    erewrite bind_Some; [|by apply reply_context_answer_Some].
    by rewrite Hm.
Qed.

(** C2, as the code has it.  When the marshaller gives no bytes,
    [reply_context_reply] writes nothing, releases nothing, sets no error and
    returns 1. *)
Theorem reply_context_reply_marshalling_failure (c : reply_context_s)
    (w : world) (rc : request_context_s) :
  reply_context_readable (heap w) c rc ->
  message_marshall_gba_and_clean (answer_of w c rc) = None ->
  reply_context_reply c w = Some ((1, None), w).
Proof.
  intros Hr Hm. unfold reply_context_reply.
  erewrite bind_Some; [|by apply reply_context_answer_Some].
  by rewrite Hm.
Qed.

(** C4. The deadline of the write of [reply_context_reply] is the configured
    [default_to_operation] clamped into [1000, 60000]: 0, 500, 30000 and
    120000 give 1000, 1000, 30000 and 60000. *)
Theorem reply_timeout_clamped (c : reply_context_s) (w : world)
    (rc : request_context_s) (data : list Byte.byte) :
  reply_context_readable (heap w) c rc ->
  message_marshall_gba_and_clean (answer_of w c rc) = Some data ->
  (exists r w',
     reply_context_reply c w = Some (r, w') /\
     writes (trace w')
     = writes (trace w) ++ [(fd rc, reply_timeout default_to_operation, data)]) /\
  (forall to_operation,
     1000 <= reply_timeout to_operation <= 60000 /\
     (to_operation < 1000 -> reply_timeout to_operation = 1000) /\
     (1000 <= to_operation <= 60000 -> reply_timeout to_operation = to_operation) /\
     (60000 < to_operation -> reply_timeout to_operation = 60000)) /\
  reply_timeout 0 = 1000 /\ reply_timeout 500 = 1000 /\
  reply_timeout 30000 = 30000 /\ reply_timeout 120000 = 60000.
Proof.
  intros Hr Hm. split; [|split].
  - destruct (sock_to_write (fd rc) (reply_timeout default_to_operation) data)
      as [sent err] eqn:Hs.
    pose proof (reply_context_reply_written c w rc data sent err Hr Hm Hs) as E.
    eexists _, _. split; [exact E|]. cbn [trace].
    by rewrite writes_app.
  - intros t. unfold reply_timeout, MS_REPLY_TIMEOUT. lia.
  - done.
Qed.

Lemma reply_context_readable_released_msg c w rc :
  reply_context_readable (heap w) c rc ->
  reply_context_readable (heap (released [msg (header c)] w))
    (set_header c header_zero) rc.
Proof.
  intros [Hn Hl Hm He Hb].
  destruct (decide (msg (header c) = NULL)) as [E|E].
  { rewrite E, released_NULL. split; try done. by left. }
  destruct (null_or_inv _ _ _ Hm E) as (o & Ho & Po).
  split; cbn [set_header req_ctx header msg extra_headers body].
  - done.
  - rewrite released_one_lookup_ne; [done|]. intros Eq. rewrite Eq in Hl.
    rewrite Hl in Ho. injection Ho as <-. done.
  - by left.
  - eapply null_or_released_ne; [reflexivity|exact Hm|exact He|].
    intros o' H1 H2. by destruct o'.
  - destruct Hb as [Hb|[Hb|(b & Hb & Hs)]]; [by left|by right; left|].
    right; right. exists b. split; [|done].
    rewrite released_one_lookup_ne; [done|]. intros Eq. rewrite Eq in Hb.
    rewrite Hb in Ho. injection Ho as <-. done.
Qed.

(** What [reply_context_reply] writes: the bytes the marshaller makes of the
    answer, once, on the socket of the request, or nothing when the
    marshaller gives nothing. *)
Lemma reply_context_reply_writes c w rc :
  reply_context_readable (heap w) c rc ->
  exists r w',
    reply_context_reply c w = Some (r, w') /\
    writes (trace w')
    = writes (trace w)
      ++ match message_marshall_gba_and_clean (answer_of w c rc) with
         | Some data => [(fd rc, reply_timeout default_to_operation, data)]
         | None => []
         end.
Proof.
  intros Hr.
  destruct (message_marshall_gba_and_clean (answer_of w c rc)) as [data|] eqn:Hm.
  - destruct (sock_to_write (fd rc) (reply_timeout default_to_operation) data)
      as [sent err] eqn:Hs.
    pose proof (reply_context_reply_written c w rc data sent err Hr Hm Hs) as E.
    eexists _, _. split; [exact E|]. cbn [trace]. by rewrite writes_app.
  - exists (1, None), w. split; [|by rewrite app_nil_r].
    unfold reply_context_reply.
    erewrite bind_Some; [|by apply reply_context_answer_Some].
    by rewrite Hm.
Qed.

(** C6. [reply_context_reply] on a context whose message is NULL, because
    none was set or because [reply_context_set_message] was given NULL,
    builds its answer with [metaXServer_reply_simple] from the request, the
    code of the context and ["NOMSG"], which is not the empty string, adds
    the extra headers and the body to it, and writes what the marshaller makes
    of that answer. *)
Theorem reply_context_reply_placeholder (c : reply_context_s) (w : world)
    (rc : request_context_s) :
  reply_context_readable (heap w) c rc ->
  (msg (header c) = NULL ->
   message_of w c = "NOMSG"%string /\ message_of w c ≠ ""%string /\
   reply_context_answer c w = Some (answer_of w c rc, w) /\
   answer_of w c rc
   = (let answer := metaXServer_reply_simple (request rc) (code (header c)) "NOMSG" in
      let answer := g_hash_table_foreach (headers_of w c) reply_ctx_header_adder answer in
      match body_of w c with
      | Some b => metautils_message_set_BODY answer b
      | None => answer
      end) /\
   exists r w',
     reply_context_reply c w = Some (r, w') /\
     writes (trace w')
     = writes (trace w)
       ++ match message_marshall_gba_and_clean
                  (let answer :=
                     metaXServer_reply_simple (request rc) (code (header c)) "NOMSG" in
                   let answer :=
                     g_hash_table_foreach (headers_of w c) reply_ctx_header_adder answer in
                   match body_of w c with
                   | Some b => metautils_message_set_BODY answer b
                   | None => answer
                   end) with
          | Some data => [(fd rc, reply_timeout default_to_operation, data)]
          | None => []
          end) /\
  (forall code_, exists c' w',
     reply_context_set_message (Some c) code_ None w = Some (Some c', w') /\
     msg (header c') = NULL /\ code (header c') = code_ /\
     reply_context_readable (heap w') c' rc /\
     message_of w' c' = "NOMSG"%string /\
     exists r w'',
       reply_context_reply c' w' = Some (r, w'') /\
       writes (trace w'')
       = writes (trace w')
         ++ match message_marshall_gba_and_clean
                    (let answer :=
                       metaXServer_reply_simple (request rc) code_ "NOMSG" in
                     let answer :=
                       g_hash_table_foreach (headers_of w' c') reply_ctx_header_adder
                         answer in
                     match body_of w' c' with
                     | Some b => metautils_message_set_BODY answer b
                     | None => answer
                     end) with
            | Some data => [(fd rc, reply_timeout default_to_operation, data)]
            | None => []
            end).
Proof.
  intros Hr. split.
  - intros E.
    assert (M : message_of w c = "NOMSG"%string).
    { unfold message_of. by rewrite E. }
    assert (A : answer_of w c rc
                = (let answer :=
                     metaXServer_reply_simple (request rc) (code (header c)) "NOMSG" in
                   let answer :=
                     g_hash_table_foreach (headers_of w c) reply_ctx_header_adder answer in
                   match body_of w c with
                   | Some b => metautils_message_set_BODY answer b
                   | None => answer
                   end)).
    { unfold answer_of. by rewrite M. }
    split; [exact M|]. split; [by rewrite M|].
    split; [by apply reply_context_answer_Some|].
    split; [exact A|].
    rewrite <- A. by apply reply_context_reply_writes.
  - intros code_.
    set (c' := set_header c (mkHeader code_ NULL)).
    set (w' := released [msg (header c)] w).
    assert (R : reply_context_readable (heap w') c' rc).
    { pose proof (reply_context_readable_released_msg c w rc Hr) as [Hn Hl Hm He Hb].
      split; try done; by left. }
    exists c', w'.
    split; [|split; [done|split; [done|split; [exact R|split; [reflexivity|]]]]].
    + unfold reply_context_set_message.
      erewrite bind_Some;
        [|apply REPLYCTX_CLEANHEADER_released; by destruct Hr].
      erewrite bind_Some; [|reflexivity]. reflexivity.
    + exact (reply_context_reply_writes c' w' rc R).
Qed.

(** C9, as the code has it.  [reply_context_set_body] with a NULL buffer or
    a size of zero still cleans the body first: a buffer the context owns is
    released, a borrowed one is not, and the body is left zeroed; the other
    fields of the context stay as they were, whatever the flags. *)
Theorem reply_context_set_body_without_buffer (c : reply_context_s) (w : world)
    (body_ : ptr) (bodySize flags : Z) :
  null_or (heap w) (owned_body c) is_ORaw ->
  body_ = NULL \/ bodySize <= 0 ->
  exists c',
    reply_context_set_body (Some c) body_ bodySize flags w
    = Some (Some c', released [owned_body c] w) /\
    body c' = body_zero /\
    req_ctx c' = req_ctx c /\ warning c' = warning c /\
    header c' = header c /\ extra_headers c' = extra_headers c /\
    (copy (body c) = 0 -> released [owned_body c] w = w).
Proof.
  intros Hb Hn. exists (set_body c body_zero).
  split; [|repeat split].
  - unfold reply_context_set_body.
    erewrite bind_Some; [|by apply REPLYCTX_CLEANBODY_released].
    replace (nonnull body_ && (0 <? bodySize)) with false; [done|].
    symmetry. apply andb_false_iff. destruct Hn as [->|Hn]; [by left|right].
    apply Z.ltb_ge. lia.
  - intros E. unfold owned_body. rewrite E. cbn.
    by rewrite andb_false_r.
Qed.

(** *** The handler registry *)

Lemma register_handlers r reg :
  BEACON_MSGHANDLER (register r reg).2 = pushed (BEACON_MSGHANDLER reg) r.
Proof.
  unfold pushed.
  destruct r as [[n|] [m|] [h|]|[n|] [m|] [h|] tags]; reflexivity.
Qed.

Lemma register_success r reg :
  (register r reg).1.1 = 1 <-> is_Some (entry_of r).
Proof.
  destruct r as [[n|] [m|] [h|]|[n|] [m|] [h|] tags]; cbn;
    split; intros H; try done; try (by eexists); by destruct H.
Qed.

Lemma register_all_handlers rs reg :
  BEACON_MSGHANDLER (register_all rs reg) = foldl pushed (BEACON_MSGHANDLER reg) rs.
Proof.
  revert reg. induction rs as [|r rs IH]; intros reg; [done|].
  cbn [register_all foldl]. fold (register_all rs ((register r reg).2)).
  by rewrite IH, register_handlers.
Qed.

Lemma find_pushed_non_matching req after l :
  (forall r e, r ∈ after -> entry_of r = Some e -> matches req e = false) ->
  List.find (matches req) (foldl pushed l after) = List.find (matches req) l.
Proof.
  revert l. induction after as [|r after IH]; intros l H; [done|].
  cbn [foldl]. rewrite IH.
  - unfold pushed. destruct (entry_of r) as [e|] eqn:E; [|done].
    cbn [List.find]. by rewrite (H r e) by (done || by left).
  - intros r' e' Hin. apply H. by right.
Qed.

(** C3. A call that succeeds puts its entry in front of the list of
    handlers; a dispatch takes the first entry of the list whose matcher
    says yes; so when A and then B are registered and both match a request,
    with no later registration that matches it, the dispatch takes the entry
    of B. *)
Theorem last_registered_matching_handler_wins (reg0 : registry)
    (before mid after : list registration) (a b : registration)
    (ea eb : message_handler_s) (req : MESSAGE) :
  entry_of a = Some ea -> entry_of b = Some eb ->
  matches req ea = true -> matches req eb = true ->
  (forall r e, r ∈ after -> entry_of r = Some e -> matches req e = false) ->
  (forall r reg, (register r reg).1.1 = 1 ->
     exists e, entry_of r = Some e /\
               BEACON_MSGHANDLER (register r reg).2 = e :: BEACON_MSGHANDLER reg) /\
  (forall reg, dispatch reg req = List.find (matches req) (BEACON_MSGHANDLER reg)) /\
  (register a reg0).1.1 = 1 /\
  (forall reg, (register b reg).1.1 = 1) /\
  dispatch (register_all [a; b] reg0) req = Some eb /\
  dispatch (register_all (before ++ a :: mid ++ b :: after) reg0) req = Some eb.
Proof.
  intros Ha Hb Ma Mb Hafter.
  assert (D : forall reg, dispatch reg req
                          = List.find (matches req) (BEACON_MSGHANDLER reg)) by done.
  split; [|split; [exact D|split; [|split; [|split]]]].
  - intros r reg H. apply register_success in H as [e He]. exists e.
    split; [done|]. rewrite register_handlers. unfold pushed. by rewrite He.
  - apply register_success. by rewrite Ha.
  - intros reg. apply register_success. by rewrite Hb.
  - rewrite D, register_all_handlers. cbn [foldl]. unfold pushed at 1.
    rewrite Hb. cbn [List.find]. by rewrite Mb.
  - rewrite D, register_all_handlers.
    rewrite foldl_app. cbn [foldl]. rewrite foldl_app. cbn [foldl].
    rewrite find_pushed_non_matching by done.
    unfold pushed at 1. rewrite Hb. cbn [List.find]. by rewrite Mb.
Qed.

(** C5. A call of [message_handler_add] or [message_handler_add_v2] with a
    NULL name, matcher or handler returns 0, sets the error of [GSETERROR]
    for an invalid parameter, and leaves the two globals, the list of
    handlers and the tags, as they were. *)
Theorem registration_rejects_missing_arguments (reg : registry)
    (name_ : option string) (m : option message_matcher_f)
    (h : option message_handler_f) (h2 : option message_handler_v2_f)
    (tags : option (list service_tag_s)) :
  (name_ = None \/ m = None \/ h = None ->
   message_handler_add name_ m h reg
   = (0, GSETERROR None "Invalid parameter", reg)) /\
  (name_ = None \/ m = None \/ h2 = None ->
   message_handler_add_v2 name_ m h2 tags reg
   = (0, GSETERROR None "Invalid parameters", reg)).
Proof.
  split; intros H.
  - destruct name_ as [n|], m as [f|], h as [g|]; try done.
    by destruct H as [H|[H|H]].
  - destruct name_ as [n|], m as [f|], h2 as [g|]; try done.
    by destruct H as [H|[H|H]].
Qed.

(** [request_context_clear] on a context that [request_context_create]
    has just made. *)
Lemma request_context_clear_created ctx ra la x y r h t :
  ctx ≠ NULL -> ra ≠ NULL -> la ≠ NULL -> ra ≠ ctx -> la ≠ ctx -> la ≠ ra ->
  h !! ra = None -> h !! la = None ->
  r = mkRequestContext None (fd r) (tv_start r) ra la ->
  request_context_clear ctx
    (mkWorld (<[la := OAddr y]> (<[ra := OAddr x]> (<[ctx := OReqCtx r]> h))) t)
  = Some (tt, mkWorld (<[ctx := OReqCtx request_context_zero]> h)
                      (t ++ [EvFree la; EvFree ra])).
Proof.
  intros Hc Hr Hl Hrc Hlc Hlr Hhr Hhl ->.
  unfold request_context_clear. rewrite (nonnull_true ctx) by done. cbn [negb].
  erewrite bind_Some; [|apply load_Some; [done | heap_lookup]].
  cbn [local_addr remote_addr]. rewrite !nonnull_true by done. cbn [when].
  erewrite bind_Some; [|eapply g_free_Some; [done | heap_lookup]].
  erewrite bind_Some; [|eapply g_free_Some; [done | heap_lookup]].
  cbn [heap trace].
  erewrite store_Some; [|done | heap_lookup].
  cbn [heap trace]. do 3 f_equal.
  - heap_ext.
  - by rewrite <- app_assoc.
Qed.

(** C10. [request_context_create] always returns a context, in a block of
    its own, whose two address records are not NULL and are blocks that did
    not exist before the call, distinct from each other and from the context;
    the context holds the socket given and the time read.  The remote record
    holds what the resolver made of a zero-filled record, the local one the
    record given or what the resolver made of a zero-filled record; a resolver
    that fails leaves them zero-filled.  [request_context_clear] on the
    context made releases these two records and nothing else, and leaves the
    structure zeroed. *)
Theorem request_context_create_owns_addresses (fd_ : Z)
    (fd_peer : option addr_info_t) (w : world) :
  exists ctx ra la w1,
    request_context_create fd_ fd_peer w = Some (ctx, w1) /\
    (ctx ≠ NULL /\ ra ≠ NULL /\ la ≠ NULL) /\
    (heap w !! ctx = None /\ heap w !! ra = None /\ heap w !! la = None) /\
    (ra ≠ la /\ ra ≠ ctx /\ la ≠ ctx) /\
    trace w1 = trace w ++ [EvAlloc ctx; EvAlloc ra; EvAlloc la] /\
    heap w1 !! ctx = Some (OReqCtx (mkRequestContext None fd_ gettimeofday ra la)) /\
    heap w1 !! ra = Some (OAddr (resolved_remote fd_)) /\
    heap w1 !! la = Some (OAddr (resolved_local fd_ fd_peer)) /\
    (resolution_fails (getpeername fd_ sockaddr_zero sizeof_sockaddr_storage) ->
     heap w1 !! ra = Some (OAddr addr_info_zero)) /\
    (fd_peer = None ->
     resolution_fails (getsockname fd_ sockaddr_zero sizeof_sockaddr_storage) ->
     heap w1 !! la = Some (OAddr addr_info_zero)) /\
    exists w2,
      request_context_clear ctx w1 = Some (tt, w2) /\
      trace w2 = trace w1 ++ [EvFree la; EvFree ra] /\
      heap w2 = <[ctx := OReqCtx request_context_zero]> (heap w).
Proof.
  pose proof (request_context_create_Some fd_ fd_peer w) as E. cbv zeta in E.
  set (ctx := fresh_ptr (heap w)) in *.
  set (h1 := <[ctx := OReqCtx request_context_zero]> (heap w)) in *.
  set (ra := fresh_ptr h1) in *.
  set (h2 := <[ra := OAddr addr_info_zero]> h1) in *.
  set (la := fresh_ptr h2) in *.
  assert (Hc : ctx ≠ NULL) by apply fresh_ptr_nonnull.
  assert (Hr : ra ≠ NULL) by apply fresh_ptr_nonnull.
  assert (Hl : la ≠ NULL) by apply fresh_ptr_nonnull.
  assert (Hhc : heap w !! ctx = None) by apply fresh_ptr_fresh.
  assert (Hrc : ra ≠ ctx).
  { apply (fresh_ptr_ne h1 _ (OReqCtx request_context_zero)).
    subst h1. apply lookup_insert_eq. }
  assert (Hlr : la ≠ ra).
  { apply (fresh_ptr_ne h2 _ (OAddr addr_info_zero)).
    subst h2. apply lookup_insert_eq. }
  assert (Hlc : la ≠ ctx).
  { apply (fresh_ptr_ne h2 _ (OReqCtx request_context_zero)).
    subst h2 h1. rewrite lookup_insert_ne by done. apply lookup_insert_eq. }
  assert (Hhr : heap w !! ra = None).
  { pose proof (fresh_ptr_fresh h1) as F. fold ra in F. subst h1.
    by rewrite lookup_insert_ne in F. }
  assert (Hhl : heap w !! la = None).
  { pose proof (fresh_ptr_fresh h2) as F. fold la in F. subst h2 h1.
    by rewrite !lookup_insert_ne in F. }
  eexists ctx, ra, la, _. split; [exact E|]. cbn [heap trace].
  repeat split; try done.
  - heap_lookup.
  - heap_lookup.
  - heap_lookup.
  - intros F. rewrite lookup_insert_ne by done. rewrite lookup_insert_eq.
    unfold resolved_remote.
    destruct (getpeername fd_ sockaddr_zero sizeof_sockaddr_storage) as [ss len].
    specialize (F addr_info_zero). cbn in F. by rewrite F.
  - intros -> F. rewrite lookup_insert_eq. unfold resolved_local.
    destruct (getsockname fd_ sockaddr_zero sizeof_sockaddr_storage) as [ss len].
    specialize (F addr_info_zero). cbn in F. by rewrite F.
  - eexists. split; [|split].
    + by apply request_context_clear_created.
    + reflexivity.
    + reflexivity.
Qed.

(** ** Further properties of the reply context *)

Lemma frees_released_one q p w :
  frees q (trace (released [p] w))
  = (frees q (trace w) + (if decide (q = p /\ q ≠ NULL) then 1 else 0))%nat.
Proof.
  destruct (decide (q = p)) as [->|Hne].
  - destruct (decide (p = NULL)) as [->|Hp].
    + rewrite released_NULL. rewrite decide_False by (by intros [_ ?]). lia.
    + rewrite frees_released_one_eq by done. rewrite decide_True by done. lia.
  - rewrite frees_released_one_ne by done.
    rewrite decide_False by (by intros [? _]). lia.
Qed.

Lemma frees_alloc q p t : frees q (t ++ [EvAlloc p]) = frees q t.
Proof. rewrite frees_app. unfold frees at 2. cbn. lia. Qed.

(** A release of a block of one kind leaves the blocks of other kinds. *)
Lemma released_keeps w p P q o :
  null_or (heap w) p P -> heap w !! q = Some o -> ~ P o ->
  heap (released [p] w) !! q = Some o.
Proof.
  intros Hp Hq Hn. destruct (decide (p = NULL)) as [->|Hp0]; [done|].
  rewrite released_one_lookup_ne; [done|]. intros ->.
  destruct (null_or_inv _ _ _ Hp Hp0) as (o' & Ho' & Po').
  rewrite Hq in Ho'. by injection Ho' as <-.
Qed.

Lemma insert_fresh_keeps (h : gmap N obj) q o o' :
  h !! q = Some o -> <[fresh_ptr h := o']> h !! q = Some o.
Proof.
  intros H. rewrite lookup_insert_ne; [done|]. by eapply fresh_ptr_ne.
Qed.

(** What [reply_context_reply] reads depends on the heap only behind the
    pointers of the context. *)
Lemma message_of_agree w w' c c' :
  msg (header c') = msg (header c) ->
  (msg (header c) ≠ NULL -> heap w' !! msg (header c) = heap w !! msg (header c)) ->
  message_of w' c' = message_of w c.
Proof.
  intros E H. unfold message_of. rewrite E.
  destruct (decide (msg (header c) = NULL)) as [->|Hn]; [done|].
  by rewrite nonnull_true, H.
Qed.

Lemma headers_of_agree w w' c c' :
  extra_headers c' = extra_headers c ->
  (extra_headers c ≠ NULL ->
   heap w' !! extra_headers c = heap w !! extra_headers c) ->
  headers_of w' c' = headers_of w c.
Proof.
  intros E H. unfold headers_of. rewrite E.
  destruct (decide (extra_headers c = NULL)) as [->|Hn]; [done|].
  by rewrite nonnull_true, H.
Qed.

Lemma body_of_agree w w' c c' :
  body c' = body c ->
  (buffer (body c) ≠ NULL ->
   heap w' !! buffer (body c) = heap w !! buffer (body c)) ->
  body_of w' c' = body_of w c.
Proof.
  intros E H. unfold body_of. rewrite E.
  destruct (decide (buffer (body c) = NULL)) as [->|Hn]; [done|].
  by rewrite nonnull_true, H.
Qed.

Lemma null_or_lookup (h : gmap N obj) p P o :
  null_or h p P -> p ≠ NULL -> h !! p = Some o -> P o.
Proof.
  intros H Hp Ho. destruct (null_or_inv _ _ _ H Hp) as (o' & Ho' & Po').
  rewrite Ho in Ho'. by injection Ho' as <-.
Qed.

Lemma null_or_agree (h h' : gmap N obj) p P :
  null_or h p P -> (p ≠ NULL -> h' !! p = h !! p) -> null_or h' p P.
Proof.
  intros [->|(o & Ho & Po)] H; [by left|].
  destruct (decide (p = NULL)) as [->|Hp]; [by left|].
  right. exists o. by rewrite H.
Qed.

(** [reply_context_set_message] with a message: the heap after the call. *)
Lemma reply_context_set_message_Some c w code_ s :
  null_or (heap w) (msg (header c)) is_OStr ->
  let w1 := released [msg (header c)] w in
  let p := fresh_ptr (heap w1) in
  reply_context_set_message (Some c) code_ (Some s) w
  = Some (Some (mkReplyContext (req_ctx c) (warning c) (mkHeader code_ p)
                               (body c) (extra_headers c)),
          mkWorld (<[p := OStr s]> (heap w1)) (trace w1 ++ [EvAlloc p])).
Proof.
  intros Hm w1 p. unfold reply_context_set_message.
  erewrite bind_Some; [|by apply REPLYCTX_CLEANHEADER_released].
  fold w1. reflexivity.
Qed.

(** X1. [reply_context_set_message] with a message releases the message the
    context had, once, and nothing else, and stores the code and a copy of
    the new message in a block of its own; the request context, the warning,
    the body and the extra headers of the context, and every other block of
    the heap, stay as they were. *)
Theorem reply_context_set_message_replaces (c : reply_context_s) (w : world)
    (code_ : Z) (s : string) :
  null_or (heap w) (msg (header c)) is_OStr ->
  exists p w',
    reply_context_set_message (Some c) code_ (Some s) w
    = Some (Some (mkReplyContext (req_ctx c) (warning c) (mkHeader code_ p)
                                 (body c) (extra_headers c)), w') /\
    p ≠ NULL /\
    heap w' !! p = Some (OStr s) /\
    message_of w' (mkReplyContext (req_ctx c) (warning c) (mkHeader code_ p)
                                  (body c) (extra_headers c)) = s /\
    (forall q, frees q (trace w')
               = (frees q (trace w)
                  + (if decide (q = msg (header c) /\ q ≠ NULL) then 1 else 0))%nat) /\
    (forall q, q ≠ p -> q ≠ msg (header c) -> heap w' !! q = heap w !! q) /\
    (msg (header c) ≠ NULL -> msg (header c) ≠ p ->
     heap w' !! msg (header c) = None).
Proof.
  intros Hm. pose proof (reply_context_set_message_Some c w code_ s Hm) as E.
  cbv zeta in E. set (w1 := released [msg (header c)] w) in *.
  set (p := fresh_ptr (heap w1)) in *.
  assert (Hp : p ≠ NULL) by apply fresh_ptr_nonnull.
  exists p. eexists. split; [exact E|]. cbn [heap trace].
  split; [done|]. split; [apply lookup_insert_eq|]. split; [|split; [|split]].
  - unfold message_of. cbn [header msg heap].
    by rewrite nonnull_true, lookup_insert_eq.
  - intros q. rewrite frees_alloc. apply frees_released_one.
  - intros q Hq1 Hq2. rewrite lookup_insert_ne by done.
    by apply released_one_lookup_ne.
  - intros Hn Hne. rewrite lookup_insert_ne by done.
    by apply released_one_lookup_eq.
Qed.

Lemma reply_context_readable_alloc h c rc o :
  reply_context_readable h c rc ->
  reply_context_readable (<[fresh_ptr h := o]> h) c rc.
Proof.
  intros [Hn Hl Hm He Hb]. split.
  - done.
  - by apply insert_fresh_keeps.
  - destruct Hm as [Hm|(x & Hx & Px)]; [by left|].
    right. exists x. split; [by apply insert_fresh_keeps|done].
  - destruct He as [He|(x & Hx & Px)]; [by left|].
    right. exists x. split; [by apply insert_fresh_keeps|done].
  - destruct Hb as [Hb|[Hb|(b & Hb & Hs)]]; [by left|by right; left|].
    right; right. exists b. split; [by apply insert_fresh_keeps|done].
Qed.

(** X2. After [reply_context_set_message] with a code and a message,
    [reply_context_reply] builds its answer from that code and that message,
    the empty string included, with the extra headers and the body the
    context had before. *)
Theorem reply_context_set_message_then_answer (c : reply_context_s) (w : world)
    (rc : request_context_s) (code_ : Z) (s : string) :
  reply_context_readable (heap w) c rc ->
  exists c' w',
    reply_context_set_message (Some c) code_ (Some s) w = Some (Some c', w') /\
    reply_context_readable (heap w') c' rc /\
    reply_context_answer c' w'
    = Some (let answer := metaXServer_reply_simple (request rc) code_ s in
            let answer :=
              g_hash_table_foreach (headers_of w c) reply_ctx_header_adder answer in
            match body_of w c with
            | Some b => metautils_message_set_BODY answer b
            | None => answer
            end, w').
Proof.
  intros Hr. pose proof Hr as [Hn Hl Hm He Hb].
  pose proof (reply_context_set_message_Some c w code_ s Hm) as E.
  cbv zeta in E. set (w1 := released [msg (header c)] w) in *.
  set (p := fresh_ptr (heap w1)) in *.
  set (c' := mkReplyContext (req_ctx c) (warning c) (mkHeader code_ p)
                            (body c) (extra_headers c)) in *.
  set (w' := mkWorld (<[p := OStr s]> (heap w1)) (trace w1 ++ [EvAlloc p])) in *.
  assert (Hp : p ≠ NULL) by apply fresh_ptr_nonnull.
  pose proof (reply_context_readable_released_msg c w rc Hr) as Hr1. fold w1 in Hr1.
  pose proof (reply_context_readable_alloc _ _ _ (OStr s) Hr1) as Hr2. fold p in Hr2.
  assert (Hr' : reply_context_readable (heap w') c' rc).
  { destruct Hr2 as [Hn2 Hl2 _ He2 Hb2]. split; try done.
    right. exists (OStr s). split; [apply lookup_insert_eq|done]. }
  exists c', w'. split; [exact E|]. split; [exact Hr'|].
  rewrite (reply_context_answer_Some c' w' rc Hr'). unfold answer_of.
  assert (M : message_of w' c' = s).
  { unfold message_of. cbn [c' w' header msg heap].
    by rewrite nonnull_true, lookup_insert_eq. }
  assert (H1 : headers_of w' c' = headers_of w c).
  { apply headers_of_agree; [done|]. intros Hx.
    destruct (null_or_inv _ _ _ He Hx) as (o & Ho & Po).
    assert (K : heap w1 !! extra_headers c = Some o).
    { apply (released_keeps w _ is_OStr); [done|done|].
      intros Hs. exact (kinds_OHash_OStr o Po Hs). }
    cbn [w' heap]. by rewrite (insert_fresh_keeps _ _ _ _ K), Ho. }
  assert (H2 : body_of w' c' = body_of w c).
  { unfold body_of. cbn [c' body].
    destruct (nonnull (buffer (body c)) && (0 <? size (body c))) eqn:Eb; [|done].
    apply andb_true_iff in Eb as [Eb1 Eb2].
    apply nonnull_spec in Eb1. apply Z.ltb_lt in Eb2.
    destruct Hb as [Hb|[Hb|(b & Hb & Hs)]]; [done|lia|].
    assert (K : heap w1 !! buffer (body c) = Some (ORaw b)).
    { apply (released_keeps w _ is_OStr); [done|done|by intros []]. }
    cbn [w' heap]. by rewrite (insert_fresh_keeps _ _ _ _ K), Hb. }
  cbn [c' header code] in *. by rewrite M, H1, H2.
Qed.

(** *** [reply_context_set_body] with a buffer *)

Lemma g_memdup_Some p n b w :
  p ≠ NULL -> heap w !! p = Some (ORaw b) ->
  0 < to_guint n <= Z.of_nat (length b) ->
  g_memdup p n w
  = Some (fresh_ptr (heap w),
          mkWorld (<[fresh_ptr (heap w) := ORaw (take (Z.to_nat (to_guint n)) b)]> (heap w))
                  (trace w ++ [EvAlloc (fresh_ptr (heap w))])).
Proof.
  intros Hp Hl Hn. unfold g_memdup. cbv zeta.
  rewrite nonnull_true by done.
  replace (to_guint n =? 0) with false by (symmetry; apply Z.eqb_neq; lia).
  cbn [andb negb].
  erewrite bind_Some; [reflexivity|].
  apply read_raw_Some; [done|done|lia].
Qed.

Lemma g_memdup_nothing p n w : to_guint n = 0 -> g_memdup p n w = Some (NULL, w).
Proof.
  intros H. unfold g_memdup. cbv zeta. rewrite H. cbn [Z.eqb negb].
  by rewrite andb_false_r.
Qed.

(** With the copy flag the block made holds the first [(guint) bodySize]
    bytes, whatever [bodySize] is recorded as the size. *)
Lemma reply_context_set_body_copy_Some c w body_ n flags b :
  null_or (heap w) (owned_body c) is_ORaw ->
  body_ ≠ NULL -> 0 < n -> 0 < to_guint n <= Z.of_nat (length b) ->
  heap w !! body_ = Some (ORaw b) -> body_ ≠ owned_body c ->
  Z.land flags REPLYCTX_COPY ≠ 0 ->
  let w1 := released [owned_body c] w in
  let p := fresh_ptr (heap w1) in
  reply_context_set_body (Some c) body_ n flags w
  = Some (Some (set_body c
                  (mkBody p n (Z.lor (Z.land flags REPLYCTX_DESTROY_ON_CLEAN)
                                     (Z.land flags REPLYCTX_COPY)))),
          mkWorld (<[p := ORaw (take (Z.to_nat (to_guint n)) b)]> (heap w1))
                  (trace w1 ++ [EvAlloc p])).
Proof.
  intros Hb Hn H0 Hs Hl Hne Hc w1 p. unfold reply_context_set_body.
  erewrite bind_Some; [|by apply REPLYCTX_CLEANBODY_released]. fold w1.
  rewrite nonnull_true by done.
  replace (0 <? n) with true by (symmetry; apply Z.ltb_lt; lia).
  cbn [andb].
  replace (Z.land flags REPLYCTX_COPY =? 0) with false
    by (symmetry; by apply Z.eqb_neq).
  cbn [negb].
  erewrite bind_Some; [reflexivity|].
  apply g_memdup_Some; [done| |done].
  subst w1. by rewrite released_one_lookup_ne.
Qed.

(** With the copy flag and a size that [guint] turns into zero, nothing is
    copied: the buffer recorded is NULL, under the size given. *)
Lemma reply_context_set_body_copy_nothing c w body_ n flags :
  null_or (heap w) (owned_body c) is_ORaw ->
  body_ ≠ NULL -> 0 < n -> to_guint n = 0 ->
  Z.land flags REPLYCTX_COPY ≠ 0 ->
  reply_context_set_body (Some c) body_ n flags w
  = Some (Some (set_body c
                  (mkBody NULL n (Z.lor (Z.land flags REPLYCTX_DESTROY_ON_CLEAN)
                                        (Z.land flags REPLYCTX_COPY)))),
          released [owned_body c] w).
Proof.
  intros Hb Hn H0 Hz Hc. unfold reply_context_set_body.
  erewrite bind_Some; [|by apply REPLYCTX_CLEANBODY_released].
  rewrite nonnull_true by done.
  replace (0 <? n) with true by (symmetry; apply Z.ltb_lt; lia).
  cbn [andb].
  replace (Z.land flags REPLYCTX_COPY =? 0) with false
    by (symmetry; by apply Z.eqb_neq).
  cbn [negb].
  erewrite bind_Some; [reflexivity|]. by apply g_memdup_nothing.
Qed.

Lemma reply_context_set_body_borrow_Some c w body_ n flags :
  null_or (heap w) (owned_body c) is_ORaw ->
  body_ ≠ NULL -> 0 < n ->
  Z.land flags REPLYCTX_COPY = 0 ->
  reply_context_set_body (Some c) body_ n flags w
  = Some (Some (set_body c
                  (mkBody body_ n (Z.lor (Z.land flags REPLYCTX_DESTROY_ON_CLEAN)
                                         (Z.land flags REPLYCTX_COPY)))),
          released [owned_body c] w).
Proof.
  intros Hb Hn Hs Hc. unfold reply_context_set_body.
  erewrite bind_Some; [|by apply REPLYCTX_CLEANBODY_released].
  rewrite nonnull_true by done.
  replace (0 <? n) with true by (symmetry; apply Z.ltb_lt; lia).
  cbn [andb]. rewrite Hc. cbn [Z.eqb negb].
  erewrite bind_Some; reflexivity.
Qed.

Lemma owned_body_set c p n cp :
  p ≠ NULL ->
  owned_body (set_body c (mkBody p n cp)) = if cp =? 0 then NULL else p.
Proof.
  intros Hp. unfold owned_body. cbn [set_body body buffer copy].
  rewrite nonnull_true by done. by destruct (cp =? 0).
Qed.

(** X3. [reply_context_set_body] with the copy flag and a size below 2^32,
    which [g_memdup] takes as it is, stores a copy of the first [bodySize]
    bytes in a block of its own, which the context owns; it releases the body
    the context owned before, once, and nothing else; the buffer of the
    caller stays live with its bytes, and a later [reply_context_clear]
    releases the copy and not the buffer of the caller. *)
Theorem reply_context_set_body_copy (c : reply_context_s) (w : world)
    (body_ : ptr) (n flags : Z) (b : list Byte.byte) :
  null_or (heap w) (owned_body c) is_ORaw ->
  null_or (heap w) (msg (header c)) is_OStr ->
  body_ ≠ NULL -> 0 < n <= Z.of_nat (length b) -> n < 2 ^ 32 ->
  heap w !! body_ = Some (ORaw b) -> body_ ≠ owned_body c ->
  Z.land flags REPLYCTX_COPY ≠ 0 ->
  exists p c' w',
    reply_context_set_body (Some c) body_ n flags w = Some (Some c', w') /\
    buffer (body c') = p /\ size (body c') = n /\ owned_body c' = p /\
    p ≠ NULL /\ p ≠ body_ /\
    heap w' !! p = Some (ORaw (take (Z.to_nat n) b)) /\
    heap w' !! body_ = Some (ORaw b) /\
    (forall q, frees q (trace w')
               = (frees q (trace w)
                  + (if decide (q = owned_body c /\ q ≠ NULL) then 1 else 0))%nat) /\
    exists c'' w'',
      reply_context_clear (Some c') false w' = Some (Some c'', w'') /\
      heap w'' !! p = None /\
      frees p (trace w'') = S (frees p (trace w')) /\
      heap w'' !! body_ = Some (ORaw b) /\
      frees body_ (trace w'') = frees body_ (trace w').
Proof.
  intros Hb Hm Hn Hs Hg Hl Hne Hc.
  assert (Eg : to_guint n = n) by (apply to_guint_small; lia).
  pose proof (reply_context_set_body_copy_Some c w body_ n flags b) as E.
  rewrite Eg in E. specialize (E Hb Hn (proj1 Hs) Hs Hl Hne Hc).
  cbv zeta in E. set (w1 := released [owned_body c] w) in *.
  set (p := fresh_ptr (heap w1)) in *.
  set (cp := Z.lor (Z.land flags REPLYCTX_DESTROY_ON_CLEAN)
                   (Z.land flags REPLYCTX_COPY)) in *.
  set (c' := set_body c (mkBody p n cp)) in *.
  set (w' := mkWorld (<[p := ORaw (take (Z.to_nat n) b)]> (heap w1))
                     (trace w1 ++ [EvAlloc p])) in *.
  assert (Hp : p ≠ NULL) by apply fresh_ptr_nonnull.
  assert (Hl1 : heap w1 !! body_ = Some (ORaw b)).
  { subst w1. by rewrite released_one_lookup_ne. }
  assert (Hpb : p ≠ body_) by (by apply (fresh_ptr_ne _ _ _ Hl1)).
  assert (Hcp : cp ≠ 0).
  { subst cp. intros H0. apply Z.lor_eq_0_iff in H0 as [_ H0]. done. }
  assert (Ho : owned_body c' = p).
  { subst c'. rewrite owned_body_set by done.
    by rewrite (proj2 (Z.eqb_neq cp 0) Hcp). }
  assert (Hm' : null_or (heap w') (msg (header c')) is_OStr).
  { cbn [c' set_body header].
    destruct Hm as [Hm|(o & Hx & Po)]; [by left|].
    right. exists o. split; [|done]. cbn [w' heap].
    apply insert_fresh_keeps.
    apply (released_keeps w _ is_ORaw); [done|done|].
    intros Hr. exact (kinds_OStr_ORaw o Po Hr). }
  assert (Hb' : null_or (heap w') (owned_body c') is_ORaw).
  { rewrite Ho. right. eexists. split; [apply lookup_insert_eq|done]. }
  exists p, c', w'. split; [exact E|].
  split; [done|]. split; [done|]. split; [exact Ho|].
  split; [done|]. split; [done|].
  split; [apply lookup_insert_eq|].
  split; [cbn [w' heap]; by rewrite lookup_insert_ne|].
  split.
  { intros q. cbn [w' trace]. rewrite frees_alloc. apply frees_released_one. }
  eexists _, _. split; [by apply reply_context_clear_partial|].
  rewrite Ho.
  assert (Dmp : p ≠ msg (header c')).
  { intros Eq. destruct (null_or_inv _ _ _ Hm') as (o & Hx & Po).
    - by rewrite <- Eq.
    - rewrite <- Eq in Hx. cbn [w' heap] in Hx.
      rewrite lookup_insert_eq in Hx. by injection Hx as <-. }
  assert (Dmb : body_ ≠ msg (header c')).
  { intros Eq. destruct (null_or_inv _ _ _ Hm') as (o & Hx & Po).
    - by rewrite <- Eq.
    - rewrite <- Eq in Hx. cbn [w' heap] in Hx.
      rewrite lookup_insert_ne, Hl1 in Hx by done. by injection Hx as <-. }
  rewrite released_cons.
  split; [by apply released_one_lookup_eq|].
  split.
  { rewrite frees_released_one_eq by done.
    by rewrite frees_released_one_ne. }
  split.
  { rewrite !released_one_lookup_ne by done.
    cbn [w' heap]. by rewrite lookup_insert_ne. }
  by rewrite !frees_released_one_ne.
Qed.

(** X4. [reply_context_set_body] without the copy flag stores the pointer
    it is given and allocates nothing; it releases the body the context owned
    before, once, and nothing else.  The context owns the buffer exactly when
    the destroy-on-clean flag is given: a later [reply_context_clear] then
    releases it once, and otherwise leaves it live and unreleased. *)
Theorem reply_context_set_body_borrow (c : reply_context_s) (w : world)
    (body_ : ptr) (n flags : Z) (b : list Byte.byte) :
  null_or (heap w) (owned_body c) is_ORaw ->
  null_or (heap w) (msg (header c)) is_OStr ->
  body_ ≠ NULL -> 0 < n ->
  heap w !! body_ = Some (ORaw b) -> body_ ≠ owned_body c ->
  Z.land flags REPLYCTX_COPY = 0 ->
  exists c',
    let w' := released [owned_body c] w in
    reply_context_set_body (Some c) body_ n flags w = Some (Some c', w') /\
    buffer (body c') = body_ /\ size (body c') = n /\
    owned_body c'
    = (if Z.land flags REPLYCTX_DESTROY_ON_CLEAN =? 0 then NULL else body_) /\
    heap w' !! body_ = Some (ORaw b) /\
    exists c'' w'',
      reply_context_clear (Some c') false w' = Some (Some c'', w'') /\
      (Z.land flags REPLYCTX_DESTROY_ON_CLEAN = 0 ->
       heap w'' !! body_ = Some (ORaw b) /\
       frees body_ (trace w'') = frees body_ (trace w')) /\
      (Z.land flags REPLYCTX_DESTROY_ON_CLEAN ≠ 0 ->
       heap w'' !! body_ = None /\
       frees body_ (trace w'') = S (frees body_ (trace w'))).
Proof.
  intros Hb Hm Hn Hs Hl Hne Hc.
  pose proof (reply_context_set_body_borrow_Some c w body_ n flags
                Hb Hn Hs Hc) as E.
  set (w1 := released [owned_body c] w) in *.
  set (cp := Z.lor (Z.land flags REPLYCTX_DESTROY_ON_CLEAN)
                   (Z.land flags REPLYCTX_COPY)) in *.
  set (c' := set_body c (mkBody body_ n cp)) in *.
  assert (Hcp : cp = Z.land flags REPLYCTX_DESTROY_ON_CLEAN).
  { subst cp. rewrite Hc. apply Z.lor_0_r. }
  assert (Hl1 : heap w1 !! body_ = Some (ORaw b)).
  { subst w1. by rewrite released_one_lookup_ne. }
  assert (Ho : owned_body c'
               = if Z.land flags REPLYCTX_DESTROY_ON_CLEAN =? 0 then NULL else body_).
  { subst c'. rewrite owned_body_set by done. by rewrite Hcp. }
  assert (Hm' : null_or (heap w1) (msg (header c')) is_OStr).
  { cbn [c' set_body header].
    destruct Hm as [Hm|(o & Hx & Po)]; [by left|].
    right. exists o. split; [|done].
    apply (released_keeps w _ is_ORaw); [done|done|].
    intros Hr. exact (kinds_OStr_ORaw o Po Hr). }
  assert (Hb' : null_or (heap w1) (owned_body c') is_ORaw).
  { rewrite Ho. destruct (Z.land flags REPLYCTX_DESTROY_ON_CLEAN =? 0); [by left|].
    right. eexists. split; [exact Hl1|done]. }
  assert (Dmb : body_ ≠ msg (header c')).
  { intros Eq. destruct (null_or_inv _ _ _ Hm') as (o & Hx & Po).
    - by rewrite <- Eq.
    - rewrite <- Eq, Hl1 in Hx. by injection Hx as <-. }
  exists c'. cbv zeta. split; [exact E|].
  split; [done|]. split; [done|]. split; [exact Ho|]. split; [exact Hl1|].
  eexists _, _. split; [by apply reply_context_clear_partial|].
  rewrite Ho, released_cons. split.
  - intros H0. rewrite H0. cbn [Z.eqb]. rewrite released_NULL.
    rewrite released_one_lookup_ne by done.
    by rewrite frees_released_one_ne.
  - intros H0. rewrite (proj2 (Z.eqb_neq _ 0) H0).
    split; [by apply released_one_lookup_eq|].
    rewrite frees_released_one_eq by done.
    by rewrite frees_released_one_ne.
Qed.

(** *** What is sent after a change of the context *)

Lemma released_lookup_other ps q w :
  Forall (fun p => p = NULL \/ p ≠ q) ps ->
  heap (released ps w) !! q = heap w !! q.
Proof.
  revert w. induction ps as [|p ps IH]; intros w H; [done|].
  apply Forall_cons in H as [Hp Hps].
  rewrite released_cons, IH by done.
  destruct Hp as [->|Hp]; [done|]. by apply released_one_lookup_ne.
Qed.

Lemma kind_apart (h : gmap N obj) p P q o :
  null_or h p P -> h !! q = Some o -> ~ P o -> p = NULL \/ p ≠ q.
Proof.
  intros Hp Hq Hn. destruct (decide (p = NULL)) as [->|Hp0]; [by left|].
  right. intros ->. apply Hn. by eapply null_or_lookup.
Qed.

(** The answer built for a context that differs from a readable one in its
    body only, in a heap that agrees behind the other pointers. *)
Lemma reply_context_answer_new_body c w rc c' w' bb :
  reply_context_readable (heap w) c rc ->
  req_ctx c' = req_ctx c -> header c' = header c ->
  extra_headers c' = extra_headers c ->
  heap w' !! req_ctx c = Some (OReqCtx rc) ->
  (msg (header c) ≠ NULL ->
   heap w' !! msg (header c) = heap w !! msg (header c)) ->
  (extra_headers c ≠ NULL ->
   heap w' !! extra_headers c = heap w !! extra_headers c) ->
  buffer (body c') ≠ NULL -> 0 < size (body c') <= Z.of_nat (length bb) ->
  heap w' !! buffer (body c') = Some (ORaw bb) ->
  reply_context_readable (heap w') c' rc /\
  reply_context_answer c' w'
  = Some (metautils_message_set_BODY
            (g_hash_table_foreach (headers_of w c) reply_ctx_header_adder
               (metaXServer_reply_simple (request rc) (code (header c))
                  (message_of w c)))
            (take (Z.to_nat (size (body c'))) bb), w').
Proof.
  intros [Hn Hl Hm He Hb] E1 E2 E3 Hreq Hmsg Heh Hbn Hbs Hbl.
  assert (Hr' : reply_context_readable (heap w') c' rc).
  { split.
    - by rewrite E1.
    - by rewrite E1.
    - rewrite E2. by eapply null_or_agree.
    - rewrite E3. by eapply null_or_agree.
    - right; right. exists bb. split; [done|lia]. }
  split; [exact Hr'|].
  rewrite (reply_context_answer_Some c' w' rc Hr'). unfold answer_of.
  rewrite (message_of_agree w w' c c') by (by rewrite ?E2).
  rewrite (headers_of_agree w w' c c') by done.
  unfold body_of. rewrite nonnull_true by done.
  replace (0 <? size (body c')) with true by (symmetry; apply Z.ltb_lt; lia).
  cbn [andb]. by rewrite Hbl, E2.
Qed.

(** The same for a context whose body is zeroed. *)
Lemma reply_context_answer_no_body c w rc c' w' :
  reply_context_readable (heap w) c rc ->
  req_ctx c' = req_ctx c -> body c' = body_zero ->
  heap w' !! req_ctx c = Some (OReqCtx rc) ->
  null_or (heap w') (msg (header c')) is_OStr ->
  null_or (heap w') (extra_headers c') is_OHash ->
  reply_context_readable (heap w') c' rc /\
  reply_context_answer c' w'
  = Some (g_hash_table_foreach (headers_of w' c') reply_ctx_header_adder
            (metaXServer_reply_simple (request rc) (code (header c'))
               (message_of w' c')), w').
Proof.
  intros [Hn Hl Hm He Hb] E1 E2 Hreq Hmsg Heh.
  assert (Hr' : reply_context_readable (heap w') c' rc).
  { split; try done.
    - by rewrite E1.
    - by rewrite E1.
    - left. by rewrite E2. }
  split; [exact Hr'|].
  rewrite (reply_context_answer_Some c' w' rc Hr'). unfold answer_of.
  unfold body_of. by rewrite E2.
Qed.

(** X5. After [reply_context_set_body] with a buffer and a size, without
    the copy flag, or with it and a size below 2^32, [reply_context_reply]
    builds its answer with the first [bodySize] bytes of that buffer as the
    body, on the code, the message and the extra headers the context had. *)
Theorem reply_context_set_body_then_answer (c : reply_context_s) (w : world)
    (rc : request_context_s) (body_ : ptr) (n flags : Z) (b : list Byte.byte) :
  reply_context_readable (heap w) c rc ->
  null_or (heap w) (owned_body c) is_ORaw ->
  body_ ≠ NULL -> 0 < n <= Z.of_nat (length b) ->
  heap w !! body_ = Some (ORaw b) -> body_ ≠ owned_body c ->
  (Z.land flags REPLYCTX_COPY ≠ 0 -> n < 2 ^ 32) ->
  exists c' w',
    reply_context_set_body (Some c) body_ n flags w = Some (Some c', w') /\
    reply_context_readable (heap w') c' rc /\
    reply_context_answer c' w'
    = Some (metautils_message_set_BODY
              (g_hash_table_foreach (headers_of w c) reply_ctx_header_adder
                 (metaXServer_reply_simple (request rc) (code (header c))
                    (message_of w c)))
              (take (Z.to_nat n) b), w').
Proof.
  intros Hr Hb Hn Hs Hl Hne Hg. pose proof Hr as [Hrn Hrl Hrm Hre _].
  set (w1 := released [owned_body c] w).
  assert (K : forall q o, heap w !! q = Some o -> ~ is_ORaw o ->
                          heap w1 !! q = Some o).
  { intros q o Hq Ho. by apply (released_keeps w _ is_ORaw). }
  assert (Kreq : heap w1 !! req_ctx c = Some (OReqCtx rc)).
  { apply K; [done|]. by intros []. }
  assert (Kmsg : msg (header c) ≠ NULL ->
                 heap w1 !! msg (header c) = heap w !! msg (header c)).
  { intros Hx. destruct (null_or_inv _ _ _ Hrm Hx) as (o & Ho & Po).
    rewrite Ho. apply K; [done|]. intros Hq. exact (kinds_OStr_ORaw o Po Hq). }
  assert (Keh : extra_headers c ≠ NULL ->
                heap w1 !! extra_headers c = heap w !! extra_headers c).
  { intros Hx. destruct (null_or_inv _ _ _ Hre Hx) as (o & Ho & Po).
    rewrite Ho. apply K; [done|]. intros Hq. exact (kinds_OHash_ORaw o Po Hq). }
  assert (Kb : heap w1 !! body_ = Some (ORaw b)).
  { subst w1. by rewrite released_one_lookup_ne. }
  destruct (decide (Z.land flags REPLYCTX_COPY = 0)) as [Hc|Hc].
  - eexists _, _. split.
    { by apply reply_context_set_body_borrow_Some; [| |lia|]. }
    fold w1. apply (reply_context_answer_new_body c w rc); try done.
  - assert (Eg : to_guint n = n) by (apply to_guint_small; specialize (Hg Hc); lia).
    pose proof (reply_context_set_body_copy_Some c w body_ n flags b) as E.
    rewrite Eg in E. specialize (E Hb Hn (proj1 Hs) Hs Hl Hne Hc).
    cbv zeta in E. fold w1 in E. set (p := fresh_ptr (heap w1)) in *.
    assert (Hp : p ≠ NULL) by apply fresh_ptr_nonnull.
    set (c' := set_body c
                 (mkBody p n (Z.lor (Z.land flags REPLYCTX_DESTROY_ON_CLEAN)
                                    (Z.land flags REPLYCTX_COPY)))) in *.
    set (w' := mkWorld (<[p := ORaw (take (Z.to_nat n) b)]> (heap w1))
                       (trace w1 ++ [EvAlloc p])) in *.
    exists c', w'. split; [exact E|].
    destruct (reply_context_answer_new_body c w rc c' w' (take (Z.to_nat n) b))
      as [R A]; try done.
    + cbn [w' heap]. by apply insert_fresh_keeps.
    + intros Hx. destruct (null_or_inv _ _ _ Hrm Hx) as (o & Ho & Po).
      rewrite Ho. cbn [w' heap]. apply insert_fresh_keeps. by rewrite (Kmsg Hx).
    + intros Hx. destruct (null_or_inv _ _ _ Hre Hx) as (o & Ho & Po).
      rewrite Ho. cbn [w' heap]. apply insert_fresh_keeps. by rewrite (Keh Hx).
    + cbn [c' set_body body size]. rewrite length_take. lia.
    + cbn [c' w' set_body body buffer heap]. apply lookup_insert_eq.
    + split; [exact R|]. rewrite A. cbn [c' set_body body size].
      by rewrite take_take, Nat.min_id.
Qed.

(** *** A copied body of 4 GiB or more *)

Lemma bind_None {A B} (m : M A) (k : A -> M B) w :
  m w = None -> (x ← m; k x) w = None.
Proof. intros E. unfold mbind, M_bind, bind. by rewrite E. Qed.

Lemma read_raw_None p n b w :
  p ≠ NULL -> heap w !! p = Some (ORaw b) -> Z.of_nat (length b) < n ->
  read_raw p n w = None.
Proof.
  intros Hp H Hn. unfold read_raw.
  erewrite bind_Some; [|by apply load_Some].
  cbv beta iota. by rewrite (proj2 (Z.leb_gt _ _) Hn).
Qed.

(** A body recorded with a size beyond its block: building the answer reads
    past the block. *)
Lemma reply_context_answer_overread c w rc bb :
  req_ctx c ≠ NULL -> heap w !! req_ctx c = Some (OReqCtx rc) ->
  null_or (heap w) (msg (header c)) is_OStr ->
  null_or (heap w) (extra_headers c) is_OHash ->
  buffer (body c) ≠ NULL -> heap w !! buffer (body c) = Some (ORaw bb) ->
  0 < size (body c) -> Z.of_nat (length bb) < size (body c) ->
  reply_context_answer c w = None.
Proof.
  intros Hn Hl Hm He Hbn Hbl H0 Hs. unfold reply_context_answer.
  erewrite bind_Some; [|by apply load_Some]. cbv beta iota.
  erewrite bind_Some with (a := message_of w c) (w' := w).
  2:{ unfold message_of. destruct (decide (msg (header c) = NULL)) as [E|E].
      - by rewrite E.
      - destruct (null_or_inv _ _ _ Hm E) as (o & Ho & Po).
        rewrite nonnull_true by done.
        erewrite bind_Some; [|by apply load_Some].
        rewrite Ho. by destruct o. }
  erewrite bind_Some with
    (a := g_hash_table_foreach (headers_of w c) reply_ctx_header_adder
            (metaXServer_reply_simple (request rc) (code (header c)) (message_of w c)))
    (w' := w).
  2:{ unfold headers_of. destruct (decide (extra_headers c = NULL)) as [E|E].
      - rewrite E. cbn [nonnull N.eqb NULL negb].
        by rewrite g_hash_table_foreach_empty.
      - destruct (null_or_inv _ _ _ He E) as (o & Ho & Po).
        rewrite nonnull_true by done.
        erewrite bind_Some; [|by apply load_Some].
        rewrite Ho. by destruct o. }
  rewrite nonnull_true by done.
  replace (0 <? size (body c)) with true by (symmetry; by apply Z.ltb_lt).
  cbn [andb]. apply bind_None. by eapply read_raw_None.
Qed.

(** X18. [reply_context_set_body] with the copy flag and a size of 2^32 or
    more records the size it is given, while [g_memdup] takes it as a
    [guint].  When that is zero nothing is allocated, the buffer recorded is
    NULL, and the answer of [reply_context_reply] has no body.  Otherwise the
    block made holds the first [(guint) bodySize] bytes only, fewer than the
    size recorded, and [reply_context_reply] reads past its end: the call has
    no defined result. *)
Theorem reply_context_set_body_copy_truncated (c : reply_context_s) (w : world)
    (rc : request_context_s) (body_ : ptr) (n flags : Z) (b : list Byte.byte) :
  reply_context_readable (heap w) c rc ->
  null_or (heap w) (owned_body c) is_ORaw ->
  body_ ≠ NULL -> 2 ^ 32 <= n -> to_guint n <= Z.of_nat (length b) ->
  heap w !! body_ = Some (ORaw b) -> body_ ≠ owned_body c ->
  Z.land flags REPLYCTX_COPY ≠ 0 ->
  exists c' w',
    reply_context_set_body (Some c) body_ n flags w = Some (Some c', w') /\
    size (body c') = n /\
    (to_guint n = 0 ->
     buffer (body c') = NULL /\ w' = released [owned_body c] w /\
     reply_context_answer c' w'
     = Some (g_hash_table_foreach (headers_of w c) reply_ctx_header_adder
               (metaXServer_reply_simple (request rc) (code (header c))
                  (message_of w c)), w')) /\
    (to_guint n ≠ 0 ->
     buffer (body c') ≠ NULL /\
     heap w' !! buffer (body c') = Some (ORaw (take (Z.to_nat (to_guint n)) b)) /\
     Z.of_nat (length (take (Z.to_nat (to_guint n)) b)) < size (body c') /\
     reply_context_answer c' w' = None /\
     reply_context_reply c' w' = None).
Proof.
  intros Hr Hb Hn Hs Hlen Hl Hne Hc. pose proof Hr as [Hrn Hrl Hrm Hre _].
  pose proof (to_guint_range n) as Hg.
  set (w1 := released [owned_body c] w).
  set (cp := Z.lor (Z.land flags REPLYCTX_DESTROY_ON_CLEAN)
                   (Z.land flags REPLYCTX_COPY)).
  assert (K : forall q o, heap w !! q = Some o -> ~ is_ORaw o ->
                          heap w1 !! q = Some o).
  { intros q o Hq Ho. by apply (released_keeps w _ is_ORaw). }
  assert (Kreq : heap w1 !! req_ctx c = Some (OReqCtx rc)).
  { apply K; [done|]. by intros []. }
  assert (Kmsg : msg (header c) ≠ NULL ->
                 heap w1 !! msg (header c) = heap w !! msg (header c)).
  { intros Hx. destruct (null_or_inv _ _ _ Hrm Hx) as (o & Ho & Po).
    rewrite Ho. apply K; [done|]. intros Hq. exact (kinds_OStr_ORaw o Po Hq). }
  assert (Keh : extra_headers c ≠ NULL ->
                heap w1 !! extra_headers c = heap w !! extra_headers c).
  { intros Hx. destruct (null_or_inv _ _ _ Hre Hx) as (o & Ho & Po).
    rewrite Ho. apply K; [done|]. intros Hq. exact (kinds_OHash_ORaw o Po Hq). }
  destruct (decide (to_guint n = 0)) as [Hz|Hz].
  - exists (set_body c (mkBody NULL n cp)), w1.
    split; [apply reply_context_set_body_copy_nothing; try done; lia|].
    split; [done|]. split; [|done].
    intros _. split; [done|]. split; [done|].
    assert (R : reply_context_readable (heap w1) (set_body c (mkBody NULL n cp)) rc).
    { split; cbn [set_body req_ctx header extra_headers body buffer]; try done.
      - by eapply null_or_agree.
      - by eapply null_or_agree.
      - by left. }
    rewrite (reply_context_answer_Some _ w1 rc R). unfold answer_of.
    rewrite (message_of_agree w w1 c) by done.
    rewrite (headers_of_agree w w1 c) by done.
    reflexivity.
  - pose proof (reply_context_set_body_copy_Some c w body_ n flags b) as E.
    specialize (E Hb Hn ltac:(lia) ltac:(lia) Hl Hne Hc).
    cbv zeta in E. fold w1 cp in E. set (p := fresh_ptr (heap w1)) in *.
    set (bb := take (Z.to_nat (to_guint n)) b) in *.
    assert (Hp : p ≠ NULL) by apply fresh_ptr_nonnull.
    set (c' := set_body c (mkBody p n cp)) in *.
    set (w' := mkWorld (<[p := ORaw bb]> (heap w1)) (trace w1 ++ [EvAlloc p])) in *.
    assert (Lb : Z.of_nat (length bb) < n).
    { subst bb. rewrite length_take. lia. }
    assert (A : reply_context_answer c' w' = None).
    { apply (reply_context_answer_overread c' w' rc bb);
        cbn [c' w' set_body req_ctx header extra_headers body buffer size heap];
        try done.
      - by apply insert_fresh_keeps.
      - destruct Hrm as [Hx|(o & Ho & Po)]; [by left|].
        right. exists o. split; [|done]. apply insert_fresh_keeps.
        apply K; [done|]. intros Hq. exact (kinds_OStr_ORaw o Po Hq).
      - destruct Hre as [Hx|(o & Ho & Po)]; [by left|].
        right. exists o. split; [|done]. apply insert_fresh_keeps.
        apply K; [done|]. intros Hq. exact (kinds_OHash_ORaw o Po Hq).
      - apply lookup_insert_eq.
      - lia. }
    exists c', w'. split; [exact E|]. split; [done|]. split; [done|].
    intros _. cbn [c' set_body body buffer size].
    split; [done|].
    split; [cbn [w' heap]; apply lookup_insert_eq|].
    split; [exact Lb|]. split; [exact A|].
    unfold reply_context_reply. by apply bind_None.
Qed.

(** X6. After [reply_context_clear] without [all], [reply_context_reply]
    builds its answer with the code 0 and the placeholder message, with no
    body, and with the extra headers the context had; after
    [reply_context_clear] with [all] the answer has no extra header either. *)
Theorem reply_context_clear_then_answer (c : reply_context_s) (w : world)
    (rc : request_context_s) :
  reply_context_readable (heap w) c rc ->
  reply_context_ok (heap w) c ->
  (exists c1 w1,
     reply_context_clear (Some c) false w = Some (Some c1, w1) /\
     reply_context_readable (heap w1) c1 rc /\
     reply_context_answer c1 w1
     = Some (g_hash_table_foreach (headers_of w c) reply_ctx_header_adder
               (metaXServer_reply_simple (request rc) 0 "NOMSG"), w1)) /\
  (exists c2 w2,
     reply_context_clear (Some c) true w = Some (Some c2, w2) /\
     reply_context_readable (heap w2) c2 rc /\
     reply_context_answer c2 w2
     = Some (metaXServer_reply_simple (request rc) 0 "NOMSG", w2)).
Proof.
  intros Hr Hok. pose proof Hr as [Hrn Hrl _ _ _].
  pose proof Hok as [Hm Hw He Hb].
  assert (Am : msg (header c) = NULL \/ msg (header c) ≠ req_ctx c).
  { eapply kind_apart; [exact Hm|exact Hrl|by intros []]. }
  assert (Ab : owned_body c = NULL \/ owned_body c ≠ req_ctx c).
  { eapply kind_apart; [exact Hb|exact Hrl|by intros []]. }
  assert (Aw : warning c = NULL \/ warning c ≠ req_ctx c).
  { eapply kind_apart; [exact Hw|exact Hrl|by intros []]. }
  assert (Ae : extra_headers c = NULL \/ extra_headers c ≠ req_ctx c).
  { eapply kind_apart; [exact He|exact Hrl|by intros []]. }
  split.
  - eexists _, _. split; [by apply reply_context_clear_partial|].
    set (w1 := released [msg (header c); owned_body c] w).
    set (c1 := mkReplyContext (req_ctx c) (warning c) header_zero body_zero
                              (extra_headers c)).
    assert (Keh : extra_headers c ≠ NULL ->
                  heap w1 !! extra_headers c = heap w !! extra_headers c).
    { intros Hx. destruct (null_or_inv _ _ _ He Hx) as (o & Ho & Po).
      apply released_lookup_other. constructor; [|constructor; [|constructor]].
      - eapply kind_apart; [exact Hm|exact Ho|].
        intros Hs. exact (kinds_OHash_OStr o Po Hs).
      - eapply kind_apart; [exact Hb|exact Ho|].
        intros Hs. exact (kinds_OHash_ORaw o Po Hs). }
    destruct (reply_context_answer_no_body c w rc c1 w1) as [R A]; try done.
    + subst w1. rewrite released_lookup_other; [done|].
      constructor; [exact Am|constructor; [exact Ab|constructor]].
    + by left.
    + cbn [c1 extra_headers]. by eapply null_or_agree.
    + split; [exact R|]. rewrite A.
      by rewrite (headers_of_agree w w1 c c1).
  - eexists _, _. split; [by apply reply_context_clear_full|].
    set (w2 := released [warning c; extra_headers c; msg (header c); owned_body c] w).
    set (c2 := mkReplyContext (req_ctx c) NULL header_zero body_zero NULL).
    destruct (reply_context_answer_no_body c w rc c2 w2) as [R A]; try done.
    + subst w2. rewrite released_lookup_other; [done|].
      constructor; [exact Aw|]. constructor; [exact Ae|].
      constructor; [exact Am|constructor; [exact Ab|constructor]].
    + by left.
    + by left.
Qed.

(** X7. [reply_context_clear] leaves a context on which a second
    [reply_context_clear] without [all] changes nothing and releases
    nothing, and after a clear with [all] so does a second one with
    [all]. *)
Theorem reply_context_clear_idempotent (c : reply_context_s) (w : world)
    (all : bool) :
  reply_context_ok (heap w) c ->
  exists c' w',
    reply_context_clear (Some c) all w = Some (Some c', w') /\
    reply_context_clear (Some c') false w' = Some (Some c', w') /\
    (all = true -> reply_context_clear (Some c') true w' = Some (Some c', w')).
Proof.
  intros Hok. destruct all.
  - eexists _, _. split; [by apply reply_context_clear_full|].
    split; [|intros _].
    + rewrite reply_context_clear_partial; [done|by left|by left].
    + rewrite reply_context_clear_full; [done|]. split; by left.
  - destruct Hok as [Hm _ _ Hb].
    eexists _, _. split; [by apply reply_context_clear_partial|].
    split; [|done].
    rewrite reply_context_clear_partial; [done|by left|by left].
Qed.

(** ** Further properties of the request context *)

(** The three blocks of [request_context_create]: not NULL, not live before
    the call, and distinct. *)
Lemma request_context_create_pointers (h : gmap N obj) :
  let ctx := fresh_ptr h in
  let h1 := <[ctx := OReqCtx request_context_zero]> h in
  let ra := fresh_ptr h1 in
  let h2 := <[ra := OAddr addr_info_zero]> h1 in
  let la := fresh_ptr h2 in
  (ctx ≠ NULL /\ ra ≠ NULL /\ la ≠ NULL) /\
  (ra ≠ ctx /\ la ≠ ctx /\ la ≠ ra) /\
  (h !! ctx = None /\ h !! ra = None /\ h !! la = None).
Proof.
  intros ctx h1 ra h2 la.
  assert (Hrc : ra ≠ ctx).
  { apply (fresh_ptr_ne h1 _ (OReqCtx request_context_zero)).
    subst h1. apply lookup_insert_eq. }
  assert (Hlr : la ≠ ra).
  { apply (fresh_ptr_ne h2 _ (OAddr addr_info_zero)).
    subst h2. apply lookup_insert_eq. }
  assert (Hlc : la ≠ ctx).
  { apply (fresh_ptr_ne h2 _ (OReqCtx request_context_zero)).
    subst h2 h1. rewrite lookup_insert_ne by done. apply lookup_insert_eq. }
  split; [|split].
  - repeat split; apply fresh_ptr_nonnull.
  - done.
  - split; [apply fresh_ptr_fresh|]. split.
    + pose proof (fresh_ptr_fresh h1) as F. fold ra in F. subst h1.
      by rewrite lookup_insert_ne in F.
    + pose proof (fresh_ptr_fresh h2) as F. fold la in F. subst h2 h1.
      by rewrite !lookup_insert_ne in F.
Qed.

(** X8. [request_context_free] on the context that [request_context_create]
    has made releases the two address records and then the context, each
    once, and the heap is again what it was before the creation: the three
    blocks allocated are the three blocks released.
    [request_context_gclean] on the context does the same. *)
Theorem request_context_create_then_free (fd_ : Z)
    (fd_peer : option addr_info_t) (w : world) :
  exists ctx ra la w1 w2,
    request_context_create fd_ fd_peer w = Some (ctx, w1) /\
    request_context_free ctx w1 = Some (tt, w2) /\
    (forall p2, request_context_gclean ctx p2 w1 = Some (tt, w2)) /\
    heap w2 = heap w /\
    trace w2 = trace w ++ [EvAlloc ctx; EvAlloc ra; EvAlloc la;
                           EvFree la; EvFree ra; EvFree ctx].
Proof.
  pose proof (request_context_create_Some fd_ fd_peer w) as E. cbv zeta in E.
  pose proof (request_context_create_pointers (heap w)) as P. cbv zeta in P.
  set (ctx := fresh_ptr (heap w)) in *.
  set (h1 := <[ctx := OReqCtx request_context_zero]> (heap w)) in *.
  set (ra := fresh_ptr h1) in *.
  set (h2 := <[ra := OAddr addr_info_zero]> h1) in *.
  set (la := fresh_ptr h2) in *.
  destruct P as ((Hc & Hr & Hl) & (Hrc & Hlc & Hlr) & (Hhc & Hhr & Hhl)).
  assert (F : request_context_free ctx
                (mkWorld (<[la := OAddr (resolved_local fd_ fd_peer)]>
                          (<[ra := OAddr (resolved_remote fd_)]>
                           (<[ctx := OReqCtx (mkRequestContext None fd_ gettimeofday ra la)]>
                            (heap w))))
                         (trace w ++ [EvAlloc ctx; EvAlloc ra; EvAlloc la]))
              = Some (tt, mkWorld (heap w)
                            (trace w ++ [EvAlloc ctx; EvAlloc ra; EvAlloc la;
                                         EvFree la; EvFree ra; EvFree ctx]))).
  { unfold request_context_free. rewrite (nonnull_true ctx) by done. cbn [negb].
    erewrite bind_Some; [|by apply request_context_clear_created].
    erewrite g_free_Some; [|done|cbn [heap]; apply lookup_insert_eq].
    cbn [heap trace]. rewrite delete_insert_eq, delete_id by done.
    by rewrite <- !app_assoc. }
  eexists ctx, ra, la, _, _. split; [exact E|]. split; [exact F|].
  split; [|done].
  intros p2. unfold request_context_gclean.
  rewrite (nonnull_true ctx) by done. exact F.
Qed.

Lemma kinds_OAddr_OReqCtx o : is_OAddr o -> is_OReqCtx o -> False.
Proof. by destruct o. Qed.

(** X9. [request_context_clear] on a context whose two address records are
    not the same block releases the records that are not NULL, once each,
    and zeroes the structure; a second [request_context_clear] then succeeds
    and changes nothing, and [request_context_clear] on NULL does
    nothing. *)
Theorem request_context_clear_idempotent (p : ptr) (r : request_context_s)
    (w : world) :
  p ≠ NULL -> heap w !! p = Some (OReqCtx r) ->
  null_or (heap w) (local_addr r) is_OAddr ->
  null_or (heap w) (remote_addr r) is_OAddr ->
  local_addr r = NULL \/ local_addr r ≠ remote_addr r ->
  exists w1,
    request_context_clear p w = Some (tt, w1) /\
    heap w1 = <[p := OReqCtx request_context_zero]>
                (heap (released [local_addr r; remote_addr r] w)) /\
    trace w1 = trace (released [local_addr r; remote_addr r] w) /\
    request_context_clear p w1 = Some (tt, w1) /\
    request_context_clear NULL w = Some (tt, w).
Proof.
  intros Hp Hl Hla Hra Hd.
  set (w0 := released [local_addr r; remote_addr r] w).
  assert (Hra1 : null_or (heap (released [local_addr r] w)) (remote_addr r) is_OAddr).
  { destruct Hra as [Hra|(o & Ho & Po)]; [by left|]. right. exists o.
    split; [|done]. destruct Hd as [->|Hd]; [done|].
    by rewrite released_one_lookup_ne. }
  assert (Hl0 : heap w0 !! p = Some (OReqCtx r)).
  { subst w0. rewrite released_lookup_other; [done|].
    constructor; [|constructor; [|constructor]].
    - eapply kind_apart; [exact Hla|exact Hl|by intros []].
    - eapply kind_apart; [exact Hra|exact Hl|by intros []]. }
  assert (E : request_context_clear p w
              = Some (tt, mkWorld (<[p := OReqCtx request_context_zero]> (heap w0))
                                  (trace w0))).
  { unfold request_context_clear. rewrite (nonnull_true p) by done. cbn [negb].
    erewrite bind_Some; [|by apply load_Some]. cbv beta iota.
    erewrite bind_Some; [|by eapply when_g_free_released].
    erewrite bind_Some; [|by eapply when_g_free_released].
    by eapply store_Some. }
  eexists. split; [exact E|]. cbn [heap trace].
  split; [done|]. split; [done|]. split; [|done].
  unfold request_context_clear. rewrite (nonnull_true p) by done. cbn [negb].
  erewrite bind_Some;
    [|apply load_Some; [done|cbn [heap]; apply lookup_insert_eq]].
  cbv beta iota. cbn [local_addr remote_addr request_context_zero].
  erewrite bind_Some; [|reflexivity].
  erewrite bind_Some; [|reflexivity].
  erewrite store_Some; [|done|cbn [heap]; apply lookup_insert_eq].
  cbn [heap trace]. by rewrite insert_insert_eq.
Qed.

(** ** Further properties of the registry *)

Lemma foldl_pushed rs l :
  foldl pushed l rs = reverse (omap entry_of rs) ++ l.
Proof.
  revert l. induction rs as [|r rs IH]; intros l; [done|].
  cbn [foldl]. rewrite IH. unfold pushed.
  change (omap entry_of (r :: rs))
    with (match entry_of r with
          | Some e => e :: omap entry_of rs
          | None => omap entry_of rs
          end).
  destruct (entry_of r) as [e|]; [|done].
  by rewrite reverse_cons, <- app_assoc.
Qed.

(** X10. The list of handlers only grows: after any sequence of calls of
    the two registration functions it is the entries of the calls that
    returned 1, the latest first, in front of the list as it was; a call that
    returns 0 adds nothing, and no entry is ever removed or moved. *)
Theorem registry_append_only (rs : list registration) (reg : registry) :
  BEACON_MSGHANDLER (register_all rs reg)
  = reverse (omap entry_of rs) ++ BEACON_MSGHANDLER reg /\
  (forall r reg', (register r reg').1.1 = 1 <-> is_Some (entry_of r)) /\
  (forall r reg', (register r reg').1.1 = 0 <-> entry_of r = None) /\
  length (BEACON_MSGHANDLER (register_all rs reg))
  = (length (omap entry_of rs) + length (BEACON_MSGHANDLER reg))%nat /\
  (forall mh, mh ∈ BEACON_MSGHANDLER reg ->
              mh ∈ BEACON_MSGHANDLER (register_all rs reg)).
Proof.
  assert (E : BEACON_MSGHANDLER (register_all rs reg)
              = reverse (omap entry_of rs) ++ BEACON_MSGHANDLER reg).
  { by rewrite register_all_handlers, foldl_pushed. }
  split; [exact E|]. split; [apply register_success|]. split; [|split].
  - intros r reg'.
    destruct r as [[n|] [m|] [h|]|[n|] [m|] [h|] tags]; cbn; split; done.
  - by rewrite E, length_app, length_reverse.
  - intros mh Hin. rewrite E. apply elem_of_app. by right.
Qed.

Lemma length_substring_0 n s :
  String.length (String.substring 0 n s) = Nat.min n (String.length s).
Proof.
  revert s. induction n as [|n IH]; intros s.
  - by destruct s.
  - destruct s as [|a s]; [done|]. cbn. by rewrite IH.
Qed.

Lemma prefix_substring_0 n s :
  String.prefix (String.substring 0 n s) s = true.
Proof.
  revert s. induction n as [|n IH]; intros s.
  - by destruct s.
  - destruct s as [|a s]; [done|]. cbn.
    destruct (Ascii.ascii_dec a a); [apply IH|done].
Qed.

Lemma substring_0_whole n s :
  (String.length s <= n)%nat -> String.substring 0 n s = s.
Proof.
  revert s. induction n as [|n IH]; intros s H.
  - destruct s; [done|]. cbn in H. lia.
  - destruct s as [|a s]; [done|]. cbn. rewrite IH; [done|]. cbn in H. lia.
Qed.

Lemma entry_of_ok r e : entry_of r = Some e -> handler_entry_ok e.
Proof.
  unfold handler_entry_ok.
  destruct r as [[n|] [m|] [h|]|[n|] [m|] [h|] tags]; intros H; try done;
    injection H as <-; cbn [matcher handler handler_v2 name];
    (split; [by eexists|]); (split; [|unfold strncpy_name;
       rewrite length_substring_0; lia]).
  - left. split; [by eexists|done].
  - right. split; [done|by eexists].
Qed.

(** X11. Every entry that the two registration functions put in the list
    has a matcher, has one of the two kinds of handler and not the other, and
    has a name of at most [SIZE_MSGHANDLERNAME - 1] characters: if the
    entries of the list are so before a sequence of calls, they are so after
    it. *)
Theorem registry_entries_well_formed (rs : list registration) (reg : registry) :
  Forall handler_entry_ok (BEACON_MSGHANDLER reg) ->
  Forall handler_entry_ok (BEACON_MSGHANDLER (register_all rs reg)).
Proof.
  intros H. rewrite register_all_handlers, foldl_pushed.
  apply Forall_app. split; [|done].
  apply Forall_reverse, Forall_forall. intros e He.
  apply list_elem_of_omap in He as (r & _ & Hr).
  by eapply entry_of_ok.
Qed.

(** X12. A registration with a name longer than the name field still
    returns 1: the entry gets the first [SIZE_MSGHANDLERNAME - 1] characters
    of the name, and the whole name when it has no more than that, with
    either function. *)
Theorem handler_name_truncated (n : string) (m : message_matcher_f)
    (h : message_handler_f) (h2 : message_handler_v2_f)
    (tags : option (list service_tag_s)) (reg : registry) :
  let stored := String.substring 0 (SIZE_MSGHANDLERNAME - 1) n in
  (message_handler_add (Some n) (Some m) (Some h) reg).1.1 = 1 /\
  (message_handler_add_v2 (Some n) (Some m) (Some h2) tags reg).1.1 = 1 /\
  name <$> head (BEACON_MSGHANDLER
                   (message_handler_add (Some n) (Some m) (Some h) reg).2)
  = Some stored /\
  name <$> head (BEACON_MSGHANDLER
                   (message_handler_add_v2 (Some n) (Some m) (Some h2) tags reg).2)
  = Some stored /\
  String.length stored = Nat.min (SIZE_MSGHANDLERNAME - 1) (String.length n) /\
  String.prefix stored n = true /\
  ((String.length n <= SIZE_MSGHANDLERNAME - 1)%nat -> stored = n) /\
  ((SIZE_MSGHANDLERNAME - 1 < String.length n)%nat -> stored ≠ n).
Proof.
  intros stored.
  split; [reflexivity|]. split; [reflexivity|].
  split; [reflexivity|]. split; [reflexivity|].
  split; [apply length_substring_0|].
  split; [apply prefix_substring_0|].
  split; [apply substring_0_whole|].
  intros Hlt E. pose proof (length_substring_0 (SIZE_MSGHANDLERNAME - 1) n) as L.
  fold stored in L. rewrite E in L. lia.
Qed.

Lemma register_serv_tags r reg :
  serv_tags (register r reg).2
  = if is_tagged r
    then Some (default [] (serv_tags reg) ++ registered_tags r)
    else serv_tags reg.
Proof.
  destruct r as [[n|] [m|] [h|]|[n|] [m|] [h|] [ts|]]; try reflexivity.
  cbn. destruct (serv_tags reg); cbn; by rewrite ?app_nil_r.
Qed.

Lemma registered_tags_not_tagged r : is_tagged r = false -> registered_tags r = [].
Proof. by destruct r as [[n|] [m|] [h|]|[n|] [m|] [h|] [ts|]]. Qed.

Lemma registered_tags_none rs :
  existsb is_tagged rs = false -> concat (map registered_tags rs) = [].
Proof.
  induction rs as [|r rs IH]; [done|]. cbn [existsb map concat].
  intros H. apply orb_false_iff in H as [Hr Hrs].
  by rewrite (registered_tags_not_tagged r Hr), IH.
Qed.

(** X13. [serv_tags] after a sequence of calls: it is as it was when no
    call of [message_handler_add_v2] went through; otherwise it is an array
    that holds the tags it had followed by copies of the tags of the calls of
    [message_handler_add_v2] that went through, in the order of the calls.
    Calls of [message_handler_add] and calls that return 0 add no tag. *)
Theorem serv_tags_accumulate (rs : list registration) (reg : registry) :
  serv_tags (register_all rs reg)
  = if existsb is_tagged rs
    then Some (default [] (serv_tags reg) ++ concat (map registered_tags rs))
    else serv_tags reg.
Proof.
  revert reg. induction rs as [|r rs IH]; intros reg; [done|].
  cbn [register_all foldl]. fold (register_all rs ((register r reg).2)).
  rewrite IH, register_serv_tags. cbn [existsb map concat].
  destruct (is_tagged r) eqn:Er; cbn [orb default].
  - destruct (existsb is_tagged rs) eqn:Ers; [by rewrite app_assoc|].
    by rewrite (registered_tags_none rs Ers), app_nil_r.
  - rewrite (registered_tags_not_tagged r Er). done.
Qed.

(** ** Further properties of the extra headers *)

Lemma headers_nonempty_insert t k v :
  headers_nonempty t -> v ≠ [] -> headers_nonempty (<[k := v]> t).
Proof.
  intros Ht Hv k' v'. rewrite lookup_insert. case_decide.
  - by intros [= <-].
  - apply Ht.
Qed.

Lemma headers_nonempty_empty : headers_nonempty ∅.
Proof. intros k v. by rewrite lookup_empty. Qed.

(** [reply_context_add_bufheader_in_reply] on any key, value and length
    that fits a [guint] and is not beyond the value. *)
Lemma reply_context_add_bufheader_in_reply_total c w ko vo vlen :
  null_or (heap w) (extra_headers c) is_OHash ->
  headers_nonempty (headers_of w c) ->
  0 <= vlen < 2 ^ 32 ->
  match vo with Some v => vlen <= Z.of_nat (length v) | None => True end ->
  exists c' w',
    reply_context_add_bufheader_in_reply (Some c) ko vo vlen w
    = Some (Some c', w') /\
    null_or (heap w') (extra_headers c') is_OHash /\
    headers_nonempty (headers_of w' c').
Proof.
  intros He Hne H0 Hlen.
  destruct ko as [k|]; [|by exists c, w].
  destruct vo as [v|]; [|by exists c, w].
  destruct (decide (vlen = 0)) as [->|Hz]; [by exists c, w|].
  assert (Eg : to_guint vlen = vlen) by (by apply to_guint_small).
  destruct (reply_context_add_bufheader_in_reply_Some c k v vlen w He)
    as (tp & w' & E & Htp & Ht & _); [done|lia|].
  rewrite Eg in Ht.
  exists (set_extra_headers c tp), w'. split; [exact E|].
  split.
  - right. eexists. split; [exact Ht|done].
  - rewrite (headers_of_table w' (set_extra_headers c tp) _ Htp Ht).
    apply headers_nonempty_insert; [done|].
    destruct v as [|x v]; [cbn in Hlen; lia|].
    destruct (Z.to_nat vlen) as [|n] eqn:En; [lia|]. done.
Qed.

Lemma foldl_header_adder (l : list (string * list Byte.byte)) (u : MESSAGE) :
  Forall (fun kv => kv.2 ≠ []) l ->
  foldl (fun a kv => reply_ctx_header_adder kv.1 kv.2 a) u l
  = foldl (fun a kv => metautils_message_add_field a kv.1 kv.2) u l.
Proof.
  revert u. induction l as [|[k v] l IH]; intros u H; [done|].
  apply Forall_cons in H as [Hv Hl]. cbn [foldl fst snd] in *.
  rewrite IH by done. f_equal. unfold reply_ctx_header_adder.
  destruct v; [done|]. reflexivity.
Qed.

(** X14. A table of extra headers that holds no empty value holds none
    after a call of [reply_context_add_strheader_in_reply] with a string
    shorter than 2^32 bytes, and none after a call of
    [reply_context_add_header_in_reply] with a byte array whose length, a
    [guint], is not beyond its data; both calls go through on every key and
    value, NULL included.  On such a table [reply_context_reply] leaves no
    entry out: every entry becomes a field of the answer.  A string whose
    length is a multiple of 2^32 other than zero is the exception: the length
    handed to [g_byte_array_append] is zero, and the table then holds an empty
    value under the key. *)
Theorem extra_headers_never_empty (c : reply_context_s) (w : world) :
  null_or (heap w) (extra_headers c) is_OHash ->
  headers_nonempty (headers_of w c) ->
  (forall ko (vo : option string),
     match vo with Some s => strlen s < 2 ^ 32 | None => True end ->
     exists c' w',
       reply_context_add_strheader_in_reply (Some c) ko vo w = Some (Some c', w') /\
       null_or (heap w') (extra_headers c') is_OHash /\
       headers_nonempty (headers_of w' c')) /\
  (forall ko (g : GByteArray),
     0 <= gba_len g < 2 ^ 32 ->
     match gba_data g with
     | Some b => gba_len g <= Z.of_nat (length b)
     | None => True
     end ->
     exists c' w',
       reply_context_add_header_in_reply (Some c) ko (Some g) w
       = Some (Some c', w') /\
       null_or (heap w') (extra_headers c') is_OHash /\
       headers_nonempty (headers_of w' c')) /\
  (forall u : MESSAGE,
     g_hash_table_foreach (headers_of w c) reply_ctx_header_adder u
     = foldl (fun a kv => metautils_message_add_field a kv.1 kv.2) u
             (map_to_list (headers_of w c))) /\
  (forall (k s : string),
     s ≠ ""%string -> to_guint (strlen s) = 0 ->
     exists c' w',
       reply_context_add_strheader_in_reply (Some c) (Some k) (Some s) w
       = Some (Some c', w') /\
       headers_of w' c' !! k = Some [] /\
       ~ headers_nonempty (headers_of w' c')).
Proof.
  intros He Hne. split; [|split; [|split]].
  - intros ko vo Hs. unfold reply_context_add_strheader_in_reply.
    destruct ko as [k|]; [|by exists c, w].
    destruct vo as [s|]; [|by exists c, w].
    apply reply_context_add_bufheader_in_reply_total; try done.
    + unfold strlen in *. lia.
    + unfold strlen. rewrite length_list_byte_of_string. lia.
  - intros ko g H0 Hg. unfold reply_context_add_header_in_reply.
    destruct ko as [k|]; [|by exists c, w].
    by apply reply_context_add_bufheader_in_reply_total.
  - intros u. unfold g_hash_table_foreach. apply foldl_header_adder.
    apply Forall_forall. intros [k v] Hin. cbn.
    apply elem_of_map_to_list in Hin. by eapply Hne.
  - intros k s Hs Hz.
    destruct (reply_context_add_bufheader_in_reply_Some c k
                (String.list_byte_of_string s) (strlen s) w He)
      as (tp & w' & E & Htp & Ht & _);
      [by apply strlen_ne_0|apply to_guint_strlen_le|].
    rewrite Hz in Ht. cbn [Z.to_nat take] in Ht.
    exists (set_extra_headers c tp), w'. split; [exact E|].
    assert (L : headers_of w' (set_extra_headers c tp) !! k = Some []).
    { rewrite (headers_of_table w' (set_extra_headers c tp) _ Htp Ht).
      apply lookup_insert_eq. }
    split; [exact L|]. intros Hn. by apply (Hn k []).
Qed.


(** ** The namespace accessor *)

(** X16. [gridd_get_ns_name] returns NULL and changes nothing while the
    namespace is not set or has no name; otherwise it returns a copy of the
    name in a block that was not live before, which the caller owns: after
    [g_free] on it the heap is what it was before the call. *)
Theorem gridd_get_ns_name_owned (ns_info : option namespace_info_t) (w : world) :
  exists p w',
    gridd_get_ns_name ns_info w = Some (p, w') /\
    (p = NULL <-> ns_info ≫= ns_info_name = None) /\
    (p = NULL -> w' = w) /\
    (forall s, ns_info ≫= ns_info_name = Some s ->
       heap w !! p = None /\
       heap w' !! p = Some (OStr s) /\
       (forall q, q ≠ p -> heap w' !! q = heap w !! q) /\
       exists w'', g_free p w' = Some (tt, w'') /\ heap w'' = heap w).
Proof.
  unfold gridd_get_ns_name.
  destruct ns_info as [ns|]; cbn [mbind option_bind].
  2:{ exists NULL, w. repeat split; try done. }
  destruct (ns_info_name ns) as [s|] eqn:En.
  2:{ exists NULL, w. repeat split; try done. }
  set (p := fresh_ptr (heap w)).
  assert (Hp : p ≠ NULL) by apply fresh_ptr_nonnull.
  assert (Hf : heap w !! p = None) by apply fresh_ptr_fresh.
  exists p. eexists. split; [reflexivity|]. fold p. cbn [heap trace].
  split; [split; [done|discriminate]|]. split; [done|].
  intros s' [= <-]. split; [done|]. split; [apply lookup_insert_eq|].
  split; [intros q Hq; by rewrite lookup_insert_ne|].
  eexists. split.
  - eapply g_free_Some; [done|cbn [heap]; apply lookup_insert_eq].
  - cbn [heap]. by rewrite delete_insert_eq, delete_id.
Qed.

(** X17. Whatever the marshaller and the transport do,
    [reply_context_reply] on a readable context returns 0 or 1, writes at
    most once (and exactly once when it returns 0), and leaves the heap as
    it was: it releases no block that was live before the call, so the
    message, the body, the extra headers and the warning of the context are
    still there for the caller to clear. *)
Theorem reply_context_reply_leaves_context (c : reply_context_s) (w : world)
    (rc : request_context_s) :
  reply_context_readable (heap w) c rc ->
  exists r e w',
    reply_context_reply c w = Some ((r, e), w') /\
    (r = 0 \/ r = 1) /\
    heap w' = heap w /\
    reply_context_readable (heap w') c rc /\
    (forall q, is_Some (heap w !! q) -> frees q (trace w') = frees q (trace w)) /\
    (length (writes (trace w')) <= S (length (writes (trace w))))%nat /\
    (r = 0 -> length (writes (trace w')) = S (length (writes (trace w)))).
Proof.
  intros Hr.
  destruct (message_marshall_gba_and_clean (answer_of w c rc)) as [data|] eqn:Hm.
  - destruct (sock_to_write (fd rc) (reply_timeout default_to_operation) data)
      as [sent err] eqn:Hs.
    pose proof (reply_context_reply_written c w rc data sent err Hr Hm Hs) as E.
    cbv zeta in E. set (encoded := fresh_ptr (heap w)) in *.
    assert (T : forall t, length (writes (t ++ [EvAlloc encoded;
                   EvWrite (fd rc) (reply_timeout default_to_operation) data;
                   EvFree encoded])) = S (length (writes t))).
    { intros t. rewrite writes_app, length_app. cbn. lia. }
    assert (F : forall q, is_Some (heap w !! q) ->
                frees q (trace w ++ [EvAlloc encoded;
                   EvWrite (fd rc) (reply_timeout default_to_operation) data;
                   EvFree encoded]) = frees q (trace w)).
    { intros q [o Ho]. rewrite frees_app. unfold frees at 2. cbn.
      assert (Hq : q ≠ encoded).
      { intros ->. unfold encoded in Ho. by rewrite fresh_ptr_fresh in Ho. }
      rewrite (proj2 (N.eqb_neq q encoded) Hq). cbn. lia. }
    destruct ((0 <? sent) && (Z.of_nat (length data) =? to_guint sent)).
    + eexists 1, err, _. split; [exact E|]. cbn [heap trace].
      split; [by right|]. split; [done|]. split; [done|]. split; [exact F|].
      split; [rewrite T; lia|done].
    + eexists 0, _, _. split; [exact E|]. cbn [heap trace].
      split; [by left|]. split; [done|]. split; [done|]. split; [exact F|].
      split; [rewrite T; lia|]. intros _. apply T.
  - exists 1, None, w. split.
    + unfold reply_context_reply.
      erewrite bind_Some; [|by apply reply_context_answer_Some].
      by rewrite Hm.
    + split; [by right|]. split; [done|]. split; [done|]. split; [done|].
      split; [lia|done].
Qed.

End Gridd.

(** ** A small instance: messages as records, a marshaller that encodes the
       text of the message, transports that write everything, write all but
       one byte, or time out *)

Record demo_message := mkDemo {
  demo_code : Z;
  demo_text : string;
  demo_fields : list (string * list Byte.byte);
  demo_body : option (list Byte.byte);
}.

Definition demo_reply_simple (req : option demo_message) (code_ : Z)
    (text : string) : demo_message :=
  mkDemo code_ text [] None.

Definition demo_add_field (m : demo_message) (k : string) (v : list Byte.byte)
    : demo_message :=
  mkDemo (demo_code m) (demo_text m) (demo_fields m ++ [(k, v)]) (demo_body m).

Definition demo_set_BODY (m : demo_message) (b : list Byte.byte) : demo_message :=
  mkDemo (demo_code m) (demo_text m) (demo_fields m) (Some b).

Definition demo_marshall (m : demo_message) : option (list Byte.byte) :=
  Some (String.list_byte_of_string (demo_text m)).

Definition demo_marshall_nothing (m : demo_message) : option (list Byte.byte) :=
  None.

Definition demo_write_all (fd_ timeout : Z) (data : list Byte.byte)
    : Z * option GError :=
  (Z.of_nat (length data), None).

Definition demo_write_timeout (fd_ timeout : Z) (data : list Byte.byte)
    : Z * option GError :=
  (-1, Some (mkGError 0 "Socket timeout")).

Definition demo_write_short (fd_ timeout : Z) (data : list Byte.byte)
    : Z * option GError :=
  (Z.of_nat (length data) - 1, None).

(** A string of 2^32 characters; its length is known without building it. *)
Fixpoint string_repeat (a : Ascii.ascii) (n : nat) : string :=
  match n with
  | O => EmptyString
  | S n => String a (string_repeat a n)
  end.

Definition four_gib : string := string_repeat (Ascii.ascii_of_nat 97) (N.to_nat 4294967296).

Definition demo_GSETERROR (err : option GError) (text : string) : option GError :=
  Some (mkGError 0 text).

(** A request context at address 1, on socket 7, and a reply context bound
    to it with the code 200, no message, no body, no header, no warning. *)
Definition demo_rc : @request_context_s demo_message :=
  mkRequestContext None 7 (mkTimeval 0 0) NULL NULL.

Definition demo_world : @world demo_message unit :=
  mkWorld {[ 1%N := OReqCtx demo_rc ]} [].

Definition demo_ctx : reply_context_s :=
  mkReplyContext 1%N NULL (mkHeader 200 NULL) body_zero NULL.

(** The same with a warning at address 2, a table of one header at address
    3, the message "OK" at address 4 and an owned body of three bytes at
    address 5. *)
Definition demo_world_full : @world demo_message unit :=
  mkWorld (<[ 5%N := ORaw [Byte.x61; Byte.x62; Byte.x63] ]>
           (<[ 4%N := OStr "OK" ]>
            (<[ 3%N := OHash {[ "k"%string := [Byte.x76] ]} ]>
             (<[ 2%N := OErr (mkGError 1 "warned") ]>
              {[ 1%N := OReqCtx demo_rc ]})))) [].

Definition demo_ctx_full : reply_context_s :=
  mkReplyContext 1%N 2%N (mkHeader 200 4%N) (mkBody 5%N 3 1) 3%N.

(** Handlers that say yes to every request. *)
Definition demo_registration (n : string) (h : nat)
    : @registration demo_message nat nat string :=
  RegSimple (Some n) (Some (fun _ => true)) (Some h).

(** The functions run: a transport that times out, a body taken by copy, a
    request context made from nothing. *)
Example demo_reply_timeout :
  reply_context_reply demo_reply_simple demo_add_field demo_set_BODY
    demo_marshall demo_write_timeout 500 demo_ctx demo_world
  = Some ((0, Some (mkGError 0 "Failed to reply: Socket timeout")),
          mkWorld (heap demo_world)
                  [EvAlloc 2%N;
                   EvWrite 7 1000 (String.list_byte_of_string "NOMSG");
                   EvFree 2%N]).
Proof. vm_compute. reflexivity. Qed.

Example demo_reply_full_answer :
  reply_context_answer demo_reply_simple demo_add_field demo_set_BODY
    demo_ctx_full demo_world_full
  = Some (mkDemo 200 "OK" [("k"%string, [Byte.x76])]
                 (Some [Byte.x61; Byte.x62; Byte.x63]),
          demo_world_full).
Proof. vm_compute. reflexivity. Qed.

Example demo_set_body_copy :
  exists w',
    reply_context_set_body 1 2 (Some demo_ctx) 5%N 2 2 demo_world_full
    = Some (Some (mkReplyContext 1%N NULL (mkHeader 200 NULL) (mkBody 6%N 2 2) NULL), w') /\
    heap w' !! 6%N = Some (ORaw [Byte.x61; Byte.x62]) /\
    heap w' !! 5%N = Some (ORaw [Byte.x61; Byte.x62; Byte.x63]).
Proof. eexists. split; [vm_compute; reflexivity|]. split; reflexivity. Qed.

Example demo_set_body_borrow :
  reply_context_set_body 1 2 (Some demo_ctx) 5%N 3 0 demo_world_full
  = Some (Some (mkReplyContext 1%N NULL (mkHeader 200 NULL) (mkBody 5%N 3 0) NULL),
          demo_world_full).
Proof. vm_compute. reflexivity. Qed.

Example demo_request_context_create :
  exists w',
    request_context_create (MESSAGE := demo_message) tt tt 128 (mkTimeval 10 0)
      (fun _ ss len => (ss, len)) (fun _ ss len => (ss, len)) (fun a _ _ => a)
      9 None (mkWorld ∅ [])
    = Some (1%N, w') /\
    heap w' !! 1%N = Some (OReqCtx (mkRequestContext None 9 (mkTimeval 10 0) 2%N 3%N)) /\
    trace w' = [EvAlloc 1%N; EvAlloc 2%N; EvAlloc 3%N].
Proof. eexists. split; [vm_compute; reflexivity|]. split; reflexivity. Qed.

(** ** The theorems at the instance *)

Lemma demo_readable : reply_context_readable (heap demo_world) demo_ctx demo_rc.
Proof.
  split.
  - done.
  - reflexivity.
  - by left.
  - by left.
  - by left.
Qed.

Lemma demo_answer :
  answer_of demo_reply_simple demo_add_field demo_set_BODY demo_world demo_ctx demo_rc
  = mkDemo 200 "NOMSG" [] None.
Proof. reflexivity. Qed.

(** C1 at the instance: the marshaller gives the five bytes of "NOMSG", the
    transport writes five bytes, the call returns 1; and with a marshaller
    that gives nothing the call returns 1 as well. *)
Lemma reply_context_reply_success_iff_witness :
  reply_context_readable (heap demo_world) demo_ctx demo_rc /\
  is_gint 5 /\
  (exists r e w',
     reply_context_reply demo_reply_simple demo_add_field demo_set_BODY
       demo_marshall demo_write_all 30000 demo_ctx demo_world
     = Some ((r, e), w') /\
     (r = 1 <-> 0 < 5 /\ 5 = Z.of_nat (length (String.list_byte_of_string "NOMSG")))) /\
  reply_context_reply demo_reply_simple demo_add_field demo_set_BODY
    demo_marshall_nothing demo_write_all 30000 demo_ctx demo_world
  = Some ((1, None), demo_world).
Proof.
  split; [exact demo_readable|]. split; [unfold is_gint; lia|]. split.
  - destruct (reply_context_reply_success_iff demo_reply_simple demo_add_field
                demo_set_BODY demo_marshall demo_write_all 30000
                demo_ctx demo_world demo_rc demo_readable) as [A _].
    destruct (A (String.list_byte_of_string "NOMSG") 5 None)
      as (r & e & w' & encoded & E & _ & I & _).
    + reflexivity.
    + reflexivity.
    + unfold is_gint. lia.
    + exists r, e, w'. split; [exact E|exact I].
  - destruct (reply_context_reply_success_iff demo_reply_simple demo_add_field
                demo_set_BODY demo_marshall_nothing demo_write_all 30000
                demo_ctx demo_world demo_rc demo_readable) as [_ B].
    apply B. reflexivity.
Defined.

(** C1 as the claim has it fails at the instance.  With a transport that
    writes four of the five bytes and leaves no error, the call returns 0 and
    there is no error to carry the prefix.  With a marshaller that gives
    nothing, the call returns 1 though no write has reported anything. *)
Lemma reply_context_reply_success_iff_counterexample :
  demo_write_short 7 30000 (String.list_byte_of_string "NOMSG") = (4, None) /\
  reply_context_reply demo_reply_simple demo_add_field demo_set_BODY
    demo_marshall demo_write_short 30000 demo_ctx demo_world
  = Some ((0, None),
          mkWorld (heap demo_world)
                  [EvAlloc 2%N;
                   EvWrite 7 30000 (String.list_byte_of_string "NOMSG");
                   EvFree 2%N]) /\
  ~ (exists r x w',
       reply_context_reply demo_reply_simple demo_add_field demo_set_BODY
         demo_marshall demo_write_short 30000 demo_ctx demo_world
       = Some ((r, Some x), w')) /\
  exists w',
    reply_context_reply demo_reply_simple demo_add_field demo_set_BODY
      demo_marshall_nothing demo_write_all 30000 demo_ctx demo_world
    = Some ((1, None), w') /\
    writes (trace w') = [].
Proof.
  split; [reflexivity|]. split; [vm_compute; reflexivity|]. split.
  - intros (r & x & w' & H). vm_compute in H. discriminate H.
  - exists demo_world. split; reflexivity.
Qed.

(** C2 at the instance with a marshaller that gives nothing: the call
    returns 1, not 0, and sets no error. *)
Lemma reply_context_reply_marshalling_failure_counterexample :
  demo_marshall_nothing
    (answer_of demo_reply_simple demo_add_field demo_set_BODY
       demo_world demo_ctx demo_rc) = None /\
  reply_context_reply demo_reply_simple demo_add_field demo_set_BODY
    demo_marshall_nothing demo_write_all 30000 demo_ctx demo_world
  = Some ((1, None), demo_world) /\
  ~ (exists e w',
       reply_context_reply demo_reply_simple demo_add_field demo_set_BODY
         demo_marshall_nothing demo_write_all 30000 demo_ctx demo_world
       = Some ((0, e), w')).
Proof.
  split; [reflexivity|]. split; [reflexivity|].
  intros (e & w' & H). discriminate H.
Qed.

Lemma reply_context_reply_marshalling_failure_witness :
  reply_context_readable (heap demo_world) demo_ctx demo_rc /\
  reply_context_reply demo_reply_simple demo_add_field demo_set_BODY
    demo_marshall_nothing demo_write_all 30000 demo_ctx demo_world
  = Some ((1, None), demo_world).
Proof.
  split; [exact demo_readable|].
  apply (reply_context_reply_marshalling_failure demo_reply_simple demo_add_field
           demo_set_BODY demo_marshall_nothing demo_write_all 30000
           demo_ctx demo_world demo_rc).
  - exact demo_readable.
  - reflexivity.
Defined.

(** C3 at the instance: "A" then "B", both saying yes to every request. *)
Lemma last_registered_matching_handler_wins_witness :
  dispatch
    (register_all id 32%nat demo_GSETERROR
       [demo_registration "A" 1; demo_registration "B" 2]
       (mkRegistry [] None))
    (mkDemo 0 "" [] None)
  = Some (mkHandler "B" (Some (fun _ => true)) (Some 2%nat) None).
Proof.
  destruct (last_registered_matching_handler_wins id 32%nat demo_GSETERROR
              (mkRegistry [] None) [] [] []
              (demo_registration "A" 1) (demo_registration "B" 2)
              (mkHandler "A" (Some (fun _ => true)) (Some 1%nat) None)
              (mkHandler "B" (Some (fun _ => true)) (Some 2%nat) None)
              (mkDemo 0 "" [] None))
    as (_ & _ & _ & _ & E & _).
  - reflexivity.
  - reflexivity.
  - reflexivity.
  - reflexivity.
  - intros r e Hin. by apply elem_of_nil in Hin.
  - exact E.
Defined.

(** C4 at the instance, with 120000 configured. *)
Lemma reply_timeout_clamped_witness :
  exists r w',
    reply_context_reply demo_reply_simple demo_add_field demo_set_BODY
      demo_marshall demo_write_all 120000 demo_ctx demo_world
    = Some (r, w') /\
    writes (trace w') = [(7, 60000, String.list_byte_of_string "NOMSG")].
Proof.
  destruct (reply_timeout_clamped demo_reply_simple demo_add_field
              demo_set_BODY demo_marshall demo_write_all 120000
              demo_ctx demo_world demo_rc (String.list_byte_of_string "NOMSG"))
    as (E & _).
  - exact demo_readable.
  - reflexivity.
  - exact E.
Defined.

(** C6 at the instance: the bytes written are those of "NOMSG". *)
Lemma reply_context_reply_placeholder_witness :
  msg (header demo_ctx) = NULL /\
  reply_context_answer demo_reply_simple demo_add_field demo_set_BODY
    demo_ctx demo_world
  = Some (mkDemo 200 "NOMSG" [] None, demo_world) /\
  exists r w',
    reply_context_reply demo_reply_simple demo_add_field demo_set_BODY
      demo_marshall demo_write_all 30000 demo_ctx demo_world
    = Some (r, w') /\
    writes (trace w') = [(7, 30000, String.list_byte_of_string "NOMSG")].
Proof.
  destruct (reply_context_reply_placeholder demo_reply_simple demo_add_field
              demo_set_BODY demo_marshall demo_write_all 30000
              demo_ctx demo_world demo_rc demo_readable)
    as (H & _).
  destruct (H eq_refl) as (_ & _ & E & _ & r & w' & R & W).
  split; [reflexivity|]. split; [exact E|].
  exists r, w'. split; [exact R|exact W].
Defined.

Lemma length_string_repeat a n : String.length (string_repeat a n) = n.
Proof. induction n as [|n IH]; [done|]. cbn. by rewrite IH. Qed.

Lemma strlen_four_gib : strlen four_gib = 2 ^ 32.
Proof.
  unfold strlen, four_gib. rewrite length_string_repeat, N_nat_Z. reflexivity.
Qed.

Lemma four_gib_not_empty : four_gib ≠ ""%string.
Proof.
  intros E. pose proof strlen_four_gib as H. rewrite E in H. discriminate H.
Qed.

(** C7 at the instance: "a" then "b" under the key "Content" leave "b"; "a"
    then a string of 2^32 characters leave an empty value. *)
Lemma extra_headers_last_write_wins_witness :
  null_or (heap demo_world) (extra_headers demo_ctx) is_OHash /\
  (exists c1 w1 c2 w2,
     reply_context_add_strheader_in_reply (Some demo_ctx) (Some "Content"%string)
       (Some "a"%string) demo_world
     = Some (Some c1, w1) /\
     reply_context_add_strheader_in_reply (Some c1) (Some "Content"%string)
       (Some "b"%string) w1
     = Some (Some c2, w2) /\
     headers_of w2 c2 !! "Content"%string = Some (String.list_byte_of_string "b") /\
     entries_for "Content" (headers_of w2 c2)
     = [("Content"%string, String.list_byte_of_string "b")]) /\
  strlen four_gib = 2 ^ 32 /\
  (exists c1 w1 c2 w2,
     reply_context_add_strheader_in_reply (Some demo_ctx) (Some "Content"%string)
       (Some "a"%string) demo_world
     = Some (Some c1, w1) /\
     reply_context_add_strheader_in_reply (Some c1) (Some "Content"%string)
       (Some four_gib) w1
     = Some (Some c2, w2) /\
     headers_of w2 c2 !! "Content"%string = Some [] /\
     entries_for "Content" (headers_of w2 c2) = [("Content"%string, [])]).
Proof.
  split; [by left|].
  destruct (extra_headers_last_write_wins demo_ctx demo_world "Content")
    as (H & _); [by left|].
  split; [|split; [exact strlen_four_gib|]].
  - destruct (H "a"%string "b"%string)
      as (c1 & w1 & c2 & w2 & E1 & E2 & _ & _ & S & _); [discriminate..|].
    destruct S as [L N]; [reflexivity|].
    exists c1, w1, c2, w2. split; [exact E1|]. split; [exact E2|].
    split; [exact L|exact N].
  - destruct (H "a"%string four_gib)
      as (c1 & w1 & c2 & w2 & E1 & E2 & _ & _ & _ & S);
      [discriminate|exact four_gib_not_empty|].
    destruct (S strlen_four_gib) as [L N].
    exists c1, w1, c2, w2. split; [exact E1|]. split; [exact E2|].
    split; [exact L|exact N].
Defined.

Lemma demo_full_ok : reply_context_ok (heap demo_world_full) demo_ctx_full.
Proof.
  split.
  - right. exists (OStr "OK"). split; [reflexivity|exact I].
  - right. exists (OErr (mkGError 1 "warned")). split; [reflexivity|exact I].
  - right. exists (OHash {[ "k"%string := [Byte.x76] ]}). split; [reflexivity|exact I].
  - right. exists (ORaw [Byte.x61; Byte.x62; Byte.x63]). split; [reflexivity|exact I].
Qed.

(** C8 at the instance. *)
Lemma reply_context_clear_partial_and_full_witness :
  reply_context_ok (heap demo_world_full) demo_ctx_full /\
  (exists w1,
     reply_context_clear (Some demo_ctx_full) false demo_world_full
     = Some (Some (mkReplyContext 1%N 2%N header_zero body_zero 3%N), w1) /\
     heap w1 !! 2%N = Some (OErr (mkGError 1 "warned")) /\
     heap w1 !! 3%N = Some (OHash {[ "k"%string := [Byte.x76] ]})) /\
  (exists w2,
     reply_context_clear (Some demo_ctx_full) true demo_world_full
     = Some (Some (mkReplyContext 1%N NULL header_zero body_zero NULL), w2) /\
     heap w2 !! 2%N = None /\ heap w2 !! 3%N = None).
Proof.
  split; [exact demo_full_ok|].
  destruct (reply_context_clear_partial_and_full demo_ctx_full demo_world_full
              (mkGError 1 "warned") {[ "k"%string := [Byte.x76] ]})
    as ((w1 & E1 & _ & Hw1 & He1 & _) & (w2 & E2 & _ & Hw2 & He2 & _)).
  - exact demo_full_ok.
  - discriminate.
  - reflexivity.
  - discriminate.
  - reflexivity.
  - split.
    + exists w1. split; [exact E1|]. split; [exact Hw1|exact He1].
    + exists w2. split; [exact E2|]. split; [exact Hw2|exact He2].
Defined.

(** C9 at the instance: the context owns a body of three bytes, and a call
    with a NULL buffer and a size of zero releases it and zeroes the body of
    the context; the call is not a no-op. *)
Lemma reply_context_set_body_null_counterexample :
  reply_context_set_body 1 2 (Some demo_ctx_full) NULL 0 0 demo_world_full
  = Some (Some (mkReplyContext 1%N 2%N (mkHeader 200 4%N) body_zero 3%N),
          released [5%N] demo_world_full) /\
  heap demo_world_full !! 5%N = Some (ORaw [Byte.x61; Byte.x62; Byte.x63]) /\
  heap (released [5%N] demo_world_full) !! 5%N = None /\
  reply_context_set_body 1 2 (Some demo_ctx_full) NULL 0 0 demo_world_full
  ≠ Some (Some demo_ctx_full, demo_world_full).
Proof.
  split; [vm_compute; reflexivity|]. split; [reflexivity|].
  split; [reflexivity|]. vm_compute. discriminate.
Qed.

Lemma reply_context_set_body_without_buffer_witness :
  null_or (heap demo_world_full) (owned_body demo_ctx_full) is_ORaw /\
  exists c',
    reply_context_set_body 1 2 (Some demo_ctx_full) NULL 0 0 demo_world_full
    = Some (Some c', released [5%N] demo_world_full) /\
    body c' = body_zero.
Proof.
  assert (H : null_or (heap demo_world_full) (owned_body demo_ctx_full) is_ORaw).
  { right. exists (ORaw [Byte.x61; Byte.x62; Byte.x63]). split; [reflexivity|exact I]. }
  split; [exact H|].
  destruct (reply_context_set_body_without_buffer 1 2 demo_ctx_full
              demo_world_full NULL 0 0 H (or_introl eq_refl))
    as (c' & E & B & _).
  exists c'. split; [exact E|exact B].
Defined.

(** ** The further properties at the instance *)

Lemma demo_full_readable :
  reply_context_readable (heap demo_world_full) demo_ctx_full demo_rc.
Proof.
  split.
  - done.
  - reflexivity.
  - right. exists (OStr "OK"). split; [reflexivity|exact I].
  - right. exists (OHash {[ "k"%string := [Byte.x76] ]}). split; [reflexivity|exact I].
  - right; right. exists [Byte.x61; Byte.x62; Byte.x63].
    split; [reflexivity|cbn; lia].
Qed.

Lemma demo_readable_in_full :
  reply_context_readable (heap demo_world_full) demo_ctx demo_rc.
Proof.
  split.
  - done.
  - reflexivity.
  - by left.
  - by left.
  - by left.
Qed.

(** X1 at the instance: the message "OK" is replaced. *)
Lemma reply_context_set_message_replaces_witness :
  null_or (heap demo_world_full) (msg (header demo_ctx_full)) is_OStr /\
  exists p w',
    reply_context_set_message (Some demo_ctx_full) 404 (Some "Not found"%string)
      demo_world_full
    = Some (Some (mkReplyContext 1%N 2%N (mkHeader 404 p) (mkBody 5%N 3 1) 3%N), w') /\
    heap w' !! p = Some (OStr "Not found").
Proof.
  assert (H : null_or (heap demo_world_full) (msg (header demo_ctx_full)) is_OStr).
  { right. exists (OStr "OK"). split; [reflexivity|exact I]. }
  split; [exact H|].
  destruct (reply_context_set_message_replaces demo_ctx_full demo_world_full
              404 "Not found" H) as (p & w' & E & _ & L & _).
  exists p, w'. split; [exact E|exact L].
Defined.

(** X2 at the instance. *)
Lemma reply_context_set_message_then_answer_witness :
  reply_context_readable (heap demo_world_full) demo_ctx_full demo_rc /\
  exists c' w',
    reply_context_set_message (Some demo_ctx_full) 404 (Some ""%string)
      demo_world_full
    = Some (Some c', w') /\
    reply_context_readable (heap w') c' demo_rc.
Proof.
  split; [exact demo_full_readable|].
  destruct (reply_context_set_message_then_answer demo_reply_simple
              demo_add_field demo_set_BODY demo_ctx_full demo_world_full
              demo_rc 404 "" demo_full_readable) as (c' & w' & E & R & _).
  exists c', w'. split; [exact E|exact R].
Defined.

(** X3 at the instance: two of the three bytes at address 5, by copy. *)
Lemma reply_context_set_body_copy_witness :
  heap demo_world_full !! 5%N = Some (ORaw [Byte.x61; Byte.x62; Byte.x63]) /\
  Z.land 2 2 ≠ 0 /\
  exists p c' w',
    reply_context_set_body 1 2 (Some demo_ctx) 5%N 2 2 demo_world_full
    = Some (Some c', w') /\
    heap w' !! p = Some (ORaw [Byte.x61; Byte.x62]) /\
    heap w' !! 5%N = Some (ORaw [Byte.x61; Byte.x62; Byte.x63]).
Proof.
  split; [reflexivity|]. split; [discriminate|].
  destruct (reply_context_set_body_copy 1 2 demo_ctx demo_world_full 5%N 2 2
              [Byte.x61; Byte.x62; Byte.x63])
    as (p & c' & w' & E & _ & _ & _ & _ & _ & Lp & Lb & _).
  - by left.
  - by left.
  - discriminate.
  - cbn. lia.
  - lia.
  - reflexivity.
  - discriminate.
  - discriminate.
  - exists p, c', w'. split; [exact E|]. split; [exact Lp|exact Lb].
Defined.

(** X4 at the instance: the three bytes at address 5, borrowed. *)
Lemma reply_context_set_body_borrow_witness :
  heap demo_world_full !! 5%N = Some (ORaw [Byte.x61; Byte.x62; Byte.x63]) /\
  Z.land 0 2 = 0 /\
  exists c',
    reply_context_set_body 1 2 (Some demo_ctx) 5%N 3 0 demo_world_full
    = Some (Some c', demo_world_full) /\
    owned_body c' = NULL.
Proof.
  split; [reflexivity|]. split; [reflexivity|].
  destruct (reply_context_set_body_borrow 1 2 demo_ctx demo_world_full 5%N 3 0
              [Byte.x61; Byte.x62; Byte.x63])
    as (c' & E & _ & _ & O & _).
  - by left.
  - by left.
  - discriminate.
  - lia.
  - reflexivity.
  - discriminate.
  - reflexivity.
  - exists c'. split; [exact E|exact O].
Defined.

(** X5 at the instance. *)
Lemma reply_context_set_body_then_answer_witness :
  reply_context_readable (heap demo_world_full) demo_ctx demo_rc /\
  exists c' w',
    reply_context_set_body 1 2 (Some demo_ctx) 5%N 2 2 demo_world_full
    = Some (Some c', w') /\
    reply_context_readable (heap w') c' demo_rc.
Proof.
  split; [exact demo_readable_in_full|].
  destruct (reply_context_set_body_then_answer demo_reply_simple demo_add_field
              demo_set_BODY 1 2 demo_ctx demo_world_full demo_rc 5%N 2 2
              [Byte.x61; Byte.x62; Byte.x63])
    as (c' & w' & E & R & _).
  - exact demo_readable_in_full.
  - by left.
  - discriminate.
  - cbn. lia.
  - reflexivity.
  - discriminate.
  - intros _. lia.
  - exists c', w'. split; [exact E|exact R].
Defined.

(** X6 at the instance. *)
Lemma reply_context_clear_then_answer_witness :
  reply_context_readable (heap demo_world_full) demo_ctx_full demo_rc /\
  reply_context_ok (heap demo_world_full) demo_ctx_full /\
  exists c2 w2,
    reply_context_clear (Some demo_ctx_full) true demo_world_full
    = Some (Some c2, w2) /\
    reply_context_answer demo_reply_simple demo_add_field demo_set_BODY c2 w2
    = Some (mkDemo 0 "NOMSG" [] None, w2).
Proof.
  split; [exact demo_full_readable|]. split; [exact demo_full_ok|].
  destruct (reply_context_clear_then_answer demo_reply_simple demo_add_field
              demo_set_BODY demo_ctx_full demo_world_full demo_rc
              demo_full_readable demo_full_ok)
    as (_ & c2 & w2 & E & _ & A).
  exists c2, w2. split; [exact E|exact A].
Defined.

(** X7 at the instance. *)
Lemma reply_context_clear_idempotent_witness :
  reply_context_ok (heap demo_world_full) demo_ctx_full /\
  exists c' w',
    reply_context_clear (Some demo_ctx_full) true demo_world_full
    = Some (Some c', w') /\
    reply_context_clear (Some c') true w' = Some (Some c', w').
Proof.
  split; [exact demo_full_ok|].
  destruct (reply_context_clear_idempotent demo_ctx_full demo_world_full true
              demo_full_ok) as (c' & w' & E & _ & I2).
  exists c', w'. split; [exact E|exact (I2 eq_refl)].
Defined.

(** A request context at address 1 with its remote record at address 2 and
    its local record at address 3. *)
Definition demo_rc_addresses : @request_context_s demo_message :=
  mkRequestContext None 7 (mkTimeval 10 0) 2%N 3%N.

Definition demo_world_request : @world demo_message unit :=
  mkWorld (<[ 3%N := OAddr tt ]>
           (<[ 2%N := OAddr tt ]> {[ 1%N := OReqCtx demo_rc_addresses ]})) [].

(** X9 at the instance. *)
Lemma request_context_clear_idempotent_witness :
  heap demo_world_request !! 1%N = Some (OReqCtx demo_rc_addresses) /\
  exists w1,
    request_context_clear 1%N demo_world_request = Some (tt, w1) /\
    request_context_clear 1%N w1 = Some (tt, w1).
Proof.
  split; [reflexivity|].
  destruct (request_context_clear_idempotent 1%N demo_rc_addresses
              demo_world_request)
    as (w1 & E & _ & _ & I2 & _).
  - discriminate.
  - reflexivity.
  - right. exists (OAddr tt). split; [reflexivity|exact I].
  - right. exists (OAddr tt). split; [reflexivity|exact I].
  - right. discriminate.
  - exists w1. split; [exact E|exact I2].
Defined.

(** X11 at the instance: from the empty list. *)
Lemma registry_entries_well_formed_witness :
  Forall (handler_entry_ok 32)
    (BEACON_MSGHANDLER
       (register_all id 32%nat demo_GSETERROR
          [demo_registration "A" 1; demo_registration "B" 2]
          (mkRegistry [] None))).
Proof.
  apply (registry_entries_well_formed id 32%nat demo_GSETERROR
           [demo_registration "A" 1; demo_registration "B" 2]
           (mkRegistry [] None)).
  constructor.
Defined.

(** X14 at the instance: a context with no table yet. *)
Lemma extra_headers_never_empty_witness :
  null_or (heap demo_world) (extra_headers demo_ctx) is_OHash /\
  headers_nonempty (headers_of demo_world demo_ctx) /\
  exists c' w',
    reply_context_add_strheader_in_reply (Some demo_ctx) (Some "Content"%string)
      (Some "a"%string) demo_world
    = Some (Some c', w') /\
    headers_nonempty (headers_of w' c').
Proof.
  assert (H1 : null_or (heap demo_world) (extra_headers demo_ctx) is_OHash)
    by (by left).
  assert (H2 : headers_nonempty (headers_of demo_world demo_ctx)).
  { intros k v H. cbn in H. by rewrite lookup_empty in H. }
  split; [exact H1|]. split; [exact H2|].
  destruct (extra_headers_never_empty demo_add_field demo_ctx demo_world H1 H2)
    as (S & _).
  destruct (S (Some "Content"%string) (Some "a"%string)) as (c' & w' & E & _ & N).
  - reflexivity.
  - exists c', w'. split; [exact E|exact N].
Defined.


(** X17 at the instance, with a transport that times out. *)
Lemma reply_context_reply_leaves_context_witness :
  reply_context_readable (heap demo_world_full) demo_ctx_full demo_rc /\
  exists r e w',
    reply_context_reply demo_reply_simple demo_add_field demo_set_BODY
      demo_marshall demo_write_timeout 30000 demo_ctx_full demo_world_full
    = Some ((r, e), w') /\
    heap w' = heap demo_world_full.
Proof.
  split; [exact demo_full_readable|].
  destruct (reply_context_reply_leaves_context demo_reply_simple demo_add_field
              demo_set_BODY demo_marshall demo_write_timeout 30000
              demo_ctx_full demo_world_full demo_rc demo_full_readable)
    as (r & e & w' & E & _ & H & _).
  exists r, e, w'. split; [exact E|exact H].
Defined.

(** A buffer of 2^32 + 2 bytes at address 5, beside the request context. *)
Definition demo_big_buffer : list Byte.byte :=
  replicate (N.to_nat 4294967298) Byte.x61.

Definition demo_world_big : @world demo_message unit :=
  mkWorld (<[ 5%N := ORaw demo_big_buffer ]> {[ 1%N := OReqCtx demo_rc ]}) [].

Lemma length_demo_big_buffer : Z.of_nat (length demo_big_buffer) = 4294967298.
Proof. unfold demo_big_buffer. by rewrite length_replicate, N_nat_Z. Qed.

(** X18 at the instance: the whole buffer is given with the copy flag; the
    copy has two bytes under a size of 2^32 + 2, and the reply is not
    defined. *)
Lemma reply_context_set_body_copy_truncated_witness :
  reply_context_readable (heap demo_world_big) demo_ctx demo_rc /\
  heap demo_world_big !! 5%N = Some (ORaw demo_big_buffer) /\
  Z.of_nat (length demo_big_buffer) = 4294967298 /\
  exists c' w',
    reply_context_set_body 1 2 (Some demo_ctx) 5%N 4294967298 2 demo_world_big
    = Some (Some c', w') /\
    size (body c') = 4294967298 /\
    heap w' !! buffer (body c') = Some (ORaw (take 2 demo_big_buffer)) /\
    reply_context_reply demo_reply_simple demo_add_field demo_set_BODY
      demo_marshall demo_write_all 30000 c' w'
    = None.
Proof.
  assert (R : reply_context_readable (heap demo_world_big) demo_ctx demo_rc).
  { split; [done|reflexivity|by left|by left|by left]. }
  split; [exact R|]. split; [reflexivity|].
  split; [exact length_demo_big_buffer|].
  destruct (reply_context_set_body_copy_truncated demo_reply_simple
              demo_add_field demo_set_BODY demo_marshall demo_write_all 30000
              1 2 demo_ctx demo_world_big demo_rc 5%N 4294967298 2
              demo_big_buffer)
    as (c' & w' & E & Sz & _ & T).
  - exact R.
  - by left.
  - discriminate.
  - lia.
  - rewrite length_demo_big_buffer. discriminate.
  - reflexivity.
  - discriminate.
  - discriminate.
  - destruct T as (_ & L & _ & _ & Rp); [discriminate|].
    exists c', w'. split; [exact E|]. split; [exact Sz|].
    split; [exact L|exact Rp].
Defined.
